(** * A shallow embedding of the Azul game model (core/azul_model.py)

    The development follows the Python source class by class:
    [TileDisplay], [AgentState] and [AzulState] are records, the methods
    that mutate [self] are computations in a small state-and-exception
    monad (the state is the object being mutated; it survives a raised
    exception, as a Python object mutated in place does), dictionaries
    keyed by tile colour are [gmap]s, Python lists are lists read with
    [!!!] and written with [<[ i := x ]>].

    Python integers are [Z].  The numpy grids hold only the floats 0.0 and
    1.0, which are added and compared exactly; they are [Z] here. *)

From stdpp Require Import base numbers list option countable gmap.

Open Scope Z_scope.

(** ** Exceptions and the state-and-exception monad *)

Inductive exn := AssertionError | IndexError | KeyError | ValueError.

#[global] Instance exn_eq_dec : EqDecision exn.
Proof. solve_decision. Defined.

(** Result of a computation that has no object to mutate. *)
Inductive result (A : Type) :=
  | Ok (a : A)
  | Raise (e : exn).
Arguments Ok {A} a.
Arguments Raise {A} e.

(** Result of a method call on an object of type [S]: a value and the
    object after the call, or an exception and the object as the
    exception left it. *)
Inductive outcome (S A : Type) :=
  | Done (a : A) (s : S)
  | Raised (e : exn) (s : S).
Arguments Done {S A} a s.
Arguments Raised {S A} e s.

Definition M (S A : Type) : Type := S → outcome S A.

#[global] Instance M_ret {S} : MRet (M S) := λ A a s, Done a s.
#[global] Instance M_bind {S} : MBind (M S) := λ A B f m s,
  match m s with
  | Done a s' => f a s'
  | Raised e s' => Raised e s'
  end.

Definition get {S} : M S S := λ s, Done s s.
Definition modify {S} (f : S → S) : M S unit := λ s, Done () (f s).
Definition raise {S A} (e : exn) : M S A := λ s, Raised e s.

(** Python's [assert c]. *)
Definition py_assert {S} (c : bool) : M S unit :=
  if c then mret () else raise AssertionError.

(** The object a computation leaves behind, whether it returned or raised. *)
Definition final_state {S A} (o : outcome S A) : S :=
  match o with Done _ s => s | Raised _ s => s end.

(** [for x in xs: body x], run in order. *)
Fixpoint for_each {S A} (xs : list A) (body : A → M S unit) : M S unit :=
  match xs with
  | [] => mret ()
  | x :: rest => body x;; for_each rest body
  end.

(** Python list indexing [l[i]]: a negative index counts from the end, an
    index out of range raises IndexError. *)
Definition py_index {A} (l : list A) (i : Z) : option nat :=
  let n := Z.of_nat (length l) in
  if (0 <=? i) && (i <? n) then Some (Z.to_nat i)
  else if (- n <=? i) && (i <? 0) then Some (Z.to_nat (n + i))
  else None.

(** Sum of a list of integers. *)
Definition sumZ (l : list Z) : Z := foldr Z.add 0 l.

(** [range(n)] for a Python integer [n]. *)
Definition py_range (n : Z) : list nat := seq 0 (Z.to_nat n).

(** ** Tiles, actions *)

(** Modelled from the spec: [utils.Tile] is declared in core/azul_utils.py,
    which is not part of the sources at hand.  The spec's data model has a
    fixed set of five enumerated colours; their integer values (which index
    the numpy placement scheme and the hash tables) are the ones
    api/routes.py spells out: 0 blue, 1 yellow, 2 red, 3 black, 4 white. *)
Inductive Tile := BLUE | YELLOW | RED | BLACK | WHITE.

#[global] Instance Tile_eq_dec : EqDecision Tile.
Proof. solve_decision. Defined.

Definition tile_value (t : Tile) : Z :=
  match t with BLUE => 0 | YELLOW => 1 | RED => 2 | BLACK => 3 | WHITE => 4 end.

Definition tile_of_value (z : Z) : option Tile :=
  match z with
  | 0 => Some BLUE | 1 => Some YELLOW | 2 => Some RED
  | 3 => Some BLACK | 4 => Some WHITE | _ => None
  end.

Lemma tile_of_value_value t : tile_of_value (tile_value t) = Some t.
Proof. by destruct t. Qed.

#[global] Instance Tile_countable : Countable Tile.
Proof. exact (inj_countable tile_value tile_of_value tile_of_value_value). Defined.

(** [for tile in utils.Tile]: the members in declaration order. *)
Definition all_tiles : list Tile := [BLUE; YELLOW; RED; BLACK; WHITE].

(** [{tile: 0 for tile in utils.Tile}] *)
Definition zero_counts : gmap Tile Z :=
  list_to_map ((λ t, (t, 0)) <$> all_tiles).

(** Modelled from the spec: [utils.Action] is declared in core/azul_utils.py.
    The spec's Action is a tagged variant, a take from a specific factory or
    from the centre. *)
Inductive ActionKind := TAKE_FROM_FACTORY | TAKE_FROM_CENTRE.

#[global] Instance ActionKind_eq_dec : EqDecision ActionKind.
Proof. solve_decision. Defined.

(** Modelled from the spec: [utils.TileGrab] is declared in
    core/azul_utils.py.  The spec's Action carries the number of tiles of
    one colour taken and its decomposition into tiles for one pattern line
    and tiles for the floor line; these are the five attributes the source
    assigns. *)
Record TileGrab := mkTileGrab {
  tile_type : Tile;
  number : Z;
  pattern_line_dest : Z;
  num_to_pattern_line : Z;
  num_to_floor_line : Z
}.

#[global] Instance TileGrab_eq_dec : EqDecision TileGrab.
Proof. solve_decision. Defined.

(** An action is one of the strings "ENDROUND" and "STARTROUND" or a tuple
    [(kind, factory id, tile grab)]. *)
Inductive action :=
  | ENDROUND
  | STARTROUND
  | Take (kind : ActionKind) (fid : Z) (tg : TileGrab).

#[global] Instance action_eq_dec : EqDecision action.
Proof. solve_decision. Defined.

(** ** class TileDisplay *)

Record TileDisplay := mkTileDisplay {
  tiles : gmap Tile Z;
  total : Z
}.

#[global] Instance TileDisplay_eq_dec : EqDecision TileDisplay.
Proof. solve_decision. Defined.

Definition TileDisplay_new : TileDisplay :=
  {| tiles := zero_counts; total := 0 |}.

#[global] Instance TileDisplay_inhabited : Inhabited TileDisplay :=
  populate TileDisplay_new.

Definition ReactionTiles (number : Z) (tile_type : Tile) : M TileDisplay unit :=
  py_assert (bool_decide (number > 0));;
  modify (λ d, {| tiles := <[tile_type := tiles d !!! tile_type - number]> (tiles d);
                  total := total d - number |});;
  d ← get;
  py_assert (bool_decide (tiles d !!! tile_type >= 0));;
  py_assert (bool_decide (total d >= 0)).

Definition AddTiles (number : Z) (tile_type : Tile) : M TileDisplay unit :=
  py_assert (bool_decide (number > 0));;
  modify (λ d, {| tiles := <[tile_type := tiles d !!! tile_type + number]> (tiles d);
                  total := total d + number |}).

(** ** class AgentState

    [agent_trace] (a [utils.AgentTrace], the log of actions and round
    scores kept for replays) takes no part in the rules and is left out.
    [grid_scheme] is filled once by the constructor with the same table for
    every agent and never written again: it is the constant [grid_scheme]
    below rather than a field.  [lines_tile] holds a tile or -1 (no colour
    assigned): an [option Tile] here. *)

Definition GRID_SIZE : Z := 5.
Definition FLOOR_SCORES : list Z := [-1; -1; -2; -2; -2; -3; -3].
Definition ROW_BONUS : Z := 2.
Definition COL_BONUS : Z := 7.
Definition SET_BONUS : Z := 10.

(** [int(self.grid_scheme[row][tile])]: the wall column of a colour in a row. *)
Definition grid_scheme (row : nat) (tile : Tile) : nat :=
  match tile, row with
  | BLUE, 0 => 0 | BLUE, 1 => 1 | BLUE, 2 => 2 | BLUE, 3 => 3 | BLUE, 4 => 4
  | WHITE, 1 => 0 | WHITE, 2 => 1 | WHITE, 3 => 2 | WHITE, 4 => 3 | WHITE, 0 => 4
  | BLACK, 2 => 0 | BLACK, 3 => 1 | BLACK, 4 => 2 | BLACK, 0 => 3 | BLACK, 1 => 4
  | RED, 3 => 0 | RED, 4 => 1 | RED, 0 => 2 | RED, 1 => 3 | RED, 2 => 4
  | YELLOW, 4 => 0 | YELLOW, 0 => 1 | YELLOW, 1 => 2 | YELLOW, 2 => 3 | YELLOW, 3 => 4
  | _, _ => 0
  end%nat.

Record AgentState := mkAgentState {
  agent_id : Z;
  score : Z;
  lines_number : list Z;
  lines_tile : list (option Tile);
  grid_state : list (list Z);
  floor : list Z;
  floor_tiles : list Tile;
  number_of : gmap Tile Z
}.

#[global] Instance AgentState_eq_dec : EqDecision AgentState.
Proof. solve_decision. Defined.

Definition set_score (v : Z) (a : AgentState) : AgentState :=
  mkAgentState (agent_id a) v (lines_number a) (lines_tile a) (grid_state a)
    (floor a) (floor_tiles a) (number_of a).
Definition set_lines_number (v : list Z) (a : AgentState) : AgentState :=
  mkAgentState (agent_id a) (score a) v (lines_tile a) (grid_state a)
    (floor a) (floor_tiles a) (number_of a).
Definition set_lines_tile (v : list (option Tile)) (a : AgentState) : AgentState :=
  mkAgentState (agent_id a) (score a) (lines_number a) v (grid_state a)
    (floor a) (floor_tiles a) (number_of a).
Definition set_grid_state (v : list (list Z)) (a : AgentState) : AgentState :=
  mkAgentState (agent_id a) (score a) (lines_number a) (lines_tile a) v
    (floor a) (floor_tiles a) (number_of a).
Definition set_floor (v : list Z) (a : AgentState) : AgentState :=
  mkAgentState (agent_id a) (score a) (lines_number a) (lines_tile a) (grid_state a)
    v (floor_tiles a) (number_of a).
Definition set_floor_tiles (v : list Tile) (a : AgentState) : AgentState :=
  mkAgentState (agent_id a) (score a) (lines_number a) (lines_tile a) (grid_state a)
    (floor a) v (number_of a).
Definition set_number_of (v : gmap Tile Z) (a : AgentState) : AgentState :=
  mkAgentState (agent_id a) (score a) (lines_number a) (lines_tile a) (grid_state a)
    (floor a) (floor_tiles a) v.

(** [AgentState(_id)] *)
Definition AgentState_new (_id : Z) : AgentState :=
  {| agent_id := _id;
     score := 0;
     lines_number := replicate 5 0;
     lines_tile := replicate 5 None;
     grid_state := replicate 5 (replicate 5 0);
     floor := [0; 0; 0; 0; 0; 0; 0];
     floor_tiles := [];
     number_of := zero_counts |}.

#[global] Instance AgentState_inhabited : Inhabited AgentState :=
  populate (AgentState_new 0).

(** [grid[i][j]] and [grid[i][j] = v] on the 5x5 numpy array; every index
    the source uses is drawn from [range(5)] or from the placement scheme. *)
Definition grid_get (g : list (list Z)) (i j : nat) : Z := (g !!! i) !!! j.
Definition grid_set (g : list (list Z)) (i j : nat) (v : Z) : list (list Z) :=
  <[i := <[j := v]> (g !!! i)]> g.

(** One step of [AddToFloor]'s loop over the floor slots, with the loop's
    variables [tiles] (the caller's list, popped from the front) and
    [number]; the loop leaves at the first [number == 0]. *)
Fixpoint AddToFloor_loop (slots : list nat) (tiles : list Tile) (number : Z)
    : M AgentState (list Tile) :=
  match slots with
  | [] => mret tiles
  | i :: rest =>
      a ← get;
      '(tiles, number) ←
        (if bool_decide (floor a !!! i = 0) then
           modify (set_floor (<[i := 1]> (floor a)));;
           match tiles with
           | [] => raise IndexError
           | t :: tiles' =>
               modify (λ a, set_floor_tiles (floor_tiles a ++ [t]) a);;
               mret (tiles', number - 1)
           end
         else mret (tiles, number));
      if bool_decide (number = 0) then mret tiles
      else AddToFloor_loop rest tiles number
  end.

(** [AddToFloor(tiles)]; the result is what is left of the caller's list. *)
Definition AddToFloor (tiles : list Tile) : M AgentState (list Tile) :=
  a ← get;
  AddToFloor_loop (seq 0 (length (floor a))) tiles (Z.of_nat (length tiles)).

Definition AddToPatternLine (line number : Z) (tile_type : Tile) : M AgentState unit :=
  py_assert (bool_decide (line >= 0 ∧ line < GRID_SIZE));;
  let l := Z.to_nat line in
  a ← get;
  py_assert (bool_decide (lines_tile a !!! l = None ∨ lines_tile a !!! l = Some tile_type));;
  modify (λ a, set_lines_number (<[l := lines_number a !!! l + number]> (lines_number a)) a);;
  modify (λ a, set_lines_tile (<[l := Some tile_type]> (lines_tile a)) a);;
  a ← get;
  py_assert (bool_decide (lines_number a !!! l <= line + 1)).

(** The first free floor slot, if any, becomes occupied. *)
Fixpoint first_free_slot (fl : list Z) : list Z :=
  match fl with
  | [] => []
  | x :: rest => if bool_decide (x = 0) then 1 :: rest else x :: first_free_slot rest
  end.

Definition GiveFirstAgentToken : M AgentState unit :=
  modify (λ a, set_floor (first_free_slot (floor a)) a).

Definition GetCompletedRows (a : AgentState) : Z :=
  Z.of_nat (length (filter (λ i, forallb (λ j, negb (bool_decide (grid_get (grid_state a) i j = 0)))
                                         (py_range GRID_SIZE) = true)
                           (py_range GRID_SIZE))).

Definition GetCompletedColumns (a : AgentState) : Z :=
  Z.of_nat (length (filter (λ i, forallb (λ j, negb (bool_decide (grid_get (grid_state a) j i = 0)))
                                         (py_range GRID_SIZE) = true)
                           (py_range GRID_SIZE))).

Definition GetCompletedSets (a : AgentState) : Z :=
  Z.of_nat (length (filter (λ tile, number_of a !!! tile = GRID_SIZE) all_tiles)).

(** A loop that sums the cells it visits and leaves after the first empty
    one: [for j in ...: val = cell j; acc += val; if val == 0: break]. *)
Fixpoint count_run (cells : list Z) : Z :=
  match cells with
  | [] => 0
  | val :: rest => if bool_decide (val = 0) then val else val + count_run rest
  end.

(** The four counting loops of [ScoreRound] around the cell [(i, col)],
    named as in the source: [above] and [below] walk along row [i] to the
    left and to the right, [left] and [right] walk up and down column
    [col]. *)
Definition run_above (g : list (list Z)) (i col : nat) : Z :=
  count_run ((λ j, grid_get g i j) <$> reverse (seq 0 col)).
Definition run_below (g : list (list Z)) (i col : nat) : Z :=
  count_run ((λ j, grid_get g i j) <$> seq (col + 1) (5 - (col + 1))).
Definition run_left (g : list (list Z)) (i col : nat) : Z :=
  count_run ((λ j, grid_get g j col) <$> reverse (seq 0 i)).
Definition run_right (g : list (list Z)) (i col : nat) : Z :=
  count_run ((λ j, grid_get g j col) <$> seq (i + 1) (5 - (i + 1))).

(** What the three [if]s after the counting loops add to [score_inc]. *)
Definition tile_points (above below left right : Z) : Z :=
  (if bool_decide (above > 0 ∨ below > 0) then 1 + above + below else 0)
  + (if bool_decide (left > 0 ∨ right > 0) then 1 + left + right else 0)
  + (if bool_decide (above = 0 ∧ below = 0 ∧ left = 0 ∧ right = 0) then 1 else 0).

(** The body of [ScoreRound]'s loop over the pattern lines, for line [i];
    the loop's variables are [used_tiles] and [score_inc]. *)
Definition ScoreRound_line (i : nat) (acc : list Tile * Z) : M AgentState (list Tile * Z) :=
  let '(used_tiles, score_inc) := acc in
  a ← get;
  if bool_decide (lines_number a !!! i = Z.of_nat i + 1) then
    match lines_tile a !!! i with
    | None => raise KeyError
    | Some tc =>
        let col := grid_scheme i tc in
        modify (λ a, set_number_of (<[tc := number_of a !!! tc + 1]> (number_of a)) a);;
        let used_tiles := used_tiles ++ replicate i tc in
        modify (λ a, set_lines_tile (<[i := None]> (lines_tile a)) a);;
        modify (λ a, set_lines_number (<[i := 0]> (lines_number a)) a);;
        modify (λ a, set_grid_state (grid_set (grid_state a) i col 1) a);;
        a ← get;
        let g := grid_state a in
        mret (used_tiles,
              score_inc + tile_points (run_above g i col) (run_below g i col)
                                      (run_left g i col) (run_right g i col))
    end
  else mret (used_tiles, score_inc).

Fixpoint ScoreRound_lines (rows : list nat) (acc : list Tile * Z) : M AgentState (list Tile * Z) :=
  match rows with
  | [] => mret acc
  | i :: rest => acc ← ScoreRound_line i acc; ScoreRound_lines rest acc
  end.

(** [penalties += self.floor[i]*self.FLOOR_SCORES[i]] over the floor line. *)
Definition floor_penalties (fl : list Z) : Z :=
  sumZ ((λ i, (fl !!! i) * (FLOOR_SCORES !!! i)) <$> seq 0 (length fl)).

(** The clamp of [ScoreRound]: the change of score actually applied. *)
Definition clamp_score_change (score score_inc penalties : Z) : Z :=
  let score_change := score_inc + penalties in
  if bool_decide (score_change < 0 ∧ score < - score_change) then - score
  else score_change.

(** [ScoreRound()]: returns the pair [(self.score, used_tiles)]. *)
Definition ScoreRound : M AgentState (Z * list Tile) :=
  '(used_tiles, score_inc) ← ScoreRound_lines (py_range GRID_SIZE) ([], 0);
  a ← get;
  let penalties := floor_penalties (floor a) in
  modify (λ a, set_floor (replicate (length (floor a)) 0) a);;
  let used_tiles := used_tiles ++ floor_tiles a in
  modify (set_floor_tiles []);;
  let score_change := clamp_score_change (score a) score_inc penalties in
  modify (λ a, set_score (score a + score_change) a);;
  a ← get;
  mret (score a, used_tiles).

Definition EndOfGameScore : M AgentState Z :=
  a ← get;
  let bonus := GetCompletedRows a * ROW_BONUS + GetCompletedColumns a * COL_BONUS
               + GetCompletedSets a * SET_BONUS in
  modify (set_score (score a + bonus));;
  mret bonus.

(** ** class AzulState *)

Definition NUM_FACTORIES : list Z := [5].
Definition NUM_TILE_TYPE : Z := 20.
Definition NUM_ON_FACTORY : Z := 4.

Record AzulState := mkAzulState {
  agents : list AgentState;
  bag : list Tile;
  bag_used : list Tile;
  factories : list TileDisplay;
  centre_pool : TileDisplay;
  first_agent_taken : bool;
  first_agent : Z;
  next_first_agent : Z
}.

#[global] Instance AzulState_eq_dec : EqDecision AzulState.
Proof. solve_decision. Defined.

Definition set_agents (v : list AgentState) (s : AzulState) : AzulState :=
  mkAzulState v (bag s) (bag_used s) (factories s) (centre_pool s)
    (first_agent_taken s) (first_agent s) (next_first_agent s).
Definition set_bag (v : list Tile) (s : AzulState) : AzulState :=
  mkAzulState (agents s) v (bag_used s) (factories s) (centre_pool s)
    (first_agent_taken s) (first_agent s) (next_first_agent s).
Definition set_bag_used (v : list Tile) (s : AzulState) : AzulState :=
  mkAzulState (agents s) (bag s) v (factories s) (centre_pool s)
    (first_agent_taken s) (first_agent s) (next_first_agent s).
Definition set_factories (v : list TileDisplay) (s : AzulState) : AzulState :=
  mkAzulState (agents s) (bag s) (bag_used s) v (centre_pool s)
    (first_agent_taken s) (first_agent s) (next_first_agent s).
Definition set_centre_pool (v : TileDisplay) (s : AzulState) : AzulState :=
  mkAzulState (agents s) (bag s) (bag_used s) (factories s) v
    (first_agent_taken s) (first_agent s) (next_first_agent s).
Definition set_first_agent_taken (v : bool) (s : AzulState) : AzulState :=
  mkAzulState (agents s) (bag s) (bag_used s) (factories s) (centre_pool s)
    v (first_agent s) (next_first_agent s).
Definition set_first_agent (v : Z) (s : AzulState) : AzulState :=
  mkAzulState (agents s) (bag s) (bag_used s) (factories s) (centre_pool s)
    (first_agent_taken s) v (next_first_agent s).
Definition set_next_first_agent (v : Z) (s : AzulState) : AzulState :=
  mkAzulState (agents s) (bag s) (bag_used s) (factories s) (centre_pool s)
    (first_agent_taken s) (first_agent s) v.

(** A method call on the agent object [state.agents[i]]: the agent in the
    list is the object the method mutates, also when the method raises. *)
Definition on_agent {A} (i : nat) (m : M AgentState A) : M AzulState A := λ s,
  match agents s !! i with
  | None => Raised IndexError s
  | Some a =>
      match m a with
      | Done x a' => Done x (set_agents (<[i := a']> (agents s)) s)
      | Raised e a' => Raised e (set_agents (<[i := a']> (agents s)) s)
      end
  end.

(** The same for the display object [state.factories[i]]. *)
Definition on_factory {A} (i : nat) (m : M TileDisplay A) : M AzulState A := λ s,
  match factories s !! i with
  | None => Raised IndexError s
  | Some d =>
      match m d with
      | Done x d' => Done x (set_factories (<[i := d']> (factories s)) s)
      | Raised e d' => Raised e (set_factories (<[i := d']> (factories s)) s)
      end
  end.

(** The same for [state.centre_pool]. *)
Definition on_centre {A} (m : M TileDisplay A) : M AzulState A := λ s,
  match m (centre_pool s) with
  | Done x d' => Done x (set_centre_pool d' s)
  | Raised e d' => Raised e (set_centre_pool d' s)
  end.

(** The global random number generator, as far as the model draws on it:
    what [random.shuffle] makes of a list and what [random.randrange(n)]
    returns for a positive [n]. *)
Record RandomSource := mkRandomSource {
  shuffle : list Tile → list Tile;
  randrange : Z → Z
}.

Definition TilesRemaining (s : AzulState) : bool :=
  if bool_decide (total (centre_pool s) > 0) then true
  else existsb (λ fac, bool_decide (total fac > 0)) (factories s).

(** The tiles a factory gains from the drawn tiles:
    [factory.tiles[tile] += 1; factory.total += 1] for each. *)
Definition place_on_factory (drawn : list Tile) (factory : TileDisplay) : TileDisplay :=
  foldl (λ f tile, {| tiles := <[tile := tiles f !!! tile + 1]> (tiles f);
                      total := total f + 1 |}) factory drawn.

(** [InitialiseFactory(factory)]: the state is mutated (bag and used bag),
    the result is the factory object after the call. *)
Definition InitialiseFactory (rs : RandomSource) (factory : TileDisplay)
    : M AzulState TileDisplay :=
  let factory := {| tiles := foldl (λ m tile, <[tile := 0]> m) (tiles factory) all_tiles;
                    total := 0 |} in
  s ← get;
  (if bool_decide (Z.of_nat (length (bag s)) < NUM_ON_FACTORY
                   ∧ Z.of_nat (length (bag_used s)) > 0) then
     modify (λ s, set_bag_used [] (set_bag (bag s ++ shuffle rs (bag_used s)) s))
   else mret ());;
  s ← get;
  let k := Z.to_nat (Z.min NUM_ON_FACTORY (Z.of_nat (length (bag s)))) in
  modify (set_bag (drop k (bag s)));;
  mret (place_on_factory (take k (bag s)) factory).

(** The state before the constructor has run. *)
Definition AzulState_blank : AzulState :=
  {| agents := []; bag := []; bag_used := []; factories := [];
     centre_pool := TileDisplay_new; first_agent_taken := false;
     first_agent := 0; next_first_agent := 0 |}.

(** The constructor's loop over the factory displays. *)
Fixpoint init_factories (rs : RandomSource) (n : nat) : M AzulState unit :=
  match n with
  | O => mret ()
  | S n' =>
      td ← InitialiseFactory rs TileDisplay_new;
      modify (λ s, set_factories (factories s ++ [td]) s);;
      init_factories rs n'
  end.

(** [AzulState.__init__(num_agents)], as a computation on the new object. *)
Definition AzulState_init (rs : RandomSource) (num_agents : Z) : M AzulState unit :=
  modify (set_agents ((λ i, AgentState_new (Z.of_nat i)) <$> py_range num_agents));;
  modify (set_bag (shuffle rs (mjoin (replicate (Z.to_nat NUM_TILE_TYPE)
                                        [BLUE; YELLOW; RED; BLACK; WHITE]))));;
  modify (set_bag_used []);;
  modify (set_factories []);;
  init_factories rs (Z.to_nat (NUM_FACTORIES !!! 0%nat));;
  modify (set_centre_pool TileDisplay_new);;
  modify (set_first_agent_taken false);;
  (if bool_decide (num_agents <= 0) then raise ValueError
   else modify (set_first_agent (randrange rs num_agents)));;
  modify (set_next_first_agent (-1)).

(** [AzulState(num_agents)]: the constructed object, or the exception. *)
Definition AzulState_new (rs : RandomSource) (num_agents : Z) : result AzulState :=
  match AzulState_init rs num_agents AzulState_blank with
  | Done _ s => Ok s
  | Raised e _ => Raise e
  end.

Definition ExecuteEndOfRound : M AzulState unit :=
  s ← get;
  for_each (seq 0 (length (agents s))) (λ i,
    '(_, used) ← on_agent i ScoreRound;
    modify (λ s, set_bag_used (bag_used s ++ used) s)).

(** [clone]'s copy of one agent into the agent of the new state: the
    attributes the source assigns, in its order. *)
Definition clone_agent (new_agent agent : AgentState) : AgentState :=
  set_floor_tiles (floor_tiles agent)
    (set_floor (floor agent)
      (set_grid_state (grid_state agent)
        (set_lines_tile (lines_tile agent)
          (set_lines_number (lines_number agent)
            (set_score (score agent) new_agent))))).

Definition clone_factory (new_factory factory : TileDisplay) : TileDisplay :=
  {| tiles := tiles factory; total := total factory |}.

(** [for i, x in enumerate(xs): copy x into news[i]]; [news[i]] raises
    IndexError when [xs] is the longer list. *)
Definition clone_each {A} (copy : A → A → A) (news xs : list A) : result (list A) :=
  if bool_decide (length xs ≤ length news)%nat
  then Ok (zip_with copy news xs ++ drop (length xs) news)
  else Raise IndexError.

Definition clone (rs : RandomSource) (self : AzulState) : result AzulState :=
  match AzulState_new rs (Z.of_nat (length (agents self))) with
  | Raise e => Raise e
  | Ok new_state =>
      match clone_each clone_agent (agents new_state) (agents self) with
      | Raise e => Raise e
      | Ok new_agents =>
          match clone_each clone_factory (factories new_state) (factories self) with
          | Raise e => Raise e
          | Ok new_factories =>
              Ok {| agents := new_agents;
                    bag := bag self;
                    bag_used := bag_used self;
                    factories := new_factories;
                    centre_pool := {| tiles := tiles (centre_pool self);
                                      total := total (centre_pool self) |};
                    first_agent_taken := first_agent_taken self;
                    first_agent := first_agent self;
                    next_first_agent := next_first_agent self |}
          end
      end
  end.

Definition is_game_over (s : AzulState) : bool :=
  existsb (λ agent,
      existsb (λ row, forallb (λ col, bool_decide (grid_get (grid_state agent) row col = 1))
                              (seq 0 5))
              (seq 0 5))
    (agents s).

(** ** class AzulGameRule *)

(** Modelled from the spec: [utils.TileGrab.__init__] is in
    core/azul_utils.py.  The default action of the spec dumps everything to
    the floor, so a new tile grab sends no tile to a pattern line; its
    pattern line is -1, no line, the value api/routes.py uses for a move
    without one. *)
Definition TileGrab_new_pattern_line_dest : Z := -1.
Definition TileGrab_new_num_to_pattern_line : Z := 0.

(** The part of a take shared by both kinds: tiles for the floor line
    (what the floor cannot hold goes to the used bag), then tiles for the
    pattern line. *)
Definition take_to_board (plr : nat) (tg : TileGrab) : M AzulState unit :=
  (if bool_decide (num_to_floor_line tg > 0) then
     let ttf := replicate (Z.to_nat (num_to_floor_line tg)) (tile_type tg) in
     ttf ← on_agent plr (AddToFloor ttf);
     modify (λ s, set_bag_used (bag_used s ++ ttf) s)
   else mret ());;
  (if bool_decide (num_to_pattern_line tg > 0) then
     on_agent plr (AddToPatternLine (pattern_line_dest tg) (num_to_pattern_line tg)
                                    (tile_type tg))
   else mret ()).

(** [generateSuccessor(state, action, agent_id)]: the state is mutated in
    place and returned. *)
Definition generateSuccessor (rs : RandomSource) (action : action) (agent_id : Z)
    : M AzulState unit :=
  match action with
  | ENDROUND =>
      ExecuteEndOfRound;;
      modify (set_first_agent_taken false);;
      modify (λ s, set_first_agent (next_first_agent s) s);;
      modify (set_next_first_agent (-1))
  | STARTROUND =>
      s ← get;
      for_each (seq 0 (length (factories s))) (λ i,
        s ← get;
        fd ← InitialiseFactory rs (factories s !!! i);
        modify (λ s, set_factories (<[i := fd]> (factories s)) s));;
      modify (λ s, set_centre_pool
                     {| tiles := foldl (λ m tile, <[tile := 0]> m) (tiles (centre_pool s)) all_tiles;
                        total := total (centre_pool s) |} s)
  | Take kind fid tg =>
      s ← get;
      match py_index (agents s) agent_id with
      | None => raise IndexError
      | Some plr =>
          match kind with
          | TAKE_FROM_CENTRE =>
              (if negb (first_agent_taken s) then
                 on_agent plr GiveFirstAgentToken;;
                 modify (set_first_agent_taken true);;
                 modify (set_next_first_agent agent_id)
               else mret ());;
              take_to_board plr tg;;
              on_centre (ReactionTiles (number tg) (tile_type tg))
          | TAKE_FROM_FACTORY =>
              take_to_board plr tg;;
              s ← get;
              match py_index (factories s) fid with
              | None => raise IndexError
              | Some fac =>
                  on_factory fac (ReactionTiles (number tg) (tile_type tg));;
                  for_each all_tiles (λ tile,
                    s ← get;
                    let num_on_fd := tiles (factories s !!! fac) !!! tile in
                    if bool_decide (num_on_fd > 0) then
                      on_centre (AddTiles num_on_fd tile);;
                      on_factory fac (ReactionTiles num_on_fd tile)
                    else mret ())
              end
          end
      end
  end.

(** The actions [getLegalActions] appends for one colour of one display:
    one for each pattern line that passes the two [continue] tests, then
    the default action. *)
Definition colour_actions (agent_state : AgentState) (kind : ActionKind) (fid : Z)
    (tile : Tile) (num_avail : Z) : list action :=
  (py_range GRID_SIZE ≫= (λ i,
      if bool_decide (lines_tile agent_state !!! i ≠ None
                      ∧ lines_tile agent_state !!! i ≠ Some tile) then []
      else
        let grid_col := grid_scheme i tile in
        if bool_decide (grid_get (grid_state agent_state) i grid_col = 1) then []
        else
          let slots_free := (Z.of_nat i + 1) - lines_number agent_state !!! i in
          let to_pattern := Z.min num_avail slots_free in
          [Take kind fid
             {| tile_type := tile;
                number := num_avail;
                pattern_line_dest := Z.of_nat i;
                num_to_pattern_line := to_pattern;
                num_to_floor_line := num_avail - to_pattern |}]))
  ++ [Take kind fid
        {| tile_type := tile;
           number := num_avail;
           pattern_line_dest := TileGrab_new_pattern_line_dest;
           num_to_pattern_line := TileGrab_new_num_to_pattern_line;
           num_to_floor_line := num_avail |}].

(** The actions appended for one display: every colour it holds. *)
Definition display_actions (agent_state : AgentState) (kind : ActionKind) (fid : Z)
    (fd : TileDisplay) : list action :=
  all_tiles ≫= (λ tile,
    let num_avail := tiles fd !!! tile in
    if bool_decide (num_avail = 0) then []
    else colour_actions agent_state kind fid tile num_avail).

(** [getLegalActions(game_state, agent_id)] of a rule object created for
    [num_of_agent] agents; [fid] counts the factory displays from 0. *)
Definition getLegalActions (num_of_agent : Z) (game_state : AzulState) (agent_id : Z)
    : result (list action) :=
  if negb (TilesRemaining game_state)
     && negb (bool_decide (next_first_agent game_state = -1))
  then Ok [ENDROUND]
  else if bool_decide (agent_id = num_of_agent) then Ok [STARTROUND]
  else
    match py_index (agents game_state) agent_id with
    | None => Raise IndexError
    | Some plr =>
        let agent_state := agents game_state !!! plr in
        Ok ((seq 0 (length (factories game_state)) ≫= (λ fid,
               display_actions agent_state TAKE_FROM_FACTORY (Z.of_nat fid)
                               (factories game_state !!! fid)))
            ++ display_actions agent_state TAKE_FROM_CENTRE (-1) (centre_pool game_state))
    end.

(** [gameEnds] on the rule's current state. *)
Definition gameEnds (s : AzulState) : bool :=
  existsb (λ plr_state, bool_decide (GetCompletedRows plr_state > 0)) (agents s).

(** ** Measures used by the properties *)

(** Number of tiles on a display, counted from its per-colour counts. *)
Definition display_count (d : TileDisplay) : Z :=
  sumZ ((λ tile, tiles d !!! tile) <$> all_tiles).

(** Tiles on an agent's board: occupied wall cells, tiles lying on the
    floor line and tiles in the pattern lines. *)
Definition board_count (a : AgentState) : Z :=
  sumZ (sumZ <$> grid_state a) + Z.of_nat (length (floor_tiles a)) + sumZ (lines_number a).

(** All tiles of a state: bag, used bag, factory displays, centre, boards. *)
Definition total_tiles (s : AzulState) : Z :=
  Z.of_nat (length (bag s)) + Z.of_nat (length (bag_used s))
  + sumZ (display_count <$> factories s) + display_count (centre_pool s)
  + sumZ (board_count <$> agents s).

(** The fixed total: number of colours times tiles per colour. *)
Definition TOTAL_TILES : Z := Z.of_nat (length all_tiles) * NUM_TILE_TYPE.

(** A random source used for concrete runs: the shuffle leaves the list
    as it is and the first agent drawn is agent 0. *)
Definition plain_source : RandomSource :=
  {| shuffle := λ l, l; randrange := λ _, 0 |}.

(** The state [AzulState(2)] built with [plain_source]. *)
Definition initial_state : AzulState :=
  final_state (AzulState_init plain_source 2 AzulState_blank).

(** * Properties *)

(** ** Round scoring *)

(** Unfolds the monad's operations in the goal. *)
Ltac munfold :=
  unfold mbind, M_bind, mret, M_ret, get, modify, raise, py_assert in *.

Lemma ScoreRound_line_skip i acc a :
  lines_number a !!! i ≠ Z.of_nat i + 1 →
  ScoreRound_line i acc a = Done acc a.
Proof.
  intros Hne. destruct acc as [used inc]. unfold ScoreRound_line. munfold.
  by rewrite bool_decide_eq_false_2.
Qed.

(** The agent after a full pattern line [i] of colour [tc] was moved to
    the wall. *)
Definition line_placed (i : nat) (tc : Tile) (a : AgentState) : AgentState :=
  set_grid_state (grid_set (grid_state a) i (grid_scheme i tc) 1)
    (set_lines_number (<[i := 0]> (lines_number a))
      (set_lines_tile (<[i := None]> (lines_tile a))
        (set_number_of (<[tc := number_of a !!! tc + 1]> (number_of a)) a))).

Lemma ScoreRound_line_full i used inc a tc :
  lines_number a !!! i = Z.of_nat i + 1 →
  lines_tile a !!! i = Some tc →
  ScoreRound_line i (used, inc) a =
    Done (used ++ replicate i tc,
          let g := grid_state (line_placed i tc a) in
          let col := grid_scheme i tc in
          inc + tile_points (run_above g i col) (run_below g i col)
                            (run_left g i col) (run_right g i col))
         (line_placed i tc a).
Proof.
  intros Hfull Htc. unfold ScoreRound_line. munfold.
  rewrite bool_decide_eq_true_2 by done. by rewrite Htc.
Qed.

(** A pattern line can be scored: if it is full it has a colour. *)
Definition line_scorable (a : AgentState) (i : nat) : Prop :=
  lines_number a !!! i = Z.of_nat i + 1 → lines_tile a !!! i ≠ None.

(** What scoring one line leaves untouched. *)
Lemma ScoreRound_line_frame i acc a :
  line_scorable a i →
  ∃ acc' a', ScoreRound_line i acc a = Done acc' a'
    ∧ score a' = score a ∧ floor a' = floor a ∧ floor_tiles a' = floor_tiles a
    ∧ agent_id a' = agent_id a
    ∧ ∀ j, j ≠ i → lines_number a' !!! j = lines_number a !!! j
                  ∧ lines_tile a' !!! j = lines_tile a !!! j.
Proof.
  intros Hok. destruct (decide (lines_number a !!! i = Z.of_nat i + 1)) as [Hfull|Hne].
  - destruct (lines_tile a !!! i) as [tc|] eqn:Htc; [|by destruct (Hok Hfull)].
    destruct acc as [used inc]. rewrite (ScoreRound_line_full _ _ _ _ tc) by done.
    eexists _, _. split; [done|]. repeat split; simpl.
    + by apply list_lookup_total_insert_ne.
    + by apply list_lookup_total_insert_ne.
  - rewrite ScoreRound_line_skip by done. eexists _, _. by repeat split.
Qed.

Lemma ScoreRound_lines_frame rows : ∀ acc a,
  NoDup rows →
  (∀ i, i ∈ rows → line_scorable a i) →
  ∃ acc' a', ScoreRound_lines rows acc a = Done acc' a'
    ∧ score a' = score a ∧ floor a' = floor a ∧ floor_tiles a' = floor_tiles a
    ∧ agent_id a' = agent_id a.
Proof.
  induction rows as [|i rows IH]; intros acc a Hnd Hok; simpl.
  - eexists _, _. by repeat split.
  - apply NoDup_cons in Hnd as [Hi Hnd].
    destruct (ScoreRound_line_frame i acc a) as (acc1 & a1 & Hrun & Hs & Hf & Hft & Hid & Hothers).
    { apply Hok. by left. }
    munfold. rewrite Hrun.
    destruct (IH acc1 a1 Hnd) as (acc2 & a2 & Hrun2 & Hs2 & Hf2 & Hft2 & Hid2).
    { intros j Hj. unfold line_scorable.
      assert (j ≠ i) as Hji by (intros ->; done).
      destruct (Hothers j Hji) as [-> ->]. apply Hok. by right. }
    eexists _, _. split; [exact Hrun2|]. repeat split; congruence.
Qed.

(** The placement points of a round: what the loop over the pattern lines
    accumulates in [score_inc]. *)
Definition placement_points (a : AgentState) : Z :=
  match ScoreRound_lines (py_range GRID_SIZE) ([], 0) a with
  | Done (_, score_inc) _ => score_inc
  | Raised _ _ => 0
  end.

(** Every full pattern line of the board has a colour. *)
Definition lines_scorable (a : AgentState) : Prop :=
  ∀ i, i ∈ py_range GRID_SIZE → line_scorable a i.

Lemma clamp_score_change_nonneg sc inc pen :
  0 ≤ sc → 0 ≤ sc + clamp_score_change sc inc pen.
Proof. intros Hsc. unfold clamp_score_change. case_bool_decide; lia. Qed.

Lemma clamp_score_change_floor sc inc pen :
  0 ≤ sc → sc + inc + pen < 0 → sc + clamp_score_change sc inc pen = 0.
Proof.
  intros Hsc Hlt. unfold clamp_score_change.
  rewrite bool_decide_eq_true_2 by lia. lia.
Qed.

(** [ScoreRound] on a board whose full lines have a colour: it returns,
    and the new score is the old one plus the clamped change. *)
Lemma ScoreRound_returns a :
  lines_scorable a →
  ∃ ret used a', ScoreRound a = Done (ret, used) a'
    ∧ ret = score a'
    ∧ score a' = score a + clamp_score_change (score a) (placement_points a)
                                              (floor_penalties (floor a))
    ∧ floor_tiles a' = [] ∧ floor a' = replicate (length (floor a)) 0.
Proof.
  intros Hok. unfold ScoreRound, placement_points.
  destruct (ScoreRound_lines_frame (py_range GRID_SIZE) ([], 0) a)
    as ([used inc] & a1 & Hrun & Hs & Hf & Hft & Hid).
  { apply NoDup_seq. } { exact Hok. }
  munfold. rewrite Hrun. simpl. rewrite Hs, Hf.
  eexists _, _, _. split; [reflexivity|]. by simpl.
Qed.

(** C7 (score floor).  For every board that round scoring can process
    (each full pattern line has a colour) and whose score is not negative,
    [ScoreRound] returns and leaves a score that is not negative; when the
    floor penalty exceeds the current score plus the round's placement
    points, the score it leaves is exactly 0. *)
Theorem C7_score_floor (a : AgentState) :
  lines_scorable a →
  0 ≤ score a →
  ∃ ret used a', ScoreRound a = Done (ret, used) a'
    ∧ 0 ≤ score a'
    ∧ (- floor_penalties (floor a) > score a + placement_points a → score a' = 0).
Proof.
  intros Hok Hsc.
  destruct (ScoreRound_returns a Hok) as (ret & used & a' & Hrun & _ & Hscore & _).
  exists ret, used, a'. split; [done|]. rewrite Hscore. split.
  - by apply clamp_score_change_nonneg.
  - intros Hpen. apply clamp_score_change_floor; lia.
Qed.

(** A board with score 2, no full pattern line and all seven floor slots
    occupied: the penalty of 14 exceeds the score. *)
Definition floored_board : AgentState :=
  set_floor [1; 1; 1; 1; 1; 1; 1] (set_score 2 (AgentState_new 0)).

Lemma C7_score_floor_witness :
  ∃ ret used a', ScoreRound floored_board = Done (ret, used) a'
    ∧ 0 ≤ score a'
    ∧ (- floor_penalties (floor floored_board)
         > score floored_board + placement_points floored_board → score a' = 0).
Proof.
  apply (C7_score_floor floored_board).
  - intros i Hi Hfull. vm_compute in Hi.
    repeat (apply elem_of_cons in Hi as [->|Hi]; [by vm_compute in Hfull|]).
    by apply elem_of_nil in Hi.
  - by vm_compute.
Defined.

(** A board with score 10, empty pattern lines and an empty floor line:
    a round in which nothing is scored. *)
Definition idle_board : AgentState := set_score 10 (AgentState_new 0).

(** C6 (what [ScoreRound] returns).  On a board with score 10 on which the
    round scores nothing, the change of the score is 0 and [ScoreRound]
    returns 10 as the first component of its pair: the running total, not
    the change. *)
Theorem C6_ScoreRound_returns_running_total :
  ∃ a', ScoreRound idle_board = Done (10, []) a'
    ∧ score a' - score idle_board = 0
    ∧ score a' = 10.
Proof. exists idle_board. by vm_compute. Qed.

(** ** Construction *)

Lemma InitialiseFactory_returns rs fd s :
  ∃ fd' s', InitialiseFactory rs fd s = Done fd' s'
    ∧ agents s' = agents s ∧ factories s' = factories s.
Proof.
  unfold InitialiseFactory. munfold. simpl.
  case_bool_decide; simpl; eexists _, _; by repeat split.
Qed.

Lemma init_factories_returns rs n : ∀ s,
  ∃ s', init_factories rs n s = Done () s'
    ∧ agents s' = agents s
    ∧ length (factories s') = (length (factories s) + n)%nat.
Proof.
  induction n as [|n IH]; intros s; simpl.
  - exists s. repeat split. lia.
  - destruct (InitialiseFactory_returns rs TileDisplay_new s) as (fd & s1 & Hrun & Ha & Hf).
    munfold. rewrite Hrun. simpl.
    destruct (IH (set_factories (factories s1 ++ [fd]) s1)) as (s2 & Hrun2 & Ha2 & Hf2).
    exists s2. split; [done|]. split; [by rewrite Ha2|].
    rewrite Hf2. simpl. rewrite length_app, Hf. simpl. lia.
Qed.

(** The constructor fails on an agent count that is not positive, when it
    draws the first agent from an empty range. *)
Lemma AzulState_new_no_agents rs n :
  n ≤ 0 → AzulState_new rs n = Raise ValueError.
Proof.
  intros Hn. unfold AzulState_new, AzulState_init. munfold.
  match goal with |- context [init_factories rs ?k ?s] =>
    destruct (init_factories_returns rs k s) as (s1 & Hrun & _) end.
  rewrite Hrun. by rewrite bool_decide_eq_true_2.
Qed.

(** C9, as the code has it.  The constructor does not check the agent
    count: for every random source and every agent count of at least 1 it
    returns a state with that many agent boards and with 5 factory
    displays, the number for two players. *)
Theorem C9_constructor_accepts_any_positive_agent_count (rs : RandomSource) (n : Z) :
  1 ≤ n →
  ∃ s, AzulState_new rs n = Ok s
    ∧ Z.of_nat (length (agents s)) = n
    ∧ length (factories s) = 5%nat.
Proof.
  intros Hn. unfold AzulState_new, AzulState_init. munfold.
  match goal with |- context [init_factories rs ?k ?s] =>
    destruct (init_factories_returns rs k s) as (s1 & Hrun & Ha & Hf) end.
  rewrite Hrun. rewrite bool_decide_eq_false_2 by lia.
  eexists. split; [reflexivity|]. simpl. rewrite Ha, Hf. simpl.
  split; [|done]. rewrite length_fmap. unfold py_range. rewrite length_seq. lia.
Qed.

Lemma C9_constructor_accepts_any_positive_agent_count_witness :
  ∃ s, AzulState_new plain_source 2 = Ok s
    ∧ Z.of_nat (length (agents s)) = 2
    ∧ length (factories s) = 5%nat.
Proof. apply (C9_constructor_accepts_any_positive_agent_count plain_source 2). lia. Defined.

(** C9, counterexample to the claim as stated.  An agent count of 3 is not
    rejected: the constructor returns a state with three boards and the five
    factory displays of a two-player game. *)
Lemma C9_three_agents_not_rejected :
  ∃ s, AzulState_new plain_source 3 = Ok s
    ∧ length (agents s) = 3%nat
    ∧ length (factories s) = 5%nat.
Proof. eexists. by vm_compute. Qed.

(** ** Cloning *)

(** A board on which the five blue tiles are on the wall (the diagonal of
    the placement scheme), as [ScoreRound] records them in [number_of]. *)
Definition blue_set_board : AgentState :=
  set_number_of (<[BLUE := 5]> zero_counts)
    (set_grid_state [[1; 0; 0; 0; 0]; [0; 1; 0; 0; 0]; [0; 0; 1; 0; 0];
                     [0; 0; 0; 1; 0]; [0; 0; 0; 0; 1]]
      (AgentState_new 0)).

(** The initial state with that board for agent 0. *)
Definition blue_set_state : AzulState :=
  set_agents [blue_set_board; AgentState_new 1] initial_state.

(** What a method call returned, if it did. *)
Definition return_value {S A} (o : outcome S A) : option A :=
  match o with Done a _ => Some a | Raised _ _ => None end.

(** The clone of [blue_set_state]. *)
Definition blue_set_clone : AzulState :=
  match clone plain_source blue_set_state with
  | Ok c => c
  | Raise _ => AzulState_blank
  end.

(** C4 (clone).  The clone of a state whose agent 0 has placed the five
    blue tiles has a placed-tile counter of 0 for blue, where the source has
    5: the end-game bonus of agent 0 is 10 on the source and 0 on the
    clone. *)
Theorem C4_clone_drops_number_of :
  clone plain_source blue_set_state = Ok blue_set_clone
  ∧ number_of (agents blue_set_state !!! 0%nat) !!! BLUE = 5
  ∧ number_of (agents blue_set_clone !!! 0%nat) !!! BLUE = 0
  ∧ return_value (EndOfGameScore (agents blue_set_state !!! 0%nat)) = Some 10
  ∧ return_value (EndOfGameScore (agents blue_set_clone !!! 0%nat)) = Some 0.
Proof.
  split; [vm_compute; reflexivity|].
  split; [vm_compute; reflexivity|].
  split; [vm_compute; reflexivity|].
  split; vm_compute; reflexivity.
Qed.

(** ** Legal actions *)

(** The invariant of a tile display: no count is negative and the running
    total is the sum of the counts. *)
Definition display_wf (d : TileDisplay) : Prop :=
  Forall (λ tile, 0 ≤ tiles d !!! tile) all_tiles ∧ total d = display_count d.

#[global] Instance display_wf_dec d : Decision (display_wf d).
Proof. unfold display_wf. apply _. Defined.

(** All displays of a state, the centre pool first. *)
Definition displays (s : AzulState) : list TileDisplay :=
  centre_pool s :: factories s.

Lemma display_wf_empty d :
  display_wf d → total d ≤ 0 → ∀ tile, tiles d !!! tile = 0.
Proof.
  intros [Hnn Htot] Hle tile. rewrite Htot in Hle.
  unfold display_count, all_tiles in *.
  rewrite !Forall_cons in Hnn. destruct Hnn as (? & ? & ? & ? & ? & _).
  simpl in Hle. destruct tile; lia.
Qed.

Lemma bind_nil {A B} (f : A → list B) (l : list A) :
  (∀ x, x ∈ l → f x = []) → l ≫= f = [].
Proof.
  induction l as [|x l IH]; intros Hf; [done|].
  simpl. rewrite (Hf x) by by left. simpl. apply IH. intros y Hy. apply Hf. by right.
Qed.

Lemma display_actions_empty agent_state kind fid d :
  (∀ tile, tiles d !!! tile = 0) → display_actions agent_state kind fid d = [].
Proof.
  intros Hd. unfold display_actions. apply bind_nil. intros tile _.
  by rewrite bool_decide_eq_true_2.
Qed.

Lemma TilesRemaining_false s :
  TilesRemaining s = false → Forall (λ d, total d ≤ 0) (displays s).
Proof.
  unfold TilesRemaining, displays. case_bool_decide as Hc; [done|]. intros Hex.
  apply Forall_cons. split; [lia|].
  apply Forall_forall. intros d Hd.
  destruct (decide (total d > 0)) as [Hpos|]; [|lia].
  assert (existsb (λ fac, bool_decide (total fac > 0)) (factories s) = true) as Htrue.
  { apply existsb_exists. exists d. split; [by apply list_elem_of_In|].
    by apply bool_decide_eq_true_2. }
  congruence.
Qed.

(** C10.  In a state whose displays (well-formed, as the display
    operations keep them) hold no tile while the first-player token was
    never claimed ([next_first_agent] is still -1), [getLegalActions]
    returns the round-end action for no agent id, and for every agent of
    the game other than the pseudo-agent [num_of_agent] it returns the
    empty list. *)
Theorem C10_no_tiles_token_unclaimed (num_of_agent : Z) (s : AzulState) :
  Forall display_wf (displays s) →
  TilesRemaining s = false →
  next_first_agent s = -1 →
  (∀ agent_id, getLegalActions num_of_agent s agent_id ≠ Ok [ENDROUND])
  ∧ (∀ agent_id plr, agent_id ≠ num_of_agent →
       py_index (agents s) agent_id = Some plr →
       getLegalActions num_of_agent s agent_id = Ok []).
Proof.
  intros Hwf Hrem Hnfa.
  assert (∀ d, d ∈ displays s → ∀ tile, tiles d !!! tile = 0) as Hzero.
  { intros d Hd. apply display_wf_empty.
    - by apply (proj1 (Forall_forall _ _) Hwf).
    - by apply (proj1 (Forall_forall _ _) (TilesRemaining_false s Hrem)). }
  assert (∀ agent_id plr, agent_id ≠ num_of_agent →
       py_index (agents s) agent_id = Some plr →
       getLegalActions num_of_agent s agent_id = Ok []) as Hregular.
  { intros agent_id plr Hne Hplr. unfold getLegalActions.
    rewrite Hrem, Hnfa, Hplr. simpl.
    rewrite bool_decide_eq_false_2 by done.
    rewrite bind_nil, display_actions_empty; [done| |].
    - apply Hzero. by left.
    - intros fid Hfid. apply display_actions_empty, Hzero. right.
      apply elem_of_seq in Hfid as [_ Hlt]. simpl in Hlt.
      apply list_elem_of_lookup. exists fid.
      by apply list_lookup_lookup_total_lt. }
  split; [|exact Hregular].
  intros agent_id. unfold getLegalActions. rewrite Hrem, Hnfa. simpl.
  case_bool_decide; [done|].
  destruct (py_index (agents s) agent_id); [|done].
  intros [=Heq]. apply (f_equal length) in Heq.
  revert Heq. rewrite bind_nil, display_actions_empty; [done| |].
  - apply Hzero. by left.
  - intros fid Hfid. apply display_actions_empty, Hzero. right.
    apply elem_of_seq in Hfid as [_ Hlt]. simpl in Hlt.
    apply list_elem_of_lookup. exists fid.
    by apply list_lookup_lookup_total_lt.
Qed.

(** The initial state after every factory display was emptied without a
    take from the centre. *)
Definition drained_state : AzulState :=
  set_factories (replicate 5 TileDisplay_new) initial_state.

Lemma C10_no_tiles_token_unclaimed_witness :
  (∀ agent_id, getLegalActions 2 drained_state agent_id ≠ Ok [ENDROUND])
  ∧ (∀ agent_id plr, agent_id ≠ 2 →
       py_index (agents drained_state) agent_id = Some plr →
       getLegalActions 2 drained_state agent_id = Ok []).
Proof.
  apply (C10_no_tiles_token_unclaimed 2 drained_state).
  - apply (bool_decide_unpack _). vm_compute. exact I.
  - by vm_compute.
  - by vm_compute.
Defined.

(** ** Scoring a placement next to two neighbours *)

(** The wall is a 5x5 grid of cells that are 0 (free) or 1 (occupied). *)
Definition grid_wf (g : list (list Z)) : Prop :=
  length g = 5%nat
  ∧ Forall (λ row, length row = 5%nat ∧ Forall (λ v, v = 0 ∨ v = 1) row) g.

#[global] Instance grid_wf_dec g : Decision (grid_wf g).
Proof. unfold grid_wf. apply _. Defined.

(** The wall cell [(r, c)] exists and is occupied. *)
Definition occupied (g : list (list Z)) (r c : Z) : bool :=
  bool_decide (0 ≤ r < 5 ∧ 0 ≤ c < 5)
  && bool_decide (grid_get g (Z.to_nat r) (Z.to_nat c) = 1).

(** Along the direction [(dr, dc)], the cell [(r, c)] has exactly one
    occupied neighbour and the cell beyond that neighbour is free or off
    the wall: once [(r, c)] is occupied it sits in a run of exactly 2. *)
Definition run_of_two (g : list (list Z)) (r c dr dc : Z) : bool :=
  (occupied g (r - dr) (c - dc) && negb (occupied g (r - 2 * dr) (c - 2 * dc))
   && negb (occupied g (r + dr) (c + dc)))
  || (occupied g (r + dr) (c + dc) && negb (occupied g (r + 2 * dr) (c + 2 * dc))
      && negb (occupied g (r - dr) (c - dc))).

(** The fixture of the scoring property: pattern line 2 (of length 3) is
    full of blue tiles, the wall cell for blue in row 2 is [(2, 2)], its
    left neighbour [(2, 1)] and its upper neighbour [(1, 2)] are occupied,
    the floor line is empty, the score is 0. *)
Definition neighbour_board : AgentState :=
  set_grid_state [[0; 0; 0; 0; 0]; [0; 0; 1; 0; 0]; [0; 1; 0; 0; 0];
                  [0; 0; 0; 0; 0]; [0; 0; 0; 0; 0]]
    (set_lines_tile [None; None; Some BLUE; None; None]
      (set_lines_number [0; 0; 3; 0; 0] (AgentState_new 0))).

(** Splits a well-formed wall into its 25 cells. *)
Ltac explode_grid g Hwf :=
  let Hlen := fresh "Hlen" in
  let Hrows := fresh "Hrows" in
  destruct Hwf as [Hlen Hrows];
  do 6 (try (destruct g as [|? g]; simpl in Hlen; try discriminate Hlen));
  repeat (apply Forall_cons in Hrows as [[? ?] Hrows]);
  repeat match goal with
  | H : length ?row = 5%nat |- _ =>
      do 6 (try (destruct row as [|? row]; simpl in H; try discriminate H)); clear H
  end;
  repeat match goal with
  | H : Forall _ (_ :: _) |- _ => apply Forall_cons in H as [? H]
  | H : Forall _ [] |- _ => clear H
  end.

(** Tries both values of every cell that is known to be 0 or 1. *)
Ltac split_cells :=
  repeat match goal with
  | H : ?v = 0 ∨ ?v = 1 |- _ => destruct H; subst v
  end.

(** Forgets what is known of the cells that occur neither in [Hrun] nor
    in the goal. *)
Ltac forget_other_cells Hrun :=
  repeat match goal with
  | H : ?v = 0 ∨ ?v = 1 |- ?G =>
      lazymatch G with
      | context [v] => fail
      | _ => lazymatch type of Hrun with
             | context [v] => fail
             | _ => clear H
             end
      end
  end.

Lemma runs_along_row g tc :
  grid_wf g →
  run_of_two g 2 (Z.of_nat (grid_scheme 2 tc)) 0 1 = true →
  run_above (grid_set g 2 (grid_scheme 2 tc) 1) 2 (grid_scheme 2 tc)
  + run_below (grid_set g 2 (grid_scheme 2 tc) 1) 2 (grid_scheme 2 tc) = 1
  ∧ 0 ≤ run_above (grid_set g 2 (grid_scheme 2 tc) 1) 2 (grid_scheme 2 tc)
  ∧ 0 ≤ run_below (grid_set g 2 (grid_scheme 2 tc) 1) 2 (grid_scheme 2 tc).
Proof.
  intros Hwf Hrun. explode_grid g Hwf.
  destruct tc; vm_compute in Hrun; vm_compute; forget_other_cells Hrun;
    split_cells; vm_compute in Hrun; try discriminate Hrun;
    vm_compute; repeat split; congruence.
Qed.

Lemma runs_along_column g tc :
  grid_wf g →
  run_of_two g 2 (Z.of_nat (grid_scheme 2 tc)) 1 0 = true →
  run_left (grid_set g 2 (grid_scheme 2 tc) 1) 2 (grid_scheme 2 tc)
  + run_right (grid_set g 2 (grid_scheme 2 tc) 1) 2 (grid_scheme 2 tc) = 1
  ∧ 0 ≤ run_left (grid_set g 2 (grid_scheme 2 tc) 1) 2 (grid_scheme 2 tc)
  ∧ 0 ≤ run_right (grid_set g 2 (grid_scheme 2 tc) 1) 2 (grid_scheme 2 tc).
Proof.
  intros Hwf Hrun. explode_grid g Hwf.
  destruct tc; vm_compute in Hrun; vm_compute; forget_other_cells Hrun;
    split_cells; vm_compute in Hrun; try discriminate Hrun;
    vm_compute; repeat split; congruence.
Qed.

Lemma sumZ_zero {A} (f : A → Z) (l : list A) :
  (∀ x, x ∈ l → f x = 0) → sumZ (f <$> l) = 0.
Proof.
  unfold sumZ. induction l as [|x l IH]; intros Hf; [done|].
  rewrite fmap_cons. cbn [foldr].
  rewrite (Hf x) by by left. rewrite IH; [done|]. intros y Hy. apply Hf. by right.
Qed.

Lemma floor_penalties_empty fl :
  Forall (λ x, x = 0) fl → floor_penalties fl = 0.
Proof.
  intros Hfl. unfold floor_penalties. apply sumZ_zero. intros i Hi.
  apply elem_of_seq in Hi as [_ Hi]. simpl in Hi.
  destruct (lookup_lt_is_Some_2 fl i Hi) as [x Hx].
  rewrite (list_lookup_total_correct _ _ _ Hx).
  rewrite (proj1 (Forall_lookup _ _) Hfl i x Hx). lia.
Qed.

(** The pattern lines other than line 2 are not full. *)
Definition only_line_two_full (a : AgentState) : Prop :=
  lines_number a !!! 2%nat = 3
  ∧ Forall (λ i, lines_number a !!! i ≠ Z.of_nat i + 1) [0; 1; 3; 4]%nat.

#[global] Instance only_line_two_full_dec a : Decision (only_line_two_full a).
Proof. unfold only_line_two_full. apply _. Defined.

Lemma ScoreRound_lines_line_two a tc :
  only_line_two_full a →
  lines_tile a !!! 2%nat = Some tc →
  ScoreRound_lines (py_range GRID_SIZE) ([], 0) a =
    Done (replicate 2 tc,
          let g := grid_state (line_placed 2 tc a) in
          let col := grid_scheme 2 tc in
          0 + tile_points (run_above g 2 col) (run_below g 2 col)
                          (run_left g 2 col) (run_right g 2 col))
         (line_placed 2 tc a).
Proof.
  intros [Hfull Hothers] Htc.
  rewrite !Forall_cons in Hothers. destruct Hothers as (H0 & H1 & H3 & H4 & _).
  change (py_range GRID_SIZE) with [0; 1; 2; 3; 4]%nat.
  cbn [ScoreRound_lines]. unfold mbind, M_bind.
  rewrite (ScoreRound_line_skip 0) by done.
  rewrite (ScoreRound_line_skip 1) by done.
  rewrite (ScoreRound_line_full 2 _ _ _ tc) by done.
  rewrite (ScoreRound_line_skip 3), (ScoreRound_line_skip 4); [done| |];
    simpl; by rewrite list_lookup_total_insert_ne.
Qed.

(** The change of an agent's score made by round scoring. *)
Definition score_delta (a : AgentState) : Z :=
  score (final_state (ScoreRound a)) - score a.

(** C2, as the code has it.  On a board whose only full pattern line is
    line 2 (length 3), whose floor line is empty, and where the wall cell
    of the line's colour in row 2 has exactly one occupied neighbour in its
    row and one in its column, each ending a run of exactly 2, round
    scoring returns and raises the score by exactly 4: the placement scores
    the length 2 of the horizontal run plus the length 2 of the vertical
    run. *)
Theorem C2_two_neighbours_score_four (a : AgentState) (tc : Tile) :
  grid_wf (grid_state a) →
  only_line_two_full a →
  lines_tile a !!! 2%nat = Some tc →
  Forall (λ x, x = 0) (floor a) →
  run_of_two (grid_state a) 2 (Z.of_nat (grid_scheme 2 tc)) 0 1 = true →
  run_of_two (grid_state a) 2 (Z.of_nat (grid_scheme 2 tc)) 1 0 = true →
  (∃ ret used a', ScoreRound a = Done (ret, used) a')
  ∧ score_delta a = 4
  ∧ placement_points a = 2 + 2
  ∧ tile_points 1 0 0 0 = 2 ∧ tile_points 0 0 1 0 = 2.
Proof.
  intros Hwf Hlines Htc Hfloor Hrow Hcol.
  destruct (runs_along_row _ _ Hwf Hrow) as (Hh & Hh1 & Hh2).
  destruct (runs_along_column _ _ Hwf Hcol) as (Hv & Hv1 & Hv2).
  assert (placement_points a = 4) as Hpoints.
  { unfold placement_points. rewrite (ScoreRound_lines_line_two a tc) by done.
    cbn [line_placed set_grid_state grid_state].
    set (above := run_above _ _ _) in *. set (below := run_below _ _ _) in *.
    set (left := run_left _ _ _) in *. set (right := run_right _ _ _) in *.
    unfold tile_points. repeat case_bool_decide; lia. }
  assert (lines_scorable a) as Hok.
  { destruct Hlines as [Hfull Hothers].
    rewrite !Forall_cons in Hothers. destruct Hothers as (H0 & H1 & H3 & H4 & _).
    intros i Hi Hi_full. change (py_range GRID_SIZE) with [0; 1; 2; 3; 4]%nat in Hi.
    repeat (apply elem_of_cons in Hi as [->|Hi]; [try done; by rewrite Htc|]).
    by apply elem_of_nil in Hi. }
  destruct (ScoreRound_returns a Hok) as (ret & used & a' & Hrun & _ & Hscore & _).
  split; [by eauto|]. split; [|split; [by rewrite Hpoints|by vm_compute]].
  unfold score_delta. rewrite Hrun. cbn [final_state]. rewrite Hscore, Hpoints.
  rewrite (floor_penalties_empty _ Hfloor).
  unfold clamp_score_change. case_bool_decide; lia.
Qed.

Lemma C2_two_neighbours_score_four_witness :
  (∃ ret used a', ScoreRound neighbour_board = Done (ret, used) a')
  ∧ score_delta neighbour_board = 4
  ∧ placement_points neighbour_board = 2 + 2
  ∧ tile_points 1 0 0 0 = 2 ∧ tile_points 0 0 1 0 = 2.
Proof.
  apply (C2_two_neighbours_score_four neighbour_board BLUE).
  - apply (bool_decide_unpack _). vm_compute. exact I.
  - apply (bool_decide_unpack _). vm_compute. exact I.
  - vm_compute. reflexivity.
  - apply (bool_decide_unpack _). vm_compute. exact I.
  - vm_compute. reflexivity.
  - vm_compute. reflexivity.
Defined.

(** C2, counterexample to the claim as stated.  The fixture of the claim
    (line 2 full of blue, the left and the upper neighbour of its wall cell
    occupied, floor empty) has a score delta of 4, not 2. *)
Lemma C2_fixture_delta_is_not_two :
  grid_wf (grid_state neighbour_board)
  ∧ only_line_two_full neighbour_board
  ∧ lines_tile neighbour_board !!! 2%nat = Some BLUE
  ∧ floor neighbour_board = [0; 0; 0; 0; 0; 0; 0]
  ∧ run_of_two (grid_state neighbour_board) 2 2 0 1 = true
  ∧ run_of_two (grid_state neighbour_board) 2 2 1 0 = true
  ∧ score_delta neighbour_board = 4
  ∧ score_delta neighbour_board ≠ 2.
Proof.
  split; [apply (bool_decide_unpack _); vm_compute; exact I|].
  split; [apply (bool_decide_unpack _); vm_compute; exact I|].
  split; [vm_compute; reflexivity|].
  split; [vm_compute; reflexivity|].
  split; [vm_compute; reflexivity|].
  split; [vm_compute; reflexivity|].
  split; [vm_compute; reflexivity|].
  vm_compute. discriminate.
Qed.

(** ** The legal actions of a drafting turn *)

(** Pattern line [i] of board [a] is an eligible destination for colour
    [tile]: the line is unassigned or already assigned that colour, and the
    wall cell of that colour in row [i] is not occupied. *)
Definition eligible_line (a : AgentState) (tile : Tile) (i : nat) : Prop :=
  (lines_tile a !!! i = None ∨ lines_tile a !!! i = Some tile)
  ∧ grid_get (grid_state a) i (grid_scheme i tile) ≠ 1.

(** The take of all [count] tiles of a colour to pattern line [i]:
    [min(count, free slots)] go to the line, the remainder to the floor. *)
Definition line_take (a : AgentState) (kind : ActionKind) (fid : Z) (tile : Tile)
    (count : Z) (i : nat) : action :=
  let free_slots := Z.of_nat i + 1 - lines_number a !!! i in
  Take kind fid (mkTileGrab tile count (Z.of_nat i) (Z.min count free_slots)
                            (count - Z.min count free_slots)).

(** The default take: all [count] tiles of a colour go to the floor line. *)
Definition floor_take (kind : ActionKind) (fid : Z) (tile : Tile) (count : Z) : action :=
  Take kind fid (mkTileGrab tile count TileGrab_new_pattern_line_dest 0 count).

(** [d] is the display a take of the given kind and factory id draws from:
    factory number [fid], or the centre pool with the id -1. *)
Definition source_display (s : AzulState) (kind : ActionKind) (fid : Z)
    (d : TileDisplay) : Prop :=
  match kind with
  | TAKE_FROM_FACTORY => 0 ≤ fid ∧ factories s !! Z.to_nat fid = Some d
  | TAKE_FROM_CENTRE => fid = -1 ∧ d = centre_pool s
  end.

(** The set of actions the property describes for agent board [a]. *)
Definition drafting_action (s : AzulState) (a : AgentState) (act : action) : Prop :=
  ∃ kind fid d tile,
    source_display s kind fid d
    ∧ 1 ≤ tiles d !!! tile
    ∧ (act = floor_take kind fid tile (tiles d !!! tile)
       ∨ ∃ i, (i < 5)%nat ∧ eligible_line a tile i
              ∧ act = line_take a kind fid tile (tiles d !!! tile) i).

(** No colour count of the display is negative. *)
Definition counts_nonneg (d : TileDisplay) : Prop :=
  Forall (λ tile, 0 ≤ tiles d !!! tile) all_tiles.

#[global] Instance counts_nonneg_dec d : Decision (counts_nonneg d).
Proof. unfold counts_nonneg. apply _. Defined.

Lemma elem_of_all_tiles tile : tile ∈ all_tiles.
Proof. unfold all_tiles. destruct tile; set_solver. Qed.

Lemma NoDup_all_tiles : NoDup all_tiles.
Proof. apply (bool_decide_unpack _). vm_compute. exact I. Qed.

Lemma elem_of_colour_actions a kind fid tile count act :
  act ∈ colour_actions a kind fid tile count ↔
    act = floor_take kind fid tile count
    ∨ ∃ i, (i < 5)%nat ∧ eligible_line a tile i ∧ act = line_take a kind fid tile count i.
Proof.
  unfold colour_actions. change (py_range GRID_SIZE) with (seq 0 5).
  rewrite elem_of_app, list_elem_of_bind, list_elem_of_singleton.
  split.
  - intros [(i & Hact & Hi)|Hact]; [right|by left].
    apply elem_of_seq in Hi as [_ Hi]. exists i. split; [lia|].
    repeat case_bool_decide; try by apply elem_of_nil in Hact.
    apply list_elem_of_singleton in Hact. split; [|done].
    split; [|done].
    destruct (lines_tile a !!! i) as [t|]; [|by left]. right.
    destruct (decide (t = tile)) as [->|]; [done|]. naive_solver.
  - intros [Hact|(i & Hi & [Hline Hcell] & Hact)]; [by right|left].
    exists i. split; [|apply elem_of_seq; lia].
    rewrite bool_decide_eq_false_2 by (intros [? ?]; destruct Hline; congruence).
    rewrite bool_decide_eq_false_2 by done.
    by apply list_elem_of_singleton.
Qed.

Lemma elem_of_display_actions a kind fid d act :
  act ∈ display_actions a kind fid d ↔
    ∃ tile, tiles d !!! tile ≠ 0 ∧ act ∈ colour_actions a kind fid tile (tiles d !!! tile).
Proof.
  unfold display_actions. rewrite list_elem_of_bind. split.
  - intros (tile & Hact & _). exists tile.
    case_bool_decide; [by apply elem_of_nil in Hact|done].
  - intros (tile & Hne & Hact). exists tile. split; [|apply elem_of_all_tiles].
    by rewrite bool_decide_eq_false_2.
Qed.

(** Every action generated for a display carries its kind and id, and
    every action generated for a colour carries the colour. *)
Lemma colour_actions_source a kind fid tile count act :
  act ∈ colour_actions a kind fid tile count →
  ∃ tg, act = Take kind fid tg ∧ tile_type tg = tile.
Proof.
  rewrite elem_of_colour_actions. intros [->|(i & _ & _ & ->)]; eexists; by split.
Qed.

Lemma display_actions_source a kind fid d act :
  act ∈ display_actions a kind fid d → ∃ tg, act = Take kind fid tg.
Proof.
  rewrite elem_of_display_actions. intros (tile & _ & Hact).
  apply colour_actions_source in Hact as (tg & -> & _). by eexists.
Qed.

Lemma NoDup_colour_actions a kind fid tile count :
  NoDup (colour_actions a kind fid tile count).
Proof.
  unfold colour_actions. change (py_range GRID_SIZE) with (seq 0 5).
  apply NoDup_app. split_and!.
  - apply NoDup_bind; [| |apply NoDup_seq].
    + intros i j act _ _ Hi Hj.
      repeat case_bool_decide; try (by apply elem_of_nil in Hi);
        try (by apply elem_of_nil in Hj).
      apply list_elem_of_singleton in Hi, Hj. subst act.
      injection Hj as Hij _. lia.
    + intros i _. repeat case_bool_decide; try apply NoDup_nil_2. apply NoDup_singleton.
  - intros act (i & Hact & Hi)%list_elem_of_bind Hdefault.
    apply list_elem_of_singleton in Hdefault.
    repeat case_bool_decide; try by apply elem_of_nil in Hact.
    apply list_elem_of_singleton in Hact. subst act.
    injection Hdefault as Hdest _. unfold TileGrab_new_pattern_line_dest in Hdest. lia.
  - apply NoDup_singleton.
Qed.

Lemma NoDup_display_actions a kind fid d :
  NoDup (display_actions a kind fid d).
Proof.
  unfold display_actions. apply NoDup_bind; [| |apply NoDup_all_tiles].
  - intros t1 t2 act _ _ H1 H2.
    repeat case_bool_decide; try (by apply elem_of_nil in H1);
      try (by apply elem_of_nil in H2).
    apply colour_actions_source in H1 as (tg1 & -> & <-).
    apply colour_actions_source in H2 as (tg2 & [= <-] & <-). done.
  - intros tile _. case_bool_decide; [apply NoDup_nil_2|apply NoDup_colour_actions].
Qed.

(** C5.  On a drafting turn of an agent of the game ([getLegalActions]
    reaches neither of its two pseudo-turn answers) in a state whose display
    counts are not negative, [getLegalActions] returns a list without
    repetition whose members are exactly the actions [drafting_action]
    describes: for every display and every colour with at least one tile on
    it, one take per eligible pattern line, with [min(count, free slots)]
    tiles for the line and the rest for the floor, and one take of all those
    tiles to the floor. *)
Theorem C5_legal_actions_of_drafting_turn
    (num_of_agent : Z) (s : AzulState) (agent_id : Z) (plr : nat) :
  agent_id ≠ num_of_agent →
  TilesRemaining s = true ∨ next_first_agent s = -1 →
  py_index (agents s) agent_id = Some plr →
  Forall counts_nonneg (displays s) →
  ∃ acts, getLegalActions num_of_agent s agent_id = Ok acts
    ∧ NoDup acts
    ∧ ∀ act, act ∈ acts ↔ drafting_action s (agents s !!! plr) act.
Proof.
  intros Hagent Hturn Hplr Hcounts. unfold getLegalActions.
  assert (negb (TilesRemaining s) && negb (bool_decide (next_first_agent s = -1)) = false)
    as ->.
  { destruct Hturn as [->| ->]; [done|]. by rewrite andb_false_r. }
  rewrite bool_decide_eq_false_2, Hplr by done.
  set (a := agents s !!! plr).
  eexists. split; [reflexivity|]. split.
  - apply NoDup_app. split_and!.
    + apply NoDup_bind; [| |apply NoDup_seq].
      * intros i j act _ _ Hi Hj.
        apply display_actions_source in Hi as (tg1 & ->).
        apply display_actions_source in Hj as (tg2 & [= Hij _]). lia.
      * intros i _. apply NoDup_display_actions.
    + intros act (i & Hact & _)%list_elem_of_bind Hcentre.
      apply display_actions_source in Hact as (tg1 & ->).
      by apply display_actions_source in Hcentre as (tg2 & [=]).
    + apply NoDup_display_actions.
  - intros act. rewrite elem_of_app, list_elem_of_bind. unfold drafting_action.
    setoid_rewrite elem_of_display_actions. setoid_rewrite elem_of_colour_actions.
    split.
    + intros [(i & (tile & Hne & Hact) & Hi)|(tile & Hne & Hact)].
      * apply elem_of_seq in Hi as [_ Hi]. simpl in Hi.
        assert (factories s !! i = Some (factories s !!! i)) as Hfd
          by by apply list_lookup_lookup_total_lt.
        exists TAKE_FROM_FACTORY, (Z.of_nat i), (factories s !!! i), tile.
        split; [simpl; rewrite Nat2Z.id; split; [lia|done]|]. split; [|done].
        assert (counts_nonneg (factories s !!! i)) as Hnn.
        { apply (proj1 (Forall_forall _ _) Hcounts). right.
          apply list_elem_of_lookup. by exists i. }
        pose proof (proj1 (Forall_forall _ _) Hnn tile (elem_of_all_tiles tile)) as Hge.
        cbv beta in Hge. lia.
      * exists TAKE_FROM_CENTRE, (-1), (centre_pool s), tile.
        split; [done|]. split; [|done].
        assert (counts_nonneg (centre_pool s)) as Hnn.
        { apply (proj1 (Forall_forall _ _) Hcounts). by left. }
        pose proof (proj1 (Forall_forall _ _) Hnn tile (elem_of_all_tiles tile)) as Hge.
        cbv beta in Hge. lia.
    + intros (kind & fid & d & tile & Hsrc & Hcount & Hact).
      destruct kind; simpl in Hsrc.
      * destruct Hsrc as [Hfid Hd]. left. exists (Z.to_nat fid).
        assert (factories s !!! Z.to_nat fid = d) as ->
          by by apply list_lookup_total_correct.
        rewrite Z2Nat.id by done. split.
        -- exists tile. split; [lia|done].
        -- apply elem_of_seq. split; [lia|]. simpl. by apply lookup_lt_Some in Hd.
      * destruct Hsrc as [-> ->]. right. exists tile. split; [lia|done].
Qed.

Lemma C5_legal_actions_of_drafting_turn_witness :
  ∃ acts, getLegalActions 2 initial_state 0 = Ok acts
    ∧ NoDup acts
    ∧ ∀ act, act ∈ acts ↔ drafting_action initial_state (agents initial_state !!! 0%nat) act.
Proof.
  apply (C5_legal_actions_of_drafting_turn 2 initial_state 0 0).
  - lia.
  - left. vm_compute. reflexivity.
  - vm_compute. reflexivity.
  - apply (bool_decide_unpack _). vm_compute. exact I.
Defined.

(** ** What a take does, legal or not *)

(** Runs the monad's operations in the goal as far as they are known. *)
Ltac mrun :=
  repeat (progress (unfold mbind, M_bind, mret, M_ret, get, modify, raise, py_assert;
                    cbn beta iota)).

Lemma counts_insert (m : gmap Tile Z) (tile : Tile) (v : Z) :
  sumZ ((λ t, <[tile := v]> m !!! t) <$> all_tiles)
  = sumZ ((λ t, m !!! t) <$> all_tiles) - m !!! tile + v.
Proof.
  unfold all_tiles, sumZ. cbn [fmap list_fmap foldr].
  destruct tile;
    rewrite lookup_total_insert_eq, !lookup_total_insert_ne by done; lia.
Qed.

(** The display after [number] tiles of a colour were removed, or added. *)
Definition display_minus (d : TileDisplay) (number : Z) (tile : Tile) : TileDisplay :=
  {| tiles := <[tile := tiles d !!! tile - number]> (tiles d); total := total d - number |}.
Definition display_plus (d : TileDisplay) (number : Z) (tile : Tile) : TileDisplay :=
  {| tiles := <[tile := tiles d !!! tile + number]> (tiles d); total := total d + number |}.

Lemma display_count_minus d number tile :
  display_count (display_minus d number tile) = display_count d - number.
Proof. unfold display_count, display_minus. cbn [tiles]. rewrite counts_insert. lia. Qed.

Lemma display_count_plus d number tile :
  display_count (display_plus d number tile) = display_count d + number.
Proof. unfold display_count, display_plus. cbn [tiles]. rewrite counts_insert. lia. Qed.

Lemma display_count_ge d tile :
  counts_nonneg d → tiles d !!! tile ≤ display_count d.
Proof.
  unfold counts_nonneg, display_count, all_tiles, sumZ. rewrite !Forall_cons.
  intros (? & ? & ? & ? & ? & _). cbn [fmap list_fmap foldr]. destruct tile; lia.
Qed.

Lemma display_wf_minus d number tile :
  display_wf d → 0 ≤ number ≤ tiles d !!! tile → display_wf (display_minus d number tile).
Proof.
  intros [Hnn Htot] Hn. split.
  - apply Forall_forall. intros t _. unfold display_minus. cbn [tiles].
    destruct (decide (t = tile)) as [->|Hne].
    + rewrite lookup_total_insert_eq. lia.
    + rewrite lookup_total_insert_ne by done.
      apply (proj1 (Forall_forall _ _) Hnn t (elem_of_all_tiles t)).
  - rewrite display_count_minus. unfold display_minus. cbn [total]. lia.
Qed.

Lemma display_wf_plus d number tile :
  display_wf d → 0 ≤ number → display_wf (display_plus d number tile).
Proof.
  intros [Hnn Htot] Hn. split.
  - apply Forall_forall. intros t _. unfold display_plus. cbn [tiles].
    pose proof (proj1 (Forall_forall _ _) Hnn) as Hall. cbv beta in Hall.
    destruct (decide (t = tile)) as [->|Hne].
    + rewrite lookup_total_insert_eq. specialize (Hall tile (elem_of_all_tiles tile)). lia.
    + rewrite lookup_total_insert_ne by done. apply Hall, elem_of_all_tiles.
  - rewrite display_count_plus. unfold display_plus. cbn [total]. lia.
Qed.

Lemma ReactionTiles_Done number tile d :
  number > 0 → number ≤ tiles d !!! tile → number ≤ total d →
  ReactionTiles number tile d = Done () (display_minus d number tile).
Proof.
  intros Hpos Hcount Htotal. unfold ReactionTiles. munfold.
  rewrite bool_decide_eq_true_2 by done. cbn.
  rewrite lookup_total_insert_eq.
  rewrite bool_decide_eq_true_2 by lia. cbn. by rewrite bool_decide_eq_true_2 by lia.
Qed.

Lemma AddTiles_Done number tile d :
  number > 0 → AddTiles number tile d = Done () (display_plus d number tile).
Proof.
  intros Hpos. unfold AddTiles. munfold. by rewrite bool_decide_eq_true_2 by done.
Qed.

(** What [AddToFloor] keeps and how many tiles it places: the floor line
    takes some of the tiles, the rest is handed back. *)
Lemma AddToFloor_loop_Done slots : ∀ tiles number a,
  number = Z.of_nat (length tiles) → number > 0 →
  ∃ rest a', AddToFloor_loop slots tiles number a = Done rest a'
    ∧ score a' = score a ∧ lines_number a' = lines_number a
    ∧ lines_tile a' = lines_tile a ∧ grid_state a' = grid_state a
    ∧ number_of a' = number_of a
    ∧ (length (floor_tiles a') + length rest = length (floor_tiles a) + length tiles)%nat.
Proof.
  induction slots as [|i slots IH]; intros tiles number a Hlen Hpos; cbn [AddToFloor_loop].
  - munfold. eexists _, _. by repeat split.
  - munfold. case_bool_decide as Hfree.
    + destruct tiles as [|t tiles']; [simpl in Hlen; lia|]. simpl in Hlen.
      case_bool_decide as Hlast.
      * eexists _, _. split; [reflexivity|]. cbn. repeat split.
        rewrite length_app. simpl. lia.
      * match goal with |- context [AddToFloor_loop slots tiles' ?n ?st] =>
          destruct (IH tiles' n st)
            as (rest & a' & Hrun & Hs & Hln & Hlt & Hg & Hno & Hcount); [lia|lia|]
        end.
        rewrite Hrun. eexists _, _. split; [reflexivity|].
        cbn in *. repeat split; try done.
        rewrite length_app in Hcount. simpl in Hcount. lia.
    + rewrite bool_decide_eq_false_2 by lia.
      destruct (IH tiles number a Hlen Hpos) as (rest & a' & Hrun & Hrest).
      rewrite Hrun. by eexists _, _.
Qed.

Lemma AddToFloor_Done tiles a :
  tiles ≠ [] →
  ∃ rest a', AddToFloor tiles a = Done rest a'
    ∧ score a' = score a ∧ lines_number a' = lines_number a
    ∧ lines_tile a' = lines_tile a ∧ grid_state a' = grid_state a
    ∧ number_of a' = number_of a
    ∧ (length (floor_tiles a') + length rest = length (floor_tiles a) + length tiles)%nat.
Proof.
  intros Hne. unfold AddToFloor. munfold. apply AddToFloor_loop_Done; [done|].
  destruct tiles; [done|]. simpl. lia.
Qed.

(** The pattern-line part of a tile grab passes the assertions of
    [AddToPatternLine] on board [a]: the line exists, has no other colour
    and has room for the tiles. *)
Definition pattern_part_fits (a : AgentState) (tg : TileGrab) : Prop :=
  num_to_pattern_line tg > 0 →
  0 ≤ pattern_line_dest tg < GRID_SIZE
  ∧ (lines_tile a !!! Z.to_nat (pattern_line_dest tg) = None
     ∨ lines_tile a !!! Z.to_nat (pattern_line_dest tg) = Some (tile_type tg))
  ∧ (Z.to_nat (pattern_line_dest tg) < length (lines_number a))%nat
  ∧ lines_number a !!! Z.to_nat (pattern_line_dest tg) + num_to_pattern_line tg
    ≤ pattern_line_dest tg + 1.

(** The board after [number] tiles of a colour were added to a line. *)
Definition line_filled (a : AgentState) (line : nat) (number : Z) (tile : Tile) : AgentState :=
  set_lines_tile (<[line := Some tile]> (lines_tile a))
    (set_lines_number (<[line := lines_number a !!! line + number]> (lines_number a)) a).

Lemma AddToPatternLine_Done a line number tile :
  0 ≤ line < GRID_SIZE →
  lines_tile a !!! Z.to_nat line = None ∨ lines_tile a !!! Z.to_nat line = Some tile →
  (Z.to_nat line < length (lines_number a))%nat →
  lines_number a !!! Z.to_nat line + number ≤ line + 1 →
  AddToPatternLine line number tile a = Done () (line_filled a (Z.to_nat line) number tile).
Proof.
  intros Hline Hcolour Hlen Hroom. unfold AddToPatternLine, GRID_SIZE in *. mrun.
  rewrite (bool_decide_eq_true_2 (line >= 0 ∧ line < 5)) by lia. mrun.
  rewrite (bool_decide_eq_true_2 (_ ∨ _)) by done. mrun.
  cbn [lines_number set_lines_number set_lines_tile].
  rewrite list_lookup_total_insert_eq by done.
  by rewrite bool_decide_eq_true_2 by done.
Qed.

(** * Further properties of the model *)

(** ** Tile displays *)

(** [ReactionTiles] on a well-formed display, for a colour that is a key
    of its counts (as every colour is in the displays the constructor
    builds): it returns exactly when [0 < number <= count]; a number that is
    not positive is refused before the display is touched; a number above
    the count is refused only after the count was lowered below zero. *)
Theorem ReactionTiles_outcome (d : TileDisplay) (number : Z) (tile : Tile) :
  display_wf d →
  is_Some (tiles d !! tile) →
  ReactionTiles number tile d =
    (if bool_decide (number ≤ 0) then Raised AssertionError d
     else if bool_decide (number ≤ tiles d !!! tile)
          then Done () (display_minus d number tile)
          else Raised AssertionError (display_minus d number tile))
  ∧ (0 < number ≤ tiles d !!! tile →
       display_wf (display_minus d number tile)
       ∧ display_count (display_minus d number tile) = display_count d - number)
  ∧ (tiles d !!! tile < number → tiles (display_minus d number tile) !!! tile < 0).
Proof.
  intros Hwf _. split; [|split].
  - case_bool_decide as Hpos.
    + unfold ReactionTiles. mrun. by rewrite bool_decide_eq_false_2 by lia.
    + case_bool_decide as Hcount.
      * apply ReactionTiles_Done; [lia|done|].
        destruct Hwf as [Hnn Htot]. rewrite Htot.
        pose proof (display_count_ge d tile Hnn). lia.
      * unfold ReactionTiles. mrun. rewrite bool_decide_eq_true_2 by lia. mrun.
        cbn [tiles]. rewrite lookup_total_insert_eq.
        by rewrite bool_decide_eq_false_2 by lia.
  - intros Hn. split; [apply display_wf_minus; [done|lia]|apply display_count_minus].
  - intros Hn. unfold display_minus. cbn [tiles]. rewrite lookup_total_insert_eq. lia.
Qed.

(** A display with three blue tiles and one red tile. *)
Definition sample_display : TileDisplay :=
  {| tiles := <[BLUE := 3]> (<[RED := 1]> zero_counts); total := 4 |}.

Lemma ReactionTiles_outcome_witness :
  ReactionTiles 2 BLUE sample_display =
    (if bool_decide (2 ≤ 0) then Raised AssertionError sample_display
     else if bool_decide (2 ≤ tiles sample_display !!! BLUE)
          then Done () (display_minus sample_display 2 BLUE)
          else Raised AssertionError (display_minus sample_display 2 BLUE))
  ∧ (0 < 2 ≤ tiles sample_display !!! BLUE →
       display_wf (display_minus sample_display 2 BLUE)
       ∧ display_count (display_minus sample_display 2 BLUE)
         = display_count sample_display - 2)
  ∧ (tiles sample_display !!! BLUE < 2 →
       tiles (display_minus sample_display 2 BLUE) !!! BLUE < 0).
Proof.
  apply (ReactionTiles_outcome sample_display 2 BLUE).
  - apply (bool_decide_unpack _). vm_compute. exact I.
  - apply (bool_decide_unpack _). vm_compute. exact I.
Defined.

(** [AddTiles] for a colour that is a key of the counts keeps a display
    well-formed and raises only for a number that is not positive, leaving
    the display as it was. *)
Theorem AddTiles_outcome (d : TileDisplay) (number : Z) (tile : Tile) :
  display_wf d →
  is_Some (tiles d !! tile) →
  AddTiles number tile d =
    (if bool_decide (number ≤ 0) then Raised AssertionError d
     else Done () (display_plus d number tile))
  ∧ (0 < number →
       display_wf (display_plus d number tile)
       ∧ display_count (display_plus d number tile) = display_count d + number).
Proof.
  intros Hwf _. split.
  - case_bool_decide as Hpos.
    + unfold AddTiles. mrun. by rewrite bool_decide_eq_false_2 by lia.
    + apply AddTiles_Done. lia.
  - intros Hn. split; [apply display_wf_plus; [done|lia]|apply display_count_plus].
Qed.

Lemma AddTiles_outcome_witness :
  AddTiles 2 RED sample_display =
    (if bool_decide (2 ≤ 0) then Raised AssertionError sample_display
     else Done () (display_plus sample_display 2 RED))
  ∧ (0 < 2 →
       display_wf (display_plus sample_display 2 RED)
       ∧ display_count (display_plus sample_display 2 RED)
         = display_count sample_display + 2).
Proof.
  apply (AddTiles_outcome sample_display 2 RED).
  - apply (bool_decide_unpack _). vm_compute. exact I.
  - apply (bool_decide_unpack _). vm_compute. exact I.
Defined.

(** Adding tiles to a display and removing the same tiles again gives the
    display back, when the colour is a key of the counts. *)
Theorem AddTiles_ReactionTiles_round_trip (d : TileDisplay) (number : Z) (tile : Tile) :
  display_wf d →
  is_Some (tiles d !! tile) →
  0 < number →
  (AddTiles number tile ≫= λ _, ReactionTiles number tile) d = Done () d.
Proof.
  intros Hwf [c Hc] Hpos. unfold mbind, M_bind.
  rewrite AddTiles_Done by lia.
  assert (tiles d !!! tile = c) as Hcount by by rewrite lookup_total_alt, Hc.
  destruct Hwf as [Hnn Htot].
  pose proof (proj1 (Forall_forall _ _) Hnn tile (elem_of_all_tiles tile)) as Hge.
  cbv beta in Hge. pose proof (display_count_ge d tile Hnn) as Hle.
  rewrite ReactionTiles_Done; unfold display_plus; cbn [tiles total];
    rewrite ?lookup_total_insert_eq; try lia.
  f_equal. unfold display_minus. cbn [tiles total]. rewrite lookup_total_insert_eq.
  destruct d as [m tot]. cbn [tiles total] in *. f_equal; [|lia].
  rewrite insert_insert_eq. replace (m !!! tile + number - number) with c by lia.
  by apply insert_id.
Qed.

Lemma AddTiles_ReactionTiles_round_trip_witness :
  (AddTiles 2 RED ≫= λ _, ReactionTiles 2 RED) sample_display = Done () sample_display.
Proof.
  apply (AddTiles_ReactionTiles_round_trip sample_display 2 RED).
  - apply (bool_decide_unpack _). vm_compute. exact I.
  - apply (bool_decide_unpack _). vm_compute. exact I.
  - lia.
Defined.

(** ** The floor line *)

(** Number of free slots of a floor line. *)
Definition free_slots (fl : list Z) : nat := length (filter (λ x, x = 0) fl).

(** What [AddToFloor] keeps of a board. *)
Definition same_but_floor (a a' : AgentState) : Prop :=
  agent_id a' = agent_id a ∧ score a' = score a
  ∧ lines_number a' = lines_number a ∧ lines_tile a' = lines_tile a
  ∧ grid_state a' = grid_state a ∧ number_of a' = number_of a.

Lemma AddToFloor_loop_spec cur : ∀ pre tiles number a,
  floor a = pre ++ cur →
  number = Z.of_nat (length tiles) → tiles ≠ [] →
  ∃ a' cur',
    AddToFloor_loop (seq (length pre) (length cur)) tiles number a
      = Done (drop (length tiles `min` free_slots cur) tiles) a'
    ∧ floor a' = pre ++ cur'
    ∧ length cur' = length cur
    ∧ free_slots cur' = (free_slots cur - length tiles `min` free_slots cur)%nat
    ∧ floor_tiles a' = floor_tiles a ++ take (length tiles `min` free_slots cur) tiles
    ∧ same_but_floor a a'.
Proof.
  induction cur as [|x cur IH]; intros pre tiles number a Hfloor Hnum Hne.
  - cbn [length seq AddToFloor_loop]. mrun. exists a, [].
    unfold free_slots, same_but_floor. cbn.
    rewrite Nat.min_0_r, drop_0, take_0, !app_nil_r. rewrite app_nil_r in Hfloor.
    by repeat split.
  - cbn [length seq AddToFloor_loop]. mrun.
    assert (floor a !!! length pre = x) as Hx
      by (rewrite Hfloor; by apply list_lookup_total_middle).
    rewrite Hx. clear Hx. unfold free_slots in *. case_bool_decide as Hfree.
    + subst x. rewrite filter_cons_True by done. cbn [length].
      destruct tiles as [|t tiles']; [done|]. cbn [length] in *. mrun.
      assert (<[length pre := 1]> (floor a) = (pre ++ [1]) ++ cur) as Hfloor'.
      { rewrite Hfloor, insert_app_r_alt, Nat.sub_diag by lia. cbn.
        by rewrite <- app_assoc. }
      case_bool_decide as Hlast.
      * assert (tiles' = []) as -> by (destruct tiles'; [done|cbn [length] in *; lia]).
        eexists _, (1 :: cur). split; [reflexivity|].
        cbn [floor floor_tiles set_floor set_floor_tiles length].
        rewrite Hfloor', <- app_assoc. cbn. unfold same_but_floor.
        repeat split; try done. case_decide; [lia|]. by rewrite Nat.sub_0_r.
      * match goal with |- context [AddToFloor_loop _ tiles' ?n ?st] =>
          destruct (IH (pre ++ [1]) tiles' n st)
            as (a' & cur' & Hrun & Hfl & Hlen & Hfree' & Hft & Hsame)
        end.
        { cbn [floor set_floor set_floor_tiles]. exact Hfloor'. }
        { lia. }
        { destruct tiles'; [cbn [length] in *; lia|done]. }
        rewrite length_app in Hrun. cbn [length] in Hrun.
        rewrite Nat.add_1_r in Hrun. rewrite Hrun.
        exists a', (1 :: cur'). rewrite <- Nat.succ_min_distr. cbn [drop take].
        split; [done|]. split; [by rewrite Hfl, <- app_assoc|].
        split; [cbn; lia|]. split; [rewrite filter_cons_False by done; lia|].
        split; [|exact Hsame].
        rewrite Hft. cbn [floor_tiles set_floor_tiles set_floor].
        by rewrite <- app_assoc.
    + rewrite filter_cons_False by done.
      rewrite bool_decide_eq_false_2 by (destruct tiles; [done|simpl in Hnum; lia]).
      destruct (IH (pre ++ [x]) tiles number a)
        as (a' & cur' & Hrun & Hfl & Hlen & Hfree' & Hft & Hsame); [|done|done|].
      { by rewrite Hfloor, <- app_assoc. }
      rewrite length_app in Hrun. cbn [length] in Hrun.
      rewrite Nat.add_1_r in Hrun. rewrite Hrun.
      exists a', (x :: cur'). split; [done|].
      split; [by rewrite Hfl, <- app_assoc|]. split; [cbn; lia|].
      split; [by rewrite filter_cons_False by done|]. by split.
Qed.

(** The tiles [AddToFloor] lays and the part of the board it keeps. *)
Lemma AddToFloor_frame (tiles : list Tile) (a : AgentState) :
  tiles ≠ [] →
  ∃ a', AddToFloor tiles a
          = Done (drop (length tiles `min` free_slots (floor a)) tiles) a'
    ∧ floor_tiles a' = floor_tiles a ++ take (length tiles `min` free_slots (floor a)) tiles
    ∧ same_but_floor a a'.
Proof.
  intros Hne. unfold AddToFloor. mrun.
  destruct (AddToFloor_loop_spec (floor a) [] tiles (Z.of_nat (length tiles)) a)
    as (a' & cur' & Hrun & _ & _ & _ & Hft & Hsame); [done|done|done|].
  cbn [length] in Hrun. rewrite Hrun. by exists a'.
Qed.

(** [AddToFloor] with at least one tile never raises: it lays as many
    tiles as the floor line has free slots (in the order given), occupies
    that many slots, and hands back the tiles that found no slot. *)
Theorem AddToFloor_places_what_fits (tiles : list Tile) (a : AgentState) :
  tiles ≠ [] →
  ∃ a', AddToFloor tiles a
          = Done (drop (length tiles `min` free_slots (floor a)) tiles) a'
    ∧ floor_tiles a' = floor_tiles a ++ take (length tiles `min` free_slots (floor a)) tiles
    ∧ length (floor a') = length (floor a)
    ∧ free_slots (floor a')
      = (free_slots (floor a) - length tiles `min` free_slots (floor a))%nat
    ∧ same_but_floor a a'.
Proof.
  intros Hne. unfold AddToFloor. mrun.
  destruct (AddToFloor_loop_spec (floor a) [] tiles (Z.of_nat (length tiles)) a)
    as (a' & cur' & Hrun & Hfl & Hlen & Hfree & Hft & Hsame); [done|done|done|].
  cbn [length] in Hrun. rewrite Hrun. exists a'. split; [done|].
  rewrite app_nil_l in Hfl. rewrite Hfl. split; [done|]. split; [done|]. by split.
Qed.

(** A board whose floor line has its first two slots taken. *)
Definition crowded_floor_board : AgentState :=
  set_floor_tiles [RED] (set_floor [1; 1; 0; 0; 0; 0; 0] (AgentState_new 0)).

Lemma AddToFloor_places_what_fits_witness :
  ∃ a', AddToFloor (replicate 6 BLUE) crowded_floor_board
          = Done (drop (length (replicate 6 BLUE)
                          `min` free_slots (floor crowded_floor_board))
                       (replicate 6 BLUE)) a'
    ∧ floor_tiles a'
      = floor_tiles crowded_floor_board
        ++ take (length (replicate 6 BLUE) `min` free_slots (floor crowded_floor_board))
                (replicate 6 BLUE)
    ∧ length (floor a') = length (floor crowded_floor_board)
    ∧ free_slots (floor a')
      = (free_slots (floor crowded_floor_board)
         - length (replicate 6 BLUE) `min` free_slots (floor crowded_floor_board))%nat
    ∧ same_but_floor crowded_floor_board a'.
Proof. apply (AddToFloor_places_what_fits (replicate 6 BLUE) crowded_floor_board). done. Defined.

(** [AddToFloor] with an empty list of tiles: when the first floor slot is
    free, the slot is marked occupied and popping the empty list raises
    IndexError; otherwise nothing happens. *)
Theorem AddToFloor_empty_list (a : AgentState) :
  AddToFloor [] a =
    match floor a with
    | [] => Done [] a
    | x :: fl =>
        if bool_decide (x = 0) then Raised IndexError (set_floor (1 :: fl) a)
        else Done [] a
    end.
Proof.
  unfold AddToFloor. mrun. destruct (floor a) as [|x fl] eqn:Hfloor; [done|].
  cbn [length seq AddToFloor_loop]. mrun. rewrite Hfloor.
  change ((x :: fl) !!! 0%nat) with x. case_bool_decide; [done|].
  cbn [length]. by rewrite bool_decide_eq_true_2 by done.
Qed.

Lemma first_free_slot_spec (fl : list Z) :
  length (first_free_slot fl) = length fl
  ∧ free_slots (first_free_slot fl) = pred (free_slots fl).
Proof.
  unfold free_slots. induction fl as [|x fl [IHlen IHfree]]; [done|].
  cbn [first_free_slot]. case_bool_decide as Hx.
  - subst x. rewrite (filter_cons_False _ 1), (filter_cons_True _ 0) by done. by cbn.
  - rewrite !filter_cons_False by done. cbn [length]. by rewrite IHlen, IHfree.
Qed.

Lemma GiveFirstAgentToken_Done (a : AgentState) :
  GiveFirstAgentToken a = Done () (set_floor (first_free_slot (floor a)) a).
Proof. unfold GiveFirstAgentToken. by mrun. Qed.

(** [GiveFirstAgentToken] always returns; it occupies one free floor slot
    (none when the floor line is full) and puts no tile on the floor line:
    the token takes a slot away from the tiles. *)
Theorem GiveFirstAgentToken_takes_a_slot (a : AgentState) :
  ∃ a', GiveFirstAgentToken a = Done () a'
    ∧ floor_tiles a' = floor_tiles a
    ∧ length (floor a') = length (floor a)
    ∧ free_slots (floor a') = pred (free_slots (floor a))
    ∧ same_but_floor a a'.
Proof.
  unfold GiveFirstAgentToken. mrun. eexists. split; [reflexivity|].
  cbn [floor floor_tiles set_floor].
  destruct (first_free_slot_spec (floor a)) as [Hlen Hfree].
  split; [done|]. split; [done|]. split; [done|]. by repeat split.
Qed.

(** ** Pattern lines *)

(** [AddToPatternLine] on a board with its five pattern lines: it is
    refused, with the board untouched, when the line does not exist or holds
    another colour; otherwise the tiles are added and the colour assigned,
    and the call is refused after that when the line then holds more than
    its capacity [line + 1].  The number of tiles is not checked. *)
Theorem AddToPatternLine_outcome (a : AgentState) (line number : Z) (tile : Tile) :
  length (lines_number a) = 5%nat →
  AddToPatternLine line number tile a =
    if bool_decide (0 ≤ line < 5
                    ∧ (lines_tile a !!! Z.to_nat line = None
                       ∨ lines_tile a !!! Z.to_nat line = Some tile))
    then if bool_decide (lines_number a !!! Z.to_nat line + number ≤ line + 1)
         then Done () (line_filled a (Z.to_nat line) number tile)
         else Raised AssertionError (line_filled a (Z.to_nat line) number tile)
    else Raised AssertionError a.
Proof.
  intros Hlen. case_bool_decide as Hok.
  - destruct Hok as [Hline Hcolour]. case_bool_decide as Hroom.
    + apply AddToPatternLine_Done; unfold GRID_SIZE; try done; lia.
    + unfold AddToPatternLine, GRID_SIZE. mrun.
      rewrite (bool_decide_eq_true_2 (line >= 0 ∧ line < 5)) by lia. mrun.
      rewrite (bool_decide_eq_true_2 (_ ∨ _)) by done. mrun.
      cbn [lines_number set_lines_number set_lines_tile].
      rewrite list_lookup_total_insert_eq by lia.
      by rewrite bool_decide_eq_false_2 by done.
  - unfold AddToPatternLine, GRID_SIZE. mrun.
    destruct (decide (line >= 0 ∧ line < 5)) as [Hline|Hline].
    + rewrite (bool_decide_eq_true_2 (line >= 0 ∧ line < 5)) by done. mrun.
      rewrite (bool_decide_eq_false_2 (_ ∨ _)); [done|].
      intros Hcolour. apply Hok. split; [lia|done].
    + by rewrite (bool_decide_eq_false_2 (line >= 0 ∧ line < 5)) by done.
Qed.

Lemma AddToPatternLine_outcome_witness :
  AddToPatternLine 2 4 RED (AgentState_new 0) =
    if bool_decide (0 ≤ 2 < 5
                    ∧ (lines_tile (AgentState_new 0) !!! Z.to_nat 2 = None
                       ∨ lines_tile (AgentState_new 0) !!! Z.to_nat 2 = Some RED))
    then if bool_decide (lines_number (AgentState_new 0) !!! Z.to_nat 2 + 4 ≤ 2 + 1)
         then Done () (line_filled (AgentState_new 0) (Z.to_nat 2) 4 RED)
         else Raised AssertionError (line_filled (AgentState_new 0) (Z.to_nat 2) 4 RED)
    else Raised AssertionError (AgentState_new 0).
Proof. apply (AddToPatternLine_outcome (AgentState_new 0) 2 4 RED). reflexivity. Defined.

(** ** Takes *)

Lemma sumZ_insert (l : list Z) (i : nat) (x y : Z) :
  l !! i = Some x → sumZ (<[i := y]> l) = sumZ l - x + y.
Proof.
  unfold sumZ. revert i. induction l as [|z l IH]; intros [|i] Hi; try done.
  - injection Hi as ->. cbn. lia.
  - change (<[S i := y]> (z :: l)) with (z :: <[i := y]> l). cbn [foldr].
    rewrite (IH i Hi). lia.
Qed.

Lemma sumZ_fmap_insert {A} (f : A → Z) (l : list A) (i : nat) (x y : A) :
  l !! i = Some x → sumZ (f <$> <[i := y]> l) = sumZ (f <$> l) - f x + f y.
Proof.
  intros Hi. rewrite list_fmap_insert. apply sumZ_insert.
  by rewrite list_lookup_fmap, Hi.
Qed.

(** What a step leaves untouched besides the displays. *)
Definition same_but_displays (s s' : AzulState) : Prop :=
  agents s' = agents s ∧ bag s' = bag s ∧ bag_used s' = bag_used s
  ∧ first_agent_taken s' = first_agent_taken s
  ∧ first_agent s' = first_agent s ∧ next_first_agent s' = next_first_agent s.

(** The loop of a factory take that moves what is left on the factory to
    the centre, one colour at a time. *)
Definition pour_colour (fac : nat) (tile : Tile) : M AzulState unit :=
  s ← get;
  let num_on_fd := tiles (factories s !!! fac) !!! tile in
  if bool_decide (num_on_fd > 0) then
    on_centre (AddTiles num_on_fd tile);;
    on_factory fac (ReactionTiles num_on_fd tile)
  else mret ().

Lemma pour_colour_spec fac tile s f :
  factories s !! fac = Some f → display_wf f → display_wf (centre_pool s) →
  ∃ s' f', pour_colour fac tile s = Done () s'
    ∧ factories s' = <[fac := f']> (factories s)
    ∧ display_wf f' ∧ display_wf (centre_pool s')
    ∧ tiles f' !!! tile = 0
    ∧ (∀ t, t ≠ tile → tiles f' !!! t = tiles f !!! t)
    ∧ display_count f' + display_count (centre_pool s')
      = display_count f + display_count (centre_pool s)
    ∧ (∀ t, tiles f' !!! t + tiles (centre_pool s') !!! t
            = tiles f !!! t + tiles (centre_pool s) !!! t)
    ∧ same_but_displays s s'.
Proof.
  intros Hf Hwf Hcentre. unfold pour_colour. mrun.
  rewrite (list_lookup_total_correct _ _ _ Hf).
  pose proof (proj1 (Forall_forall _ _) (proj1 Hwf) tile (elem_of_all_tiles tile)) as Hge.
  cbv beta in Hge.
  case_bool_decide as Hpos.
  - unfold on_centre. rewrite AddTiles_Done by done. mrun.
    unfold on_factory. cbn [factories set_centre_pool]. rewrite Hf.
    rewrite ReactionTiles_Done; [|done|lia|].
    2:{ destruct Hwf as [Hnn ->]. by apply display_count_ge. }
    eexists _, _. split; [reflexivity|]. cbn [factories centre_pool set_factories
                                               set_centre_pool].
    split; [done|]. split; [apply display_wf_minus; [done|lia]|].
    split; [apply display_wf_plus; [done|lia]|].
    split; [unfold display_minus; cbn [tiles]; rewrite lookup_total_insert_eq; lia|].
    split.
    { intros t Ht. unfold display_minus. cbn [tiles].
      by rewrite lookup_total_insert_ne. }
    split; [rewrite display_count_minus, display_count_plus; lia|].
    split.
    { intros t. unfold display_minus, display_plus. cbn [tiles].
      destruct (decide (t = tile)) as [->|Hne].
      - rewrite !lookup_total_insert_eq. lia.
      - by rewrite !lookup_total_insert_ne. }
    by repeat split.
  - exists s, f. split; [done|]. split; [by rewrite list_insert_id|].
    split; [done|]. split; [done|]. split; [lia|]. split; [done|].
    split; [done|]. split; [done|]. by repeat split.
Qed.

Lemma pour_colours_spec fac (colours : list Tile) : ∀ s f,
  factories s !! fac = Some f → display_wf f → display_wf (centre_pool s) →
  ∃ s' f', for_each colours (pour_colour fac) s = Done () s'
    ∧ factories s' = <[fac := f']> (factories s)
    ∧ display_wf f' ∧ display_wf (centre_pool s')
    ∧ (∀ t, t ∈ colours → tiles f' !!! t = 0)
    ∧ (∀ t, t ∉ colours → tiles f' !!! t = tiles f !!! t)
    ∧ display_count f' + display_count (centre_pool s')
      = display_count f + display_count (centre_pool s)
    ∧ (∀ t, tiles f' !!! t + tiles (centre_pool s') !!! t
            = tiles f !!! t + tiles (centre_pool s) !!! t)
    ∧ same_but_displays s s'.
Proof.
  induction colours as [|tile colours IH]; intros s f Hf Hwf Hcentre.
  - cbn [for_each]. mrun. exists s, f. split; [done|].
    split; [by rewrite list_insert_id|]. split; [done|]. split; [done|].
    split; [by intros t Ht%elem_of_nil|]. split; [done|]. split; [done|].
    split; [done|]. by repeat split.
  - cbn [for_each]. unfold mbind at 1. unfold M_bind at 1.
    destruct (pour_colour_spec fac tile s f Hf Hwf Hcentre)
      as (s1 & f1 & Hrun1 & Hfs1 & Hwf1 & Hc1 & Hzero1 & Hother1 & Hcount1 & Hper1
          & Hsame1).
    rewrite Hrun1.
    assert (factories s1 !! fac = Some f1) as Hf1.
    { rewrite Hfs1. apply list_lookup_insert_eq. by apply lookup_lt_Some in Hf. }
    destruct (IH s1 f1 Hf1 Hwf1 Hc1)
      as (s2 & f2 & Hrun2 & Hfs2 & Hwf2 & Hc2 & Hzero2 & Hother2 & Hcount2 & Hper2
          & Hsame2).
    rewrite Hrun2. exists s2, f2. split; [done|].
    split; [by rewrite Hfs2, Hfs1, list_insert_insert_eq|].
    split; [done|]. split; [done|]. split.
    { intros t Ht. destruct (decide (t ∈ colours)) as [Hin|Hnin]; [by apply Hzero2|].
      rewrite (Hother2 t Hnin). apply elem_of_cons in Ht as [->|Ht]; done. }
    split.
    { intros t Ht. apply not_elem_of_cons in Ht as [Hne Hnin].
      rewrite (Hother2 t Hnin). by apply Hother1. }
    split; [lia|].
    split; [intros t; rewrite Hper2; apply Hper1|].
    destruct Hsame1 as (? & ? & ? & ? & ? & ?), Hsame2 as (? & ? & ? & ? & ? & ?).
    repeat split; congruence.
Qed.

Lemma on_agent_Done {A} (s : AzulState) (plr : nat) (a a' : AgentState)
    (m : M AgentState A) (x : A) :
  agents s !! plr = Some a → m a = Done x a' →
  on_agent plr m s = Done x (set_agents (<[plr := a']> (agents s)) s).
Proof. intros Ha Hm. unfold on_agent. by rewrite Ha, Hm. Qed.

(** What a step on one agent's board leaves untouched. *)
Definition same_but_board (s s' : AzulState) : Prop :=
  bag s' = bag s ∧ factories s' = factories s ∧ centre_pool s' = centre_pool s
  ∧ first_agent_taken s' = first_agent_taken s
  ∧ first_agent s' = first_agent s ∧ next_first_agent s' = next_first_agent s.

(** The floor-line part of a take: the tiles lie on the floor line or in
    the used bag afterwards. *)
Definition floor_part (plr : nat) (tg : TileGrab) : M AzulState unit :=
  if bool_decide (num_to_floor_line tg > 0) then
    let ttf := replicate (Z.to_nat (num_to_floor_line tg)) (tile_type tg) in
    ttf ← on_agent plr (AddToFloor ttf);
    modify (λ s, set_bag_used (bag_used s ++ ttf) s)
  else mret ().

(** The pattern-line part of a take. *)
Definition pattern_part (plr : nat) (tg : TileGrab) : M AzulState unit :=
  if bool_decide (num_to_pattern_line tg > 0) then
    on_agent plr (AddToPatternLine (pattern_line_dest tg) (num_to_pattern_line tg)
                                   (tile_type tg))
  else mret ().

Lemma take_to_board_parts plr tg :
  take_to_board plr tg = (floor_part plr tg ≫= λ _, pattern_part plr tg).
Proof. reflexivity. Qed.

Lemma floor_part_spec s plr a tg :
  agents s !! plr = Some a →
  ∃ s' a', floor_part plr tg s = Done () s'
    ∧ agents s' = <[plr := a']> (agents s)
    ∧ same_but_board s s'
    ∧ same_but_floor a a'
    ∧ Z.of_nat (length (bag_used s')) + Z.of_nat (length (floor_tiles a'))
      = Z.of_nat (length (bag_used s)) + Z.of_nat (length (floor_tiles a))
        + Z.max 0 (num_to_floor_line tg).
Proof.
  intros Ha. unfold floor_part. case_bool_decide as Hfloor.
  - destruct (AddToFloor_frame
                (replicate (Z.to_nat (num_to_floor_line tg)) (tile_type tg)) a)
      as (a' & Hrun & Hft & Hsame).
    { destruct (Z.to_nat (num_to_floor_line tg)) eqn:Hn; [lia|done]. }
    mrun. rewrite (on_agent_Done s plr a a' _ _ Ha Hrun).
    eexists _, a'. split; [reflexivity|].
    cbn [agents bag_used set_bag_used set_agents].
    split; [done|]. split; [by repeat split|]. split; [done|].
    rewrite Hft, !length_app, length_drop, length_take, length_replicate. lia.
  - mrun. exists s, a. split; [done|]. split; [by rewrite list_insert_id|].
    split; [by repeat split|]. split; [by repeat split|]. lia.
Qed.

(** The board after the pattern-line part of a tile grab. *)
Definition board_after_pattern_part (a : AgentState) (tg : TileGrab) : AgentState :=
  if bool_decide (num_to_pattern_line tg > 0)
  then line_filled a (Z.to_nat (pattern_line_dest tg)) (num_to_pattern_line tg) (tile_type tg)
  else a.

Lemma pattern_part_spec s plr a tg :
  agents s !! plr = Some a → pattern_part_fits a tg →
  pattern_part plr tg s
  = Done () (set_agents (<[plr := board_after_pattern_part a tg]> (agents s)) s).
Proof.
  intros Ha Hfits. unfold pattern_part, board_after_pattern_part.
  case_bool_decide as Hpattern.
  - destruct (Hfits Hpattern) as (Hline & Hcolour & Hlen & Hroom).
    apply (on_agent_Done s plr a _ _ _ Ha). by apply AddToPatternLine_Done.
  - mrun. rewrite list_insert_id by done. by destruct s.
Qed.

Lemma board_count_after_pattern_part a tg :
  pattern_part_fits a tg →
  board_count (board_after_pattern_part a tg)
  = board_count a + Z.max 0 (num_to_pattern_line tg).
Proof.
  intros Hfits. unfold board_after_pattern_part. case_bool_decide as Hpattern; [|lia].
  destruct (Hfits Hpattern) as (Hline & Hcolour & Hlen & Hroom).
  unfold board_count, line_filled.
  cbn [grid_state floor_tiles lines_number set_lines_tile set_lines_number].
  rewrite (sumZ_insert _ _ (lines_number a !!! Z.to_nat (pattern_line_dest tg)))
    by by apply list_lookup_lookup_total_lt.
  lia.
Qed.

(** A take's effect on the board of the agent: the state afterwards, the
    agent's new board, and the account of the tiles. *)
Lemma take_to_board_spec s plr a tg :
  agents s !! plr = Some a → pattern_part_fits a tg →
  ∃ s' a', take_to_board plr tg s = Done () s'
    ∧ agents s' = <[plr := a']> (agents s)
    ∧ same_but_board s s'
    ∧ (∃ a1, same_but_floor a a1 ∧ a' = board_after_pattern_part a1 tg)
    ∧ Z.of_nat (length (bag_used s')) + board_count a'
      = Z.of_nat (length (bag_used s)) + board_count a
        + Z.max 0 (num_to_floor_line tg) + Z.max 0 (num_to_pattern_line tg).
Proof.
  intros Ha Hfits. rewrite take_to_board_parts. unfold mbind, M_bind.
  destruct (floor_part_spec s plr a tg Ha)
    as (s1 & a1 & Hrun1 & Hagents1 & Hframe1 & Hsame1 & Hcount1).
  rewrite Hrun1.
  assert (agents s1 !! plr = Some a1) as Ha1.
  { rewrite Hagents1. apply list_lookup_insert_eq. by apply lookup_lt_Some in Ha. }
  assert (pattern_part_fits a1 tg) as Hfits1.
  { destruct Hsame1 as (_ & _ & Hln & Hlt & _). unfold pattern_part_fits.
    by rewrite Hln, Hlt. }
  rewrite (pattern_part_spec s1 plr a1 tg Ha1 Hfits1).
  eexists _, _. split; [reflexivity|]. cbn [agents bag_used set_agents].
  split; [by rewrite Hagents1, list_insert_insert_eq|].
  split; [by destruct Hframe1 as (? & ? & ? & ? & ? & ?)|].
  split; [by exists a1|].
  rewrite (board_count_after_pattern_part a1 tg Hfits1).
  destruct Hsame1 as (_ & _ & Hln & _ & Hg & _).
  unfold board_count in *. rewrite Hln, Hg. lia.
Qed.

Lemma py_index_Some {A} (l : list A) (i : Z) (n : nat) :
  py_index l i = Some n → (n < length l)%nat.
Proof.
  unfold py_index. intros Hn.
  destruct (0 <=? i) eqn:H0; destruct (i <? Z.of_nat (length l)) eqn:H1;
    cbn [andb] in Hn; try (injection Hn as <-; lia);
    destruct (- Z.of_nat (length l) <=? i) eqn:H2; destruct (i <? 0) eqn:H3;
    cbn [andb] in Hn; try done; injection Hn as <-; lia.
Qed.

(** The account of a step that changes one board, the used bag and the
    displays. *)
Lemma total_tiles_after_step s s' plr a a' :
  agents s !! plr = Some a →
  agents s' = <[plr := a']> (agents s) →
  bag s' = bag s →
  total_tiles s'
  = total_tiles s
    + (Z.of_nat (length (bag_used s')) + board_count a'
       - (Z.of_nat (length (bag_used s)) + board_count a))
    + (sumZ (display_count <$> factories s') - sumZ (display_count <$> factories s))
    + (display_count (centre_pool s') - display_count (centre_pool s)).
Proof.
  intros Ha Hagents Hbag. unfold total_tiles.
  rewrite Hagents, Hbag, (sumZ_fmap_insert _ _ _ a) by done. lia.
Qed.

(** The first-player-token part of a take from the centre. *)
Definition token_part (plr : nat) (agent_id : Z) : M AzulState unit :=
  s ← get;
  if negb (first_agent_taken s) then
    on_agent plr GiveFirstAgentToken;;
    modify (set_first_agent_taken true);;
    modify (set_next_first_agent agent_id)
  else mret ().

Lemma token_part_spec s plr agent_id a :
  agents s !! plr = Some a →
  ∃ s' a', token_part plr agent_id s = Done () s'
    ∧ agents s' = <[plr := a']> (agents s)
    ∧ same_but_floor a a' ∧ floor_tiles a' = floor_tiles a
    ∧ bag s' = bag s ∧ bag_used s' = bag_used s
    ∧ factories s' = factories s ∧ centre_pool s' = centre_pool s
    ∧ first_agent s' = first_agent s
    ∧ first_agent_taken s' = true
    ∧ next_first_agent s'
      = (if first_agent_taken s then next_first_agent s else agent_id).
Proof.
  intros Ha. unfold token_part. mrun.
  destruct (first_agent_taken s) eqn:Htaken; cbn [negb].
  - exists s, a. split; [done|]. split; [by rewrite list_insert_id|].
    by repeat split.
  - rewrite (on_agent_Done s plr a _ _ _ Ha (GiveFirstAgentToken_Done a)). mrun.
    eexists _, _. split; [reflexivity|]. split; [done|].
    split; [by repeat split|]. by repeat split.
Qed.

(** A take passes the checks [generateSuccessor] and the objects it calls
    make: the agent and the display exist, the display is well-formed and
    holds the tiles taken, the pattern-line part fits its line. *)
Definition take_passes (s : AzulState) (agent_id : Z) (kind : ActionKind) (fid : Z)
    (tg : TileGrab) : Prop :=
  ∃ plr a d,
    py_index (agents s) agent_id = Some plr
    ∧ agents s !! plr = Some a
    ∧ pattern_part_fits a tg
    ∧ match kind with
      | TAKE_FROM_CENTRE => d = centre_pool s
      | TAKE_FROM_FACTORY =>
          ∃ fac, py_index (factories s) fid = Some fac ∧ factories s !! fac = Some d
      end
    ∧ 0 < number tg ≤ tiles d !!! tile_type tg.

Lemma take_from_centre_spec rs s agent_id fid tg plr a :
  Forall display_wf (displays s) →
  py_index (agents s) agent_id = Some plr →
  agents s !! plr = Some a →
  pattern_part_fits a tg →
  0 < number tg ≤ tiles (centre_pool s) !!! tile_type tg →
  ∃ s' a', generateSuccessor rs (Take TAKE_FROM_CENTRE fid tg) agent_id s = Done () s'
    ∧ agents s' = <[plr := a']> (agents s)
    ∧ (∃ a0 a1, same_but_floor a a0 ∧ same_but_floor a0 a1
                ∧ a' = board_after_pattern_part a1 tg)
    ∧ bag s' = bag s
    ∧ factories s' = factories s
    ∧ centre_pool s' = display_minus (centre_pool s) (number tg) (tile_type tg)
    ∧ first_agent s' = first_agent s
    ∧ first_agent_taken s' = true
    ∧ next_first_agent s'
      = (if first_agent_taken s then next_first_agent s else agent_id)
    ∧ total_tiles s'
      = total_tiles s - number tg
        + Z.max 0 (num_to_floor_line tg) + Z.max 0 (num_to_pattern_line tg).
Proof.
  intros Hwf Hplr Ha Hfits Hnumber.
  assert (display_wf (centre_pool s)) as Hcentre
    by (apply (proj1 (Forall_forall _ _) Hwf); by left).
  unfold generateSuccessor. unfold mbind at 1. unfold M_bind at 1, get at 1.
  rewrite Hplr.
  destruct (token_part_spec s plr agent_id a Ha)
    as (s0 & a0 & Hrun0 & Hagents0 & Hsame0 & Hft0 & Hbag0 & Hused0 & Hfac0 & Hc0 & Hfa0
        & Htaken0 & Hnfa0).
  unfold token_part in Hrun0. unfold mbind at 1 in Hrun0. unfold M_bind at 1, get at 1 in Hrun0.
  unfold mbind at 1. unfold M_bind at 1. rewrite Hrun0.
  assert (agents s0 !! plr = Some a0) as Ha0.
  { rewrite Hagents0. apply list_lookup_insert_eq. by apply lookup_lt_Some in Ha. }
  assert (pattern_part_fits a0 tg) as Hfits0.
  { destruct Hsame0 as (_ & _ & Hln & Hlt & _). unfold pattern_part_fits.
    by rewrite Hln, Hlt. }
  destruct (take_to_board_spec s0 plr a0 tg Ha0 Hfits0)
    as (s1 & a1 & Hrun1 & Hagents1 & Hframe1 & (a1' & Hsame1 & Ha1) & Hcount1).
  unfold mbind at 1. unfold M_bind at 1. rewrite Hrun1.
  destruct Hframe1 as (Hbag1 & Hfac1 & Hc1 & Htaken1 & Hfa1 & Hnfa1).
  unfold on_centre. rewrite Hc1, Hc0.
  rewrite ReactionTiles_Done; [|lia|lia|].
  2:{ destruct Hcentre as [Hnn ->].
      pose proof (display_count_ge _ (tile_type tg) Hnn). lia. }
  eexists _, a1. split; [reflexivity|].
  cbn [agents bag factories centre_pool first_agent first_agent_taken next_first_agent
       set_centre_pool].
  split; [by rewrite Hagents1, Hagents0, list_insert_insert_eq|].
  split; [by exists a0, a1'|]. split; [congruence|]. split; [congruence|].
  split; [done|]. split; [congruence|]. split; [congruence|]. split; [congruence|].
  rewrite (total_tiles_after_step s _ plr a a1 Ha); cbn [agents bag bag_used factories
    centre_pool set_centre_pool]; [| by rewrite Hagents1, Hagents0, list_insert_insert_eq
                                   | congruence].
  rewrite display_count_minus, Hfac1, Hfac0.
  assert (board_count a0 = board_count a) as Hb0.
  { destruct Hsame0 as (_ & _ & Hln & _ & Hg & _). unfold board_count.
    by rewrite Hln, Hg, Hft0. }
  rewrite Hused0 in Hcount1. lia.
Qed.

Lemma display_count_zero d :
  (∀ t, tiles d !!! t = 0) → display_count d = 0.
Proof. intros Hd. unfold display_count. apply sumZ_zero. intros t _. apply Hd. Qed.

Lemma take_from_factory_spec rs s agent_id fid tg plr a fac d :
  Forall display_wf (displays s) →
  py_index (agents s) agent_id = Some plr →
  agents s !! plr = Some a →
  pattern_part_fits a tg →
  py_index (factories s) fid = Some fac →
  factories s !! fac = Some d →
  0 < number tg ≤ tiles d !!! tile_type tg →
  ∃ s' a' f', generateSuccessor rs (Take TAKE_FROM_FACTORY fid tg) agent_id s = Done () s'
    ∧ agents s' = <[plr := a']> (agents s)
    ∧ (∃ a1, same_but_floor a a1 ∧ a' = board_after_pattern_part a1 tg)
    ∧ bag s' = bag s
    ∧ factories s' = <[fac := f']> (factories s)
    ∧ (∀ t, tiles f' !!! t = 0) ∧ display_wf f'
    ∧ display_wf (centre_pool s')
    ∧ display_count (centre_pool s')
      = display_count (centre_pool s) + display_count d - number tg
    ∧ (∀ t, tiles (centre_pool s') !!! t
            = tiles (centre_pool s) !!! t
              + tiles (display_minus d (number tg) (tile_type tg)) !!! t)
    ∧ first_agent s' = first_agent s
    ∧ first_agent_taken s' = first_agent_taken s
    ∧ next_first_agent s' = next_first_agent s
    ∧ total_tiles s'
      = total_tiles s - number tg
        + Z.max 0 (num_to_floor_line tg) + Z.max 0 (num_to_pattern_line tg).
Proof.
  intros Hwf Hplr Ha Hfits Hfac Hd Hnumber.
  assert (display_wf (centre_pool s)) as Hcentre
    by (apply (proj1 (Forall_forall _ _) Hwf); by left).
  assert (display_wf d) as Hdwf.
  { apply (proj1 (Forall_forall _ _) Hwf). right. apply list_elem_of_lookup. by exists fac. }
  unfold generateSuccessor. unfold mbind at 1. unfold M_bind at 1, get at 1.
  rewrite Hplr.
  destruct (take_to_board_spec s plr a tg Ha Hfits)
    as (s1 & a1 & Hrun1 & Hagents1 & Hframe1 & Hboard1 & Hcount1).
  unfold mbind at 1. unfold M_bind at 1. rewrite Hrun1.
  destruct Hframe1 as (Hbag1 & Hfac1 & Hc1 & Htaken1 & Hfa1 & Hnfa1).
  unfold mbind at 1. unfold M_bind at 1, get at 1. rewrite Hfac1, Hfac.
  unfold mbind at 1. unfold M_bind at 1. unfold on_factory at 1. rewrite Hfac1, Hd.
  rewrite ReactionTiles_Done; [|lia|lia|].
  2:{ destruct Hdwf as [Hnn ->].
      pose proof (display_count_ge _ (tile_type tg) Hnn). lia. }
  set (s2 := set_factories _ s1).
  assert (factories s2 !! fac = Some (display_minus d (number tg) (tile_type tg))) as Hd2.
  { subst s2. cbn [factories set_factories]. apply list_lookup_insert_eq.
    by apply lookup_lt_Some in Hd. }
  destruct (pour_colours_spec fac all_tiles s2 _ Hd2)
    as (s3 & f3 & Hrun3 & Hfac3 & Hwf3 & Hc3 & Hzero3 & _ & Hcount3 & Hper3 & Hsame3).
  { apply display_wf_minus; [done|lia]. }
  { subst s2. cbn [centre_pool set_factories]. by rewrite Hc1. }
  change (for_each all_tiles _ s2) with (for_each all_tiles (pour_colour fac) s2).
  rewrite Hrun3. destruct Hsame3 as (Hagents3 & Hbag3 & Hused3 & Htaken3 & Hfa3 & Hnfa3).
  subst s2. cbn [agents bag bag_used factories centre_pool first_agent first_agent_taken
                 next_first_agent set_factories] in *.
  assert (∀ t, tiles f3 !!! t = 0) as Hzero by (intros t; apply Hzero3, elem_of_all_tiles).
  rewrite display_count_minus, (display_count_zero f3 Hzero), Hc1 in Hcount3.
  exists s3, a1, f3. split; [done|]. split; [congruence|]. split; [done|].
  split; [congruence|]. split; [by rewrite Hfac3, list_insert_insert_eq|].
  split; [done|]. split; [done|]. split; [done|]. split; [lia|].
  split; [intros t; specialize (Hper3 t); rewrite Hzero, Hc1 in Hper3; lia|].
  split; [congruence|]. split; [congruence|]. split; [congruence|].
  rewrite (total_tiles_after_step s s3 plr a a1 Ha); [|congruence|congruence].
  rewrite Hfac3, list_insert_insert_eq, (sumZ_fmap_insert _ _ _ d) by done.
  rewrite (display_count_zero f3 Hzero), Hused3. lia.
Qed.

(** [generateSuccessor] applies every take that passes its checks and those
    of the objects it calls, whether or not the take is among the legal
    actions: it returns, the displays stay well-formed, and the number of
    tiles in the state changes by what the take's decomposition is off by
    (tiles for the floor plus tiles for the pattern line, minus the tiles
    taken from the display). *)
Theorem take_is_applied_as_given (rs : RandomSource) (s : AzulState) (agent_id : Z)
    (kind : ActionKind) (fid : Z) (tg : TileGrab) :
  Forall display_wf (displays s) →
  take_passes s agent_id kind fid tg →
  ∃ s', generateSuccessor rs (Take kind fid tg) agent_id s = Done () s'
    ∧ Forall display_wf (displays s')
    ∧ total_tiles s'
      = total_tiles s - number tg
        + Z.max 0 (num_to_floor_line tg) + Z.max 0 (num_to_pattern_line tg).
Proof.
  intros Hwf (plr & a & d & Hplr & Ha & Hfits & Hsource & Hnumber).
  destruct kind.
  - destruct Hsource as (fac & Hfac & Hd).
    destruct (take_from_factory_spec rs s agent_id fid tg plr a fac d)
      as (s' & a' & f' & Hrun & _ & _ & _ & Hfacs & _ & Hwf' & Hc' & _ & _ & _ & _ & _
          & Htotal);
      try done.
    exists s'. split; [done|]. split; [|done].
    unfold displays in *. apply Forall_cons in Hwf as [_ Hwf].
    apply Forall_cons. split; [done|]. rewrite Hfacs. by apply Forall_insert.
  - subst d.
    destruct (take_from_centre_spec rs s agent_id fid tg plr a)
      as (s' & a' & Hrun & _ & _ & _ & Hfacs & Hc' & _ & _ & _ & Htotal); try done.
    exists s'. split; [done|]. split; [|done].
    unfold displays in *. apply Forall_cons in Hwf as [Hcentre Hwf].
    apply Forall_cons. split; [|by rewrite Hfacs].
    rewrite Hc'. apply display_wf_minus; [done|lia].
Qed.

(** The take of the blue tile of factory 0 that sends the tile nowhere: it
    is not a legal action, and it passes every check. *)
Definition stray_grab : TileGrab := mkTileGrab BLUE 1 0 0 0.

Lemma take_is_applied_as_given_witness :
  ∃ s', generateSuccessor plain_source (Take TAKE_FROM_FACTORY 0 stray_grab) 0 initial_state
          = Done () s'
    ∧ Forall display_wf (displays s')
    ∧ total_tiles s'
      = total_tiles initial_state - number stray_grab
        + Z.max 0 (num_to_floor_line stray_grab)
        + Z.max 0 (num_to_pattern_line stray_grab).
Proof.
  apply (take_is_applied_as_given plain_source initial_state 0 TAKE_FROM_FACTORY 0 stray_grab).
  - apply (bool_decide_unpack _). vm_compute. exact I.
  - exists 0%nat, (agents initial_state !!! 0%nat), (factories initial_state !!! 0%nat).
    split; [vm_compute; reflexivity|]. split; [vm_compute; reflexivity|].
    split; [intros Hpos; vm_compute in Hpos; discriminate Hpos|].
    split; [exists 0%nat; split; vm_compute; reflexivity|].
    vm_compute. split; [reflexivity|discriminate].
Defined.

(** ** Well-formed states and legal takes *)

(** Pattern line [i] of a board is well-formed: it holds between 0 and
    [i + 1] tiles, none when it has no colour, and the wall cell of its
    colour in row [i] is free. *)
Definition line_wf (a : AgentState) (i : nat) : Prop :=
  0 ≤ lines_number a !!! i ≤ Z.of_nat i + 1
  ∧ match lines_tile a !!! i with
    | None => lines_number a !!! i = 0
    | Some t => grid_get (grid_state a) i (grid_scheme i t) = 0
    end.

#[global] Instance line_wf_dec a i : Decision (line_wf a i).
Proof. unfold line_wf. destruct (lines_tile a !!! i); apply _. Defined.

Definition agent_wf (a : AgentState) : Prop :=
  length (lines_number a) = 5%nat ∧ length (lines_tile a) = 5%nat
  ∧ grid_wf (grid_state a)
  ∧ Forall (line_wf a) (seq 0 5).

#[global] Instance agent_wf_dec a : Decision (agent_wf a).
Proof. unfold agent_wf. apply _. Defined.

Definition state_wf (s : AzulState) : Prop :=
  Forall agent_wf (agents s) ∧ Forall display_wf (displays s).

#[global] Instance state_wf_dec s : Decision (state_wf s).
Proof. unfold state_wf. apply _. Defined.

Lemma line_wf_same_but_floor a a' i :
  same_but_floor a a' → line_wf a i → line_wf a' i.
Proof.
  intros (_ & _ & Hln & Hlt & Hg & _). unfold line_wf. by rewrite Hln, Hlt, Hg.
Qed.

Lemma agent_wf_same_but_floor a a' :
  same_but_floor a a' → agent_wf a → agent_wf a'.
Proof.
  intros Hsame (Hln & Hlt & Hg & Hlines).
  pose proof Hsame as (_ & _ & Hln' & Hlt' & Hg' & _).
  unfold agent_wf. rewrite Hln', Hlt', Hg'.
  split; [done|]. split; [done|]. split; [done|].
  eapply Forall_impl; [exact Hlines|]. intros i. by apply line_wf_same_but_floor.
Qed.

Lemma grid_wf_cell g i j :
  grid_wf g → (i < 5)%nat → (j < 5)%nat → grid_get g i j = 0 ∨ grid_get g i j = 1.
Proof.
  intros [Hlen Hrows] Hi Hj. unfold grid_get.
  destruct (lookup_lt_is_Some_2 g i) as [row Hrow]; [lia|].
  rewrite (list_lookup_total_correct _ _ _ Hrow).
  destruct (proj1 (Forall_lookup _ _) Hrows i row Hrow) as [Hrlen Hcells].
  destruct (lookup_lt_is_Some_2 row j) as [v Hv]; [lia|].
  rewrite (list_lookup_total_correct _ _ _ Hv).
  exact (proj1 (Forall_lookup _ _) Hcells j v Hv).
Qed.

Lemma grid_scheme_lt i t : (i < 5)%nat → (grid_scheme i t < 5)%nat.
Proof.
  intros Hi. do 5 (destruct i as [|i]; [destruct t; cbn; lia|]). lia.
Qed.

(** A tile grab to an eligible line of a well-formed board, with the
    decomposition [getLegalActions] computes, fits the line and keeps the
    board well-formed. *)
Lemma line_take_fits a tile count i :
  agent_wf a → (i < 5)%nat → eligible_line a tile i → 1 ≤ count →
  let free_slots := Z.of_nat i + 1 - lines_number a !!! i in
  let tg := mkTileGrab tile count (Z.of_nat i) (Z.min count free_slots)
                       (count - Z.min count free_slots) in
  pattern_part_fits a tg
  ∧ 0 ≤ num_to_pattern_line tg ∧ 0 ≤ num_to_floor_line tg
  ∧ num_to_pattern_line tg + num_to_floor_line tg = count
  ∧ ∀ a1, same_but_floor a a1 → agent_wf (board_after_pattern_part a1 tg).
Proof.
  intros Hwf Hi [Hcolour Hcell] Hcount free tg.
  pose proof Hwf as (Hln & Hlt & Hg & Hlines).
  pose proof (proj1 (Forall_forall _ _) Hlines i) as Hline.
  destruct Hline as [Hrange Hassigned]; [apply elem_of_seq; lia|].
  subst free tg. cbn [num_to_pattern_line num_to_floor_line pattern_line_dest tile_type].
  split; [|split; [lia|split; [lia|split; [lia|]]]].
  - unfold pattern_part_fits.
    cbn [num_to_pattern_line num_to_floor_line pattern_line_dest tile_type].
    intros Hpos. rewrite Nat2Z.id. unfold GRID_SIZE.
    split; [lia|]. split; [done|]. split; lia.
  - intros a1 Hsame. pose proof (agent_wf_same_but_floor a a1 Hsame Hwf) as Hwf1.
    pose proof Hsame as (_ & _ & Hln1 & Hlt1 & Hg1 & _).
    unfold board_after_pattern_part.
    cbn [num_to_pattern_line pattern_line_dest tile_type].
    case_bool_decide as Hpos; [|done]. rewrite Nat2Z.id.
    destruct Hwf1 as (Hlen1 & Hlen1' & Hgrid1 & Hlines1).
    unfold agent_wf, line_filled.
    cbn [lines_number lines_tile grid_state set_lines_tile set_lines_number].
    rewrite !length_insert. split; [done|]. split; [done|]. split; [done|].
    apply Forall_forall. intros j Hj.
    pose proof (proj1 (Forall_forall _ _) Hlines1 j Hj) as Hlinej.
    apply elem_of_seq in Hj as [_ Hj]. unfold line_wf in *.
    cbn [lines_number lines_tile grid_state set_lines_tile set_lines_number].
    destruct (decide (j = i)) as [->|Hji].
    + rewrite !list_lookup_total_insert_eq by lia. rewrite Hln1. split; [lia|].
      rewrite Hg1.
      destruct (grid_wf_cell (grid_state a) i (grid_scheme i tile) Hg Hi
                  (grid_scheme_lt i tile Hi)); [done|done].
    + by rewrite !list_lookup_total_insert_ne by done.
Qed.

Lemma same_but_floor_trans a b c :
  same_but_floor a b → same_but_floor b c → same_but_floor a c.
Proof.
  intros (? & ? & ? & ? & ? & ?) (? & ? & ? & ? & ? & ?). repeat split; congruence.
Qed.

Lemma py_index_of_nat {A} (l : list A) (i : nat) :
  (i < length l)%nat → py_index l (Z.of_nat i) = Some i.
Proof.
  intros Hi. unfold py_index.
  rewrite (proj2 (Z.leb_le _ _)), (proj2 (Z.ltb_lt _ _)) by lia.
  cbn [andb]. by rewrite Nat2Z.id.
Qed.

(** What every action generated for a colour of a display is, on a
    well-formed board: a take of all [count] tiles whose decomposition adds
    up, fits the board, and leaves the board well-formed. *)
Lemma colour_action_facts a kind fid tile count act :
  agent_wf a → 1 ≤ count →
  act ∈ colour_actions a kind fid tile count →
  ∃ tg, act = Take kind fid tg
    ∧ tile_type tg = tile ∧ number tg = count
    ∧ pattern_part_fits a tg
    ∧ Z.max 0 (num_to_floor_line tg) + Z.max 0 (num_to_pattern_line tg) = count
    ∧ ∀ a1, same_but_floor a a1 → agent_wf (board_after_pattern_part a1 tg).
Proof.
  intros Hwf Hcount [->|(i & Hi & Heligible & ->)]%elem_of_colour_actions.
  - eexists. split; [reflexivity|]. cbn. split; [done|]. split; [done|].
    split; [intros Hpos; cbn in Hpos; lia|]. split; [lia|].
    intros a1 Hsame. unfold board_after_pattern_part.
    cbn [num_to_pattern_line].
    rewrite bool_decide_eq_false_2 by lia. by apply (agent_wf_same_but_floor a).
  - destruct (line_take_fits a tile count i Hwf Hi Heligible Hcount)
      as (Hfits & Hp & Hf & Hsum & Hkeeps).
    eexists. split; [reflexivity|]. cbn [tile_type number]. split; [done|]. split; [done|].
    split; [done|]. split; [|done].
    cbn [num_to_pattern_line num_to_floor_line] in *. lia.
Qed.

(** Every take among the legal actions of a well-formed state is applied:
    [generateSuccessor] returns, the state stays well-formed and holds as
    many tiles as before. *)
Theorem legal_take_keeps_the_tiles (rs : RandomSource) (num_of_agent : Z)
    (s : AzulState) (agent_id : Z) (acts : list action)
    (kind : ActionKind) (fid : Z) (tg : TileGrab) :
  state_wf s →
  getLegalActions num_of_agent s agent_id = Ok acts →
  Take kind fid tg ∈ acts →
  ∃ s', generateSuccessor rs (Take kind fid tg) agent_id s = Done () s'
    ∧ state_wf s'
    ∧ total_tiles s' = total_tiles s.
Proof.
  intros [Hagents Hdisplays] Hlegal Hact. unfold getLegalActions in Hlegal.
  destruct (negb (TilesRemaining s) && negb (bool_decide (next_first_agent s = -1))).
  { injection Hlegal as <-. apply list_elem_of_singleton in Hact. done. }
  case_bool_decide.
  { injection Hlegal as <-. apply list_elem_of_singleton in Hact. done. }
  destruct (py_index (agents s) agent_id) as [plr|] eqn:Hplr; [|done].
  injection Hlegal as <-.
  pose proof (py_index_Some _ _ _ Hplr) as Hlt.
  assert (agents s !! plr = Some (agents s !!! plr)) as Ha
    by by apply list_lookup_lookup_total_lt.
  set (a := agents s !!! plr) in *.
  assert (agent_wf a) as Hwfa by exact (proj1 (Forall_lookup _ _) Hagents plr a Ha).
  assert (∀ d tile, d ∈ displays s → tiles d !!! tile ≠ 0 → 1 ≤ tiles d !!! tile) as Hpos.
  { intros d tile Hd Hne.
    destruct (proj1 (Forall_forall _ _) Hdisplays d Hd) as [Hnn _].
    pose proof (proj1 (Forall_forall _ _) Hnn tile (elem_of_all_tiles tile)) as Hge.
    cbv beta in Hge. lia. }
  apply elem_of_app in Hact as [Hact|Hact].
  - apply list_elem_of_bind in Hact as (i & Hact & Hi).
    apply elem_of_seq in Hi as [_ Hi]. cbn in Hi.
    assert (factories s !! i = Some (factories s !!! i)) as Hd
      by by apply list_lookup_lookup_total_lt.
    set (d := factories s !!! i) in *.
    apply elem_of_display_actions in Hact as (tile & Hne & Hact).
    assert (1 ≤ tiles d !!! tile) as Hcount.
    { apply Hpos; [|done]. right. apply list_elem_of_lookup. by exists i. }
    destruct (colour_action_facts a _ _ tile _ _ Hwfa Hcount Hact)
      as (tg' & [= -> -> <-] & Htile & Hnumber & Hfits & Hsum & Hkeeps).
    destruct (take_from_factory_spec rs s agent_id (Z.of_nat i) tg plr a i d)
      as (s' & a' & f' & Hrun & Hagents' & (a1 & Hsame & ->) & _ & Hfacs & _ & Hwf'
          & Hc' & _ & _ & _ & _ & _ & Htotal); try done.
    { by apply py_index_of_nat. }
    { rewrite Hnumber, Htile. lia. }
    exists s'. split; [done|]. split; [|lia].
    split.
    + rewrite Hagents'. apply Forall_insert; [done|]. by apply Hkeeps.
    + unfold displays in *. apply Forall_cons in Hdisplays as [_ Hfactories].
      apply Forall_cons. split; [done|]. rewrite Hfacs. by apply Forall_insert.
  - apply elem_of_display_actions in Hact as (tile & Hne & Hact).
    assert (1 ≤ tiles (centre_pool s) !!! tile) as Hcount.
    { apply Hpos; [|done]. by left. }
    destruct (colour_action_facts a _ _ tile _ _ Hwfa Hcount Hact)
      as (tg' & [= -> -> <-] & Htile & Hnumber & Hfits & Hsum & Hkeeps).
    destruct (take_from_centre_spec rs s agent_id (-1) tg plr a)
      as (s' & a' & Hrun & Hagents' & (a0 & a1 & Hsame0 & Hsame1 & ->) & _ & Hfacs
          & Hc' & _ & _ & _ & Htotal); try done.
    { rewrite Hnumber, Htile. lia. }
    exists s'. split; [done|]. split; [|lia].
    split.
    + rewrite Hagents'. apply Forall_insert; [done|].
      apply Hkeeps. by apply (same_but_floor_trans a a0 a1).
    + unfold displays in *. apply Forall_cons in Hdisplays as [Hcentre Hfactories].
      apply Forall_cons. split; [|by rewrite Hfacs].
      rewrite Hc'. apply display_wf_minus; [done|]. rewrite Hnumber, Htile. lia.
Qed.

(** The legal actions of agent 0 in [initial_state]. *)
Definition initial_legal_actions : list action :=
  match getLegalActions 2 initial_state 0 with
  | Ok acts => acts
  | Raise _ => []
  end.

Lemma legal_take_keeps_the_tiles_witness :
  ∃ s', generateSuccessor plain_source
          (Take TAKE_FROM_FACTORY 0 (mkTileGrab BLUE 1 0 1 0)) 0 initial_state = Done () s'
    ∧ state_wf s'
    ∧ total_tiles s' = total_tiles initial_state.
Proof.
  apply (legal_take_keeps_the_tiles plain_source 2 initial_state 0 initial_legal_actions).
  - apply (bool_decide_unpack _). vm_compute. exact I.
  - vm_compute. reflexivity.
  - apply (bool_decide_unpack _). vm_compute. exact I.
Defined.

#[global] Instance pattern_part_fits_dec a tg : Decision (pattern_part_fits a tg).
Proof. unfold pattern_part_fits. apply _. Defined.



(** A take from the centre that passes the checks: the first take of the
    round claims the first-player token (the taker becomes the next round's
    first agent), a later one leaves the token where it is; the centre loses
    the tiles taken and nothing else, and the factory displays are not
    touched. *)
Theorem centre_take_claims_the_token (rs : RandomSource) (s : AzulState)
    (agent_id fid : Z) (tg : TileGrab) (plr : nat) (a : AgentState) :
  Forall display_wf (displays s) →
  py_index (agents s) agent_id = Some plr →
  agents s !! plr = Some a →
  pattern_part_fits a tg →
  0 < number tg ≤ tiles (centre_pool s) !!! tile_type tg →
  ∃ s', generateSuccessor rs (Take TAKE_FROM_CENTRE fid tg) agent_id s = Done () s'
    ∧ first_agent_taken s' = true
    ∧ next_first_agent s'
      = (if first_agent_taken s then next_first_agent s else agent_id)
    ∧ first_agent s' = first_agent s
    ∧ factories s' = factories s
    ∧ tiles (centre_pool s')
      = <[tile_type tg := tiles (centre_pool s) !!! tile_type tg - number tg]>
          (tiles (centre_pool s))
    ∧ total (centre_pool s') = total (centre_pool s) - number tg.
Proof.
  intros Hwf Hplr Ha Hfits Hnumber.
  destruct (take_from_centre_spec rs s agent_id fid tg plr a)
    as (s' & a' & Hrun & _ & _ & _ & Hfacs & Hc' & Hfa & Htaken & Hnfa & _); try done.
  exists s'. rewrite Hc'. by repeat split.
Qed.

(** The state after agent 0 took the blue tile of factory 0 of
    [initial_state]: the centre holds the other tiles of that display. *)
Definition second_turn_state : AzulState :=
  final_state (generateSuccessor plain_source
                 (Take TAKE_FROM_FACTORY 0 (mkTileGrab BLUE 1 0 1 0)) 0 initial_state).

Lemma centre_take_claims_the_token_witness :
  ∃ s', generateSuccessor plain_source (Take TAKE_FROM_CENTRE (-1) (mkTileGrab RED 1 1 1 0)) 1
          second_turn_state = Done () s'
    ∧ first_agent_taken s' = true
    ∧ next_first_agent s'
      = (if first_agent_taken second_turn_state then next_first_agent second_turn_state
         else 1)
    ∧ first_agent s' = first_agent second_turn_state
    ∧ factories s' = factories second_turn_state
    ∧ tiles (centre_pool s')
      = <[tile_type (mkTileGrab RED 1 1 1 0)
          := tiles (centre_pool second_turn_state) !!! tile_type (mkTileGrab RED 1 1 1 0)
             - number (mkTileGrab RED 1 1 1 0)]>
          (tiles (centre_pool second_turn_state))
    ∧ total (centre_pool s')
      = total (centre_pool second_turn_state) - number (mkTileGrab RED 1 1 1 0).
Proof.
  apply (centre_take_claims_the_token plain_source second_turn_state 1 (-1)
           (mkTileGrab RED 1 1 1 0) 1%nat (agents second_turn_state !!! 1%nat)).
  - apply (bool_decide_unpack _). vm_compute. exact I.
  - vm_compute. reflexivity.
  - vm_compute. reflexivity.
  - apply (bool_decide_unpack _). vm_compute. exact I.
  - vm_compute. split; [reflexivity|discriminate].
Defined.

(** ** The end of a round *)

Lemma grid_count_set g i j v :
  (i < length g)%nat → (j < length (g !!! i))%nat →
  sumZ (sumZ <$> grid_set g i j v) = sumZ (sumZ <$> g) - grid_get g i j + v.
Proof.
  intros Hi Hj. unfold grid_set, grid_get.
  rewrite (sumZ_fmap_insert sumZ g i (g !!! i)) by by apply list_lookup_lookup_total_lt.
  rewrite (sumZ_insert (g !!! i) j ((g !!! i) !!! j))
    by by apply list_lookup_lookup_total_lt.
  lia.
Qed.

Lemma grid_wf_row g i :
  grid_wf g → (i < 5)%nat → length (g !!! i) = 5%nat.
Proof.
  intros [Hlen Hrows] Hi.
  destruct (lookup_lt_is_Some_2 g i) as [row Hrow]; [lia|].
  rewrite (list_lookup_total_correct _ _ _ Hrow).
  by destruct (proj1 (Forall_lookup _ _) Hrows i row Hrow).
Qed.

Lemma grid_wf_set g i j :
  grid_wf g → (i < 5)%nat → grid_wf (grid_set g i j 1).
Proof.
  intros Hwf Hi. pose proof (grid_wf_row g i Hwf Hi) as Hrow.
  destruct Hwf as [Hlen Hrows]. unfold grid_wf, grid_set.
  rewrite length_insert. split; [done|].
  apply Forall_insert; [done|]. rewrite length_insert. split; [done|].
  assert (g !! i = Some (g !!! i)) as Hgi by (apply list_lookup_lookup_total_lt; lia).
  destruct (proj1 (Forall_lookup _ _) Hrows i _ Hgi) as [_ Hcells].
  apply Forall_insert; [done|]. by right.
Qed.

Lemma grid_get_set g i j v r c :
  (i < length g)%nat → (j < length (g !!! i))%nat →
  grid_get (grid_set g i j v) r c
  = if bool_decide (r = i ∧ c = j) then v else grid_get g r c.
Proof.
  intros Hi Hj. unfold grid_get, grid_set.
  destruct (decide (r = i)) as [->|Hr].
  - rewrite list_lookup_total_insert_eq by done.
    destruct (decide (c = j)) as [->|Hc].
    + rewrite list_lookup_total_insert_eq by done.
      by rewrite bool_decide_eq_true_2.
    + rewrite list_lookup_total_insert_ne by done.
      rewrite bool_decide_eq_false_2; [done|]. by intros [_ ?].
  - rewrite list_lookup_total_insert_ne by done.
    rewrite bool_decide_eq_false_2; [done|]. by intros [? _].
Qed.

Lemma count_run_bounds (cells : list Z) :
  Forall (λ v, v = 0 ∨ v = 1) cells → 0 ≤ count_run cells ≤ Z.of_nat (length cells).
Proof.
  induction 1 as [|v cells Hv _ IH]; cbn [count_run length]; [lia|].
  case_bool_decide; lia.
Qed.

Lemma run_cells (f : nat → Z) (idx : list nat) :
  Forall (λ j, f j = 0 ∨ f j = 1) idx →
  0 ≤ count_run (f <$> idx) ≤ Z.of_nat (length idx).
Proof.
  intros Hidx. rewrite <- (length_fmap f). apply count_run_bounds.
  by apply Forall_fmap.
Qed.

(** On a well-formed wall the four counting loops around a cell count
    cells of its row and of its column, the cell itself left out. *)
Lemma run_bounds g i col :
  grid_wf g → (i < 5)%nat → (col < 5)%nat →
  0 ≤ run_above g i col ∧ 0 ≤ run_below g i col
  ∧ run_above g i col + run_below g i col ≤ 4
  ∧ 0 ≤ run_left g i col ∧ 0 ≤ run_right g i col
  ∧ run_left g i col + run_right g i col ≤ 4.
Proof.
  intros Hg Hi Hcol. unfold run_above, run_below, run_left, run_right.
  pose proof (run_cells (λ j, grid_get g i j) (reverse (seq 0 col))) as Ha.
  pose proof (run_cells (λ j, grid_get g i j) (seq (col + 1) (5 - (col + 1)))) as Hb.
  pose proof (run_cells (λ j, grid_get g j col) (reverse (seq 0 i))) as Hl.
  pose proof (run_cells (λ j, grid_get g j col) (seq (i + 1) (5 - (i + 1)))) as Hr.
  rewrite length_reverse, length_seq in Ha, Hl. rewrite length_seq in Hb, Hr.
  destruct Ha as [? ?].
  { apply Forall_forall. intros j Hj%elem_of_reverse%elem_of_seq.
    apply grid_wf_cell; [done|lia|lia]. }
  destruct Hb as [? ?].
  { apply Forall_forall. intros j Hj%elem_of_seq. apply grid_wf_cell; [done|lia|lia]. }
  destruct Hl as [? ?].
  { apply Forall_forall. intros j Hj%elem_of_reverse%elem_of_seq.
    apply grid_wf_cell; [done|lia|lia]. }
  destruct Hr as [? ?].
  { apply Forall_forall. intros j Hj%elem_of_seq. apply grid_wf_cell; [done|lia|lia]. }
  lia.
Qed.

Lemma tile_points_bounds above below left right :
  0 ≤ above → 0 ≤ below → above + below ≤ 4 →
  0 ≤ left → 0 ≤ right → left + right ≤ 4 →
  1 ≤ tile_points above below left right ≤ 10.
Proof. intros. unfold tile_points. repeat case_bool_decide; lia. Qed.

(** What scoring pattern line [i] does to a well-formed board: a full line
    loses its tiles and its colour and one tile of it goes to the wall, any
    other line stays as it is. *)
Definition line_scored (a a' : AgentState) (i : nat) : Prop :=
  if bool_decide (lines_number a !!! i = Z.of_nat i + 1) then
    lines_number a' !!! i = 0 ∧ lines_tile a' !!! i = None
    ∧ ∃ tc, lines_tile a !!! i = Some tc
            ∧ grid_get (grid_state a') i (grid_scheme i tc) = 1
  else
    lines_number a' !!! i = lines_number a !!! i
    ∧ lines_tile a' !!! i = lines_tile a !!! i.

Lemma ScoreRound_line_wf i used inc a :
  agent_wf a → (i < 5)%nat →
  ∃ used' inc' a', ScoreRound_line i (used, inc) a = Done (used', inc') a'
    ∧ agent_wf a'
    ∧ score a' = score a ∧ floor a' = floor a ∧ floor_tiles a' = floor_tiles a
    ∧ agent_id a' = agent_id a
    ∧ board_count a' + Z.of_nat (length used')
      = board_count a + Z.of_nat (length used)
    ∧ (∀ r c, grid_get (grid_state a) r c = 1 → grid_get (grid_state a') r c = 1)
    ∧ line_scored a a' i
    ∧ (∀ j, j ≠ i → lines_number a' !!! j = lines_number a !!! j
                     ∧ lines_tile a' !!! j = lines_tile a !!! j)
    ∧ (let full := if bool_decide (lines_number a !!! i = Z.of_nat i + 1) then 1 else 0 in
       inc + full ≤ inc' ≤ inc + 10 * full).
Proof.
  intros Hwf Hi. pose proof Hwf as (Hln & Hlt & Hg & Hlines).
  pose proof (proj1 (Forall_forall _ _) Hlines i) as Hline.
  destruct Hline as [Hrange Hassigned]; [apply elem_of_seq; lia|].
  unfold line_scored.
  destruct (decide (lines_number a !!! i = Z.of_nat i + 1)) as [Hfull|Hne].
  - destruct (lines_tile a !!! i) as [tc|] eqn:Htc; [|lia].
    rewrite (ScoreRound_line_full i used inc a tc Hfull Htc).
    rewrite bool_decide_eq_true_2 by done.
    pose proof (grid_wf_row _ i Hg Hi) as Hrow.
    pose proof (grid_scheme_lt i tc Hi) as Hcol.
    pose proof (run_bounds _ i (grid_scheme i tc) (grid_wf_set _ i (grid_scheme i tc) Hg Hi)
                  Hi Hcol) as (? & ? & ? & ? & ? & ?).
    pose proof (tile_points_bounds _ _ _ _ H H0 H1 H2 H3 H4) as Hpoints.
    destruct Hg as [Hglen Hrows].
    eexists _, _, _. split; [reflexivity|]. unfold line_placed.
    cbn [grid_state lines_number lines_tile floor floor_tiles score agent_id
         set_grid_state set_lines_number set_lines_tile set_number_of].
    split.
    { unfold agent_wf.
      cbn [grid_state lines_number lines_tile set_grid_state set_lines_number
           set_lines_tile set_number_of].
      rewrite !length_insert. split; [done|]. split; [done|].
      split; [by apply grid_wf_set|].
      apply Forall_forall. intros j Hj.
      pose proof (proj1 (Forall_forall _ _) Hlines j Hj) as Hlinej.
      apply elem_of_seq in Hj as [_ Hj]. unfold line_wf in *.
      cbn [grid_state lines_number lines_tile set_grid_state set_lines_number
           set_lines_tile set_number_of].
      destruct (decide (j = i)) as [->|Hji].
      - rewrite !list_lookup_total_insert_eq by lia. split; [lia|done].
      - rewrite !list_lookup_total_insert_ne by done.
        destruct Hlinej as [Hr Ha]. split; [done|].
        destruct (lines_tile a !!! j) as [t|]; [|done].
        rewrite grid_get_set by lia.
        rewrite bool_decide_eq_false_2; [done|]. by intros [? _]. }
    split; [done|]. split; [done|]. split; [done|]. split; [done|].
    split.
    { unfold board_count.
      cbn [grid_state lines_number lines_tile floor_tiles set_grid_state set_lines_number
           set_lines_tile set_number_of].
      rewrite grid_count_set by lia.
      rewrite (sumZ_insert _ _ (lines_number a !!! i))
        by (apply list_lookup_lookup_total_lt; lia).
      rewrite length_app, length_replicate. lia. }
    split.
    { intros r c Hrc. rewrite grid_get_set by lia. by case_bool_decide. }
    split.
    { rewrite !list_lookup_total_insert_eq by lia. split; [done|]. split; [done|].
      exists tc. split; [done|]. rewrite grid_get_set by lia.
      by rewrite bool_decide_eq_true_2. }
    split; [intros j Hji; by rewrite !list_lookup_total_insert_ne by done|].
    cbv zeta. lia.
  - rewrite ScoreRound_line_skip by done. rewrite bool_decide_eq_false_2 by done.
    eexists _, _, _. split; [reflexivity|]. split; [done|].
    split; [done|]. split; [done|]. split; [done|]. split; [done|].
    split; [done|]. split; [done|]. split; [done|]. split; [done|]. cbv zeta. lia.
Qed.

Lemma filter_iff_in {A} (P Q : A → Prop) `{!∀ x, Decision (P x)} `{!∀ x, Decision (Q x)}
    (l : list A) :
  (∀ x, x ∈ l → P x ↔ Q x) → filter P l = filter Q l.
Proof.
  induction l as [|x l IH]; intros Hl; [done|].
  assert (P x ↔ Q x) as Hx by (apply Hl; by left).
  assert (filter P l = filter Q l) as Hrest by (apply IH; intros y Hy; apply Hl; by right).
  destruct (decide (P x)) as [HP|HP].
  - rewrite !filter_cons_True by tauto. by rewrite Hrest.
  - rewrite !filter_cons_False by tauto. done.
Qed.

(** Number of full pattern lines among the given ones. *)
Definition full_lines (a : AgentState) (rows : list nat) : Z :=
  Z.of_nat (length (filter (λ i, lines_number a !!! i = Z.of_nat i + 1) rows)).

Lemma ScoreRound_lines_wf rows : ∀ used inc a,
  NoDup rows → Forall (λ i, (i < 5)%nat) rows → agent_wf a →
  ∃ used' inc' a', ScoreRound_lines rows (used, inc) a = Done (used', inc') a'
    ∧ agent_wf a'
    ∧ score a' = score a ∧ floor a' = floor a ∧ floor_tiles a' = floor_tiles a
    ∧ agent_id a' = agent_id a
    ∧ board_count a' + Z.of_nat (length used')
      = board_count a + Z.of_nat (length used)
    ∧ (∀ r c, grid_get (grid_state a) r c = 1 → grid_get (grid_state a') r c = 1)
    ∧ (∀ i, i ∈ rows → line_scored a a' i)
    ∧ (∀ j, j ∉ rows → lines_number a' !!! j = lines_number a !!! j
                       ∧ lines_tile a' !!! j = lines_tile a !!! j)
    ∧ inc + full_lines a rows ≤ inc' ≤ inc + 10 * full_lines a rows.
Proof.
  induction rows as [|i rows IH]; intros used inc a Hnd Hlt Hwf.
  - cbn [ScoreRound_lines]. mrun. exists used, inc, a. unfold full_lines. cbn.
    split; [done|]. split; [done|]. split; [done|]. split; [done|]. split; [done|].
    split; [done|]. split; [done|]. split; [done|].
    split; [by intros i Hi%elem_of_nil|]. split; [done|]. lia.
  - apply NoDup_cons in Hnd as [Hi Hnd]. apply Forall_cons in Hlt as [Hi5 Hlt].
    destruct (ScoreRound_line_wf i used inc a Hwf Hi5)
      as (used1 & inc1 & a1 & Hrun1 & Hwf1 & Hs1 & Hf1 & Hft1 & Hid1 & Hcount1 & Hmono1
          & Hline1 & Hothers1 & Hinc1).
    destruct (IH used1 inc1 a1 Hnd Hlt Hwf1)
      as (used2 & inc2 & a2 & Hrun2 & Hwf2 & Hs2 & Hf2 & Hft2 & Hid2 & Hcount2 & Hmono2
          & Hline2 & Hothers2 & Hinc2).
    cbn [ScoreRound_lines]. unfold mbind at 1. unfold M_bind at 1. rewrite Hrun1.
    exists used2, inc2, a2. split; [done|]. split; [done|].
    split; [congruence|]. split; [congruence|]. split; [congruence|]. split; [congruence|].
    split; [lia|]. split; [by intros r c Hrc; apply Hmono2, Hmono1|].
    split.
    { intros j [->|Hj]%elem_of_cons.
      - destruct (Hothers2 i Hi) as [Hn Ht]. unfold line_scored in *.
        rewrite Hn, Ht. case_bool_decide; [|done].
        destruct Hline1 as (? & ? & tc & ? & ?). split; [done|]. split; [done|].
        exists tc. split; [done|]. by apply Hmono2.
      - assert (j ≠ i) as Hji by (intros ->; done).
        destruct (Hothers1 j Hji) as [Hn Ht]. specialize (Hline2 j Hj).
        unfold line_scored in *. by rewrite Hn, Ht in Hline2. }
    split.
    { intros j Hj. apply not_elem_of_cons in Hj as [Hji Hj].
      destruct (Hothers1 j Hji) as [<- <-]. by apply Hothers2. }
    assert (full_lines a1 rows = full_lines a rows) as Hrows.
    { unfold full_lines. f_equal. f_equal. apply filter_iff_in.
      intros j Hj. assert (j ≠ i) as Hji by (intros ->; done).
      destruct (Hothers1 j Hji) as [Hn _]. cbv beta. by rewrite Hn. }
    assert (full_lines a (i :: rows)
            = (if bool_decide (lines_number a !!! i = Z.of_nat i + 1) then 1 else 0)
              + full_lines a rows) as ->.
    { unfold full_lines. case_bool_decide.
      - rewrite filter_cons_True by done. cbn [length]. lia.
      - rewrite filter_cons_False by done. lia. }
    cbv zeta in Hinc1. rewrite Hrows in Hinc2. lia.
Qed.

(** [ScoreRound] on a well-formed board. *)
Lemma ScoreRound_wf a :
  agent_wf a →
  ∃ used a', ScoreRound a = Done (score a', used) a'
    ∧ agent_wf a'
    ∧ agent_id a' = agent_id a
    ∧ floor a' = replicate (length (floor a)) 0 ∧ floor_tiles a' = []
    ∧ board_count a' + Z.of_nat (length used) = board_count a
    ∧ (∀ r c, grid_get (grid_state a) r c = 1 → grid_get (grid_state a') r c = 1)
    ∧ (∀ i, (i < 5)%nat → line_scored a a' i)
    ∧ full_lines a (seq 0 5) ≤ placement_points a ≤ 10 * full_lines a (seq 0 5)
    ∧ score a' = score a + clamp_score_change (score a) (placement_points a)
                                              (floor_penalties (floor a)).
Proof.
  intros Hwf.
  destruct (ScoreRound_lines_wf (seq 0 5) [] 0 a)
    as (used1 & inc1 & a1 & Hrun1 & Hwf1 & Hs1 & Hf1 & Hft1 & Hid1 & Hcount1 & Hmono1
        & Hline1 & _ & Hinc1); [apply NoDup_seq| |done|].
  { apply Forall_forall. intros i Hi%elem_of_seq. lia. }
  unfold ScoreRound. change (py_range GRID_SIZE) with (seq 0 5).
  unfold mbind at 1. unfold M_bind at 1. rewrite Hrun1. mrun.
  eexists _, _. split; [reflexivity|].
  cbn [score floor floor_tiles agent_id grid_state set_score set_floor set_floor_tiles].
  split.
  { destruct Hwf1 as (? & ? & ? & Hlines). unfold agent_wf. split; [done|].
    split; [done|]. split; [done|]. eapply Forall_impl; [exact Hlines|]. by intros i. }
  split; [done|]. split; [by rewrite Hf1|]. split; [done|].
  split.
  { unfold board_count in *.
    cbn [grid_state floor_tiles lines_number set_score set_floor set_floor_tiles].
    rewrite length_app. cbn [length] in *. rewrite Hft1 in *. lia. }
  split; [done|].
  split.
  { intros i Hi. specialize (Hline1 i). unfold line_scored in *.
    cbn [grid_state lines_tile lines_number set_score set_floor set_floor_tiles].
    apply Hline1, elem_of_seq. lia. }
  assert (placement_points a = inc1) as ->.
  { unfold placement_points. change (py_range GRID_SIZE) with (seq 0 5). by rewrite Hrun1. }
  split; [lia|]. by rewrite Hs1, Hf1.
Qed.

Lemma free_slots_replicate n : free_slots (replicate n 0) = n.
Proof.
  unfold free_slots. induction n as [|n IH]; [done|].
  cbn [replicate]. rewrite filter_cons_True by done. cbn [length]. by rewrite IH.
Qed.

(** [ScoreRound] on a well-formed board returns and loses no tile: the
    tiles it hands back for the used bag and the tiles left on the board are
    the tiles that were on the board.  The board stays well-formed, and the
    floor line is empty afterwards, all its slots free. *)
Theorem ScoreRound_keeps_the_tiles (a : AgentState) :
  agent_wf a →
  ∃ used a', ScoreRound a = Done (score a', used) a'
    ∧ agent_wf a'
    ∧ board_count a' + Z.of_nat (length used) = board_count a
    ∧ floor_tiles a' = []
    ∧ free_slots (floor a') = length (floor a).
Proof.
  intros Hwf.
  destruct (ScoreRound_wf a Hwf)
    as (used & a' & Hrun & Hwf' & _ & Hfloor & Hft & Hcount & _).
  exists used, a'. split; [done|]. split; [done|]. split; [done|]. split; [done|].
  rewrite Hfloor. apply free_slots_replicate.
Qed.

(** A board in the middle of a game: pattern lines 0 (blue) and 2 (red) are
    full, line 3 holds two of its four yellow tiles, two tiles are on the
    wall, and the floor line holds the first-player token and a red tile. *)
Definition round_end_board : AgentState :=
  set_score 3
    (set_floor_tiles [RED]
      (set_floor [1; 1; 0; 0; 0; 0; 0]
        (set_grid_state [[0; 1; 0; 0; 0]; [0; 0; 0; 0; 0]; [0; 0; 0; 0; 0];
                         [0; 0; 0; 0; 0]; [0; 0; 0; 0; 1]]
          (set_lines_tile [Some BLUE; None; Some RED; Some YELLOW; None]
            (set_lines_number [1; 0; 3; 2; 0] (AgentState_new 0)))))).

Lemma ScoreRound_keeps_the_tiles_witness :
  ∃ used a', ScoreRound round_end_board = Done (score a', used) a'
    ∧ agent_wf a'
    ∧ board_count a' + Z.of_nat (length used) = board_count round_end_board
    ∧ floor_tiles a' = []
    ∧ free_slots (floor a') = length (floor round_end_board).
Proof.
  apply (ScoreRound_keeps_the_tiles round_end_board).
  apply (bool_decide_unpack _). vm_compute. exact I.
Defined.

(** [ScoreRound] on a well-formed board moves every full pattern line to
    the wall: the line is emptied and loses its colour, and the wall cell of
    that colour in the line's row is occupied; a line that is not full stays
    as it is.  No line is full afterwards, and no occupied wall cell is
    cleared. *)
Theorem ScoreRound_moves_full_lines (a : AgentState) (i : nat) :
  agent_wf a → (i < 5)%nat →
  ∃ used a', ScoreRound a = Done (score a', used) a'
    ∧ line_scored a a' i
    ∧ lines_number a' !!! i ≤ Z.of_nat i
    ∧ (∀ r c, grid_get (grid_state a) r c = 1 → grid_get (grid_state a') r c = 1).
Proof.
  intros Hwf Hi.
  destruct (ScoreRound_wf a Hwf)
    as (used & a' & Hrun & _ & _ & _ & _ & _ & Hmono & Hlines & _).
  exists used, a'. split; [done|]. split; [by apply Hlines|]. split; [|done].
  specialize (Hlines i Hi). unfold line_scored in Hlines.
  destruct Hwf as (_ & _ & _ & Hwfl).
  destruct (proj1 (Forall_forall _ _) Hwfl i) as [Hrange _]; [apply elem_of_seq; lia|].
  case_bool_decide as Hfull.
  - destruct Hlines as [-> _]. lia.
  - destruct Hlines as [-> _]. lia.
Qed.

Lemma ScoreRound_moves_full_lines_witness :
  ∃ used a', ScoreRound round_end_board = Done (score a', used) a'
    ∧ line_scored round_end_board a' 2
    ∧ lines_number a' !!! 2%nat ≤ Z.of_nat 2
    ∧ (∀ r c, grid_get (grid_state round_end_board) r c = 1
              → grid_get (grid_state a') r c = 1).
Proof.
  apply (ScoreRound_moves_full_lines round_end_board 2).
  - apply (bool_decide_unpack _). vm_compute. exact I.
  - lia.
Defined.

(** The score [ScoreRound] leaves on a well-formed board whose score is not
    negative: the old score plus the round's placement points plus the floor
    penalties, and 0 when that is negative.  Every full pattern line brings
    between 1 and 10 placement points. *)
Theorem ScoreRound_new_score (a : AgentState) :
  agent_wf a → 0 ≤ score a →
  ∃ used a', ScoreRound a = Done (score a', used) a'
    ∧ score a' = Z.max 0 (score a + placement_points a + floor_penalties (floor a))
    ∧ full_lines a (seq 0 5) ≤ placement_points a ≤ 10 * full_lines a (seq 0 5).
Proof.
  intros Hwf Hscore.
  destruct (ScoreRound_wf a Hwf)
    as (used & a' & Hrun & _ & _ & _ & _ & _ & _ & _ & Hpoints & Hnew).
  exists used, a'. split; [done|]. split; [|done].
  rewrite Hnew. unfold clamp_score_change. case_bool_decide; lia.
Qed.

Lemma ScoreRound_new_score_witness :
  ∃ used a', ScoreRound round_end_board = Done (score a', used) a'
    ∧ score a' = Z.max 0 (score round_end_board + placement_points round_end_board
                          + floor_penalties (floor round_end_board))
    ∧ full_lines round_end_board (seq 0 5) ≤ placement_points round_end_board
      ≤ 10 * full_lines round_end_board (seq 0 5).
Proof.
  apply (ScoreRound_new_score round_end_board).
  - apply (bool_decide_unpack _). vm_compute. exact I.
  - vm_compute. discriminate.
Defined.

(** Board [a'] is board [a] after [ScoreRound]. *)
Definition scored (a a' : AgentState) : Prop :=
  ∃ used, ScoreRound a = Done (score a', used) a'.

(** What the end of a round leaves untouched besides the boards and the
    used bag. *)
Definition same_but_scores (s s' : AzulState) : Prop :=
  bag s' = bag s ∧ factories s' = factories s ∧ centre_pool s' = centre_pool s
  ∧ first_agent_taken s' = first_agent_taken s
  ∧ first_agent s' = first_agent s ∧ next_first_agent s' = next_first_agent s.

(** The loop of [ExecuteEndOfRound] from agent [length pre] on. *)
Lemma ExecuteEndOfRound_loop rest : ∀ pre s,
  agents s = pre ++ rest → Forall agent_wf rest →
  ∃ s' rest',
    for_each (seq (length pre) (length rest)) (λ i,
      '(_, used) ← on_agent i ScoreRound;
      modify (λ s, set_bag_used (bag_used s ++ used) s)) s = Done () s'
    ∧ agents s' = pre ++ rest'
    ∧ Forall2 scored rest rest'
    ∧ Forall agent_wf rest'
    ∧ same_but_scores s s'
    ∧ Z.of_nat (length (bag_used s')) + sumZ (board_count <$> rest')
      = Z.of_nat (length (bag_used s)) + sumZ (board_count <$> rest).
Proof.
  induction rest as [|a rest IH]; intros pre s Hagents Hwf.
  - cbn [length seq for_each]. mrun. exists s, []. split; [done|]. split; [done|].
    split; [constructor|]. split; [done|]. split; [by repeat split|]. done.
  - apply Forall_cons in Hwf as [Hwfa Hwf].
    destruct (ScoreRound_wf a Hwfa)
      as (used & a' & Hrun & Hwfa' & _ & _ & _ & Hcount & _).
    assert (agents s !! length pre = Some a) as Ha
      by (rewrite Hagents; apply list_lookup_middle; done).
    cbn [length seq for_each]. unfold mbind at 1. unfold M_bind at 1.
    unfold mbind at 1. unfold M_bind at 1.
    rewrite (on_agent_Done s (length pre) a a' _ _ Ha Hrun).
    unfold modify at 1.
    set (s1 := set_bag_used _ _).
    destruct (IH (pre ++ [a']) s1) as (s' & rest' & Hloop & Hagents' & Hscored & Hwf'
                                        & Hsame & Hcount'); [|done|].
    { subst s1. cbn [agents set_bag_used set_agents]. rewrite Hagents.
      rewrite insert_app_r_alt, Nat.sub_diag by lia. cbn. by rewrite <- app_assoc. }
    rewrite length_app in Hloop. cbn [length] in Hloop. rewrite Nat.add_1_r in Hloop.
    exists s', (a' :: rest'). split; [exact Hloop|].
    split; [by rewrite Hagents', <- app_assoc|].
    split; [constructor; [by exists used|done]|].
    split; [by constructor|].
    split; [exact Hsame|].
    subst s1. cbn [bag_used set_bag_used set_agents] in Hcount'.
    rewrite length_app in Hcount'. rewrite !fmap_cons. unfold sumZ in *. cbn [foldr]. lia.
Qed.

(** The action ENDROUND on a well-formed state: every board is scored by
    [ScoreRound], the tiles the boards give up go to the used bag and none is
    lost, bag and displays are not touched; the agent holding the
    first-player token becomes the first agent, and the token is free
    again. *)
Theorem ENDROUND_scores_every_board (rs : RandomSource) (agent_id : Z) (s : AzulState) :
  state_wf s →
  ∃ s', generateSuccessor rs ENDROUND agent_id s = Done () s'
    ∧ Forall2 scored (agents s) (agents s')
    ∧ state_wf s'
    ∧ total_tiles s' = total_tiles s
    ∧ bag s' = bag s ∧ factories s' = factories s ∧ centre_pool s' = centre_pool s
    ∧ first_agent_taken s' = false
    ∧ first_agent s' = next_first_agent s
    ∧ next_first_agent s' = -1.
Proof.
  intros [Hagents Hdisplays].
  destruct (ExecuteEndOfRound_loop (agents s) [] s)
    as (s1 & rest' & Hloop & Hagents1 & Hscored & Hwf1 & Hsame & Hcount); [done|done|].
  destruct Hsame as (Hbag & Hfac & Hc & Htaken & Hfa & Hnfa).
  cbn [length app] in *.
  unfold generateSuccessor, ExecuteEndOfRound.
  unfold mbind at 1. unfold M_bind at 1. unfold mbind at 1. unfold M_bind at 1, get at 1.
  rewrite Hloop. mrun.
  eexists. split; [reflexivity|].
  cbn [agents bag bag_used factories centre_pool first_agent_taken first_agent
       next_first_agent set_first_agent_taken set_first_agent set_next_first_agent].
  split; [by rewrite Hagents1|].
  split.
  { unfold state_wf, displays.
    cbn [agents factories centre_pool set_first_agent_taken set_first_agent
         set_next_first_agent].
    split; [by rewrite Hagents1|]. by rewrite Hc, Hfac. }
  split.
  { unfold total_tiles.
    cbn [agents bag bag_used factories centre_pool set_first_agent_taken set_first_agent
         set_next_first_agent].
    rewrite Hagents1, Hbag, Hfac, Hc. lia. }
  by repeat split.
Qed.

(** A state at the end of a round: the displays are empty, agent 0 has the
    board [round_end_board], agent 1 holds the first-player token. *)
Definition round_end_state : AzulState :=
  set_next_first_agent 1
    (set_first_agent_taken true
      (set_agents [round_end_board; set_floor [1; 0; 0; 0; 0; 0; 0] (AgentState_new 1)]
        (set_factories (replicate 5 TileDisplay_new) initial_state))).

Lemma ENDROUND_scores_every_board_witness :
  ∃ s', generateSuccessor plain_source ENDROUND 0 round_end_state = Done () s'
    ∧ Forall2 scored (agents round_end_state) (agents s')
    ∧ state_wf s'
    ∧ total_tiles s' = total_tiles round_end_state
    ∧ bag s' = bag round_end_state ∧ factories s' = factories round_end_state
    ∧ centre_pool s' = centre_pool round_end_state
    ∧ first_agent_taken s' = false
    ∧ first_agent s' = next_first_agent round_end_state
    ∧ next_first_agent s' = -1.
Proof.
  apply (ENDROUND_scores_every_board plain_source 0 round_end_state).
  apply (bool_decide_unpack _). vm_compute. exact I.
Defined.

(** ** The start of a round *)

(** The display [InitialiseFactory] starts from: every count reset. *)
Definition display_reset (factory : TileDisplay) : TileDisplay :=
  {| tiles := foldl (λ m tile, <[tile := 0]> m) (tiles factory) all_tiles; total := 0 |}.

Lemma display_reset_zero factory t : tiles (display_reset factory) !!! t = 0.
Proof.
  unfold display_reset, all_tiles. cbn [tiles foldl].
  destruct t; repeat first [by rewrite lookup_total_insert_eq
                           |rewrite lookup_total_insert_ne by done].
Qed.

Lemma display_reset_wf factory : display_wf (display_reset factory).
Proof.
  split.
  - apply Forall_forall. intros t _. by rewrite display_reset_zero.
  - symmetry. apply display_count_zero, display_reset_zero.
Qed.

Lemma place_on_factory_wf drawn : ∀ factory,
  display_wf factory →
  display_wf (place_on_factory drawn factory)
  ∧ total (place_on_factory drawn factory) = total factory + Z.of_nat (length drawn).
Proof.
  unfold place_on_factory.
  induction drawn as [|tile drawn IH]; intros factory Hwf; cbn [foldl length].
  - split; [done|lia].
  - destruct (IH (display_plus factory 1 tile)) as [Hwf' Htotal].
    { by apply display_wf_plus. }
    split; [exact Hwf'|]. unfold display_plus in Htotal at 2. cbn [total] in Htotal.
    unfold display_plus in Htotal. lia.
Qed.

(** [InitialiseFactory] in full: the display it builds and the bags it
    leaves. *)
Lemma InitialiseFactory_spec rs factory s :
  (∀ l, length (shuffle rs l) = length l) →
  ∃ fd' s', InitialiseFactory rs factory s = Done fd' s'
    ∧ display_wf fd'
    ∧ total fd'
      = Z.min NUM_ON_FACTORY (Z.of_nat (length (bag s)) + Z.of_nat (length (bag_used s)))
    ∧ Z.of_nat (length (bag s')) + Z.of_nat (length (bag_used s')) + total fd'
      = Z.of_nat (length (bag s)) + Z.of_nat (length (bag_used s))
    ∧ agents s' = agents s ∧ factories s' = factories s
    ∧ centre_pool s' = centre_pool s
    ∧ first_agent_taken s' = first_agent_taken s
    ∧ first_agent s' = first_agent s ∧ next_first_agent s' = next_first_agent s.
Proof.
  intros Hshuffle. unfold InitialiseFactory, NUM_ON_FACTORY. mrun.
  fold (display_reset factory).
  case_bool_decide as Hrefill; mrun;
    cbn [bag bag_used agents factories centre_pool first_agent_taken first_agent
         next_first_agent set_bag set_bag_used].
  - match goal with |- context [place_on_factory ?drawn _] =>
      destruct (place_on_factory_wf drawn (display_reset factory) (display_reset_wf factory))
        as [Hwf Htotal]
    end.
    eexists _, _. split; [reflexivity|].
    cbn [bag bag_used agents factories centre_pool first_agent_taken first_agent
         next_first_agent set_bag set_bag_used].
    split; [exact Hwf|]. rewrite Htotal.
    rewrite length_take, length_drop, length_app, Hshuffle. cbn [total display_reset length].
    split; [lia|]. split; [lia|]. by repeat split.
  - match goal with |- context [place_on_factory ?drawn _] =>
      destruct (place_on_factory_wf drawn (display_reset factory) (display_reset_wf factory))
        as [Hwf Htotal]
    end.
    eexists _, _. split; [reflexivity|].
    cbn [bag bag_used agents factories centre_pool first_agent_taken first_agent
         next_first_agent set_bag set_bag_used].
    split; [exact Hwf|]. rewrite Htotal.
    rewrite length_take, length_drop. cbn [total display_reset length].
    split; [lia|]. split; [lia|]. by repeat split.
Qed.

(** [InitialiseFactory] always returns, whatever the display held before:
    the display ends up with the tiles drawn, four of them or as many as
    bag and used bag hold together, and these tiles are gone from the bags.
    Nothing else of the state changes. *)
Theorem InitialiseFactory_draws_from_the_bags (rs : RandomSource) (factory : TileDisplay)
    (s : AzulState) :
  (∀ l, length (shuffle rs l) = length l) →
  ∃ fd' s', InitialiseFactory rs factory s = Done fd' s'
    ∧ display_wf fd'
    ∧ total fd'
      = Z.min NUM_ON_FACTORY (Z.of_nat (length (bag s)) + Z.of_nat (length (bag_used s)))
    ∧ Z.of_nat (length (bag s')) + Z.of_nat (length (bag_used s')) + total fd'
      = Z.of_nat (length (bag s)) + Z.of_nat (length (bag_used s))
    ∧ agents s' = agents s ∧ factories s' = factories s
    ∧ centre_pool s' = centre_pool s.
Proof.
  intros Hshuffle.
  destruct (InitialiseFactory_spec rs factory s Hshuffle)
    as (fd' & s' & Hrun & Hwf & Htotal & Hcount & Hagents & Hfac & Hc & _).
  exists fd', s'. split; [done|]. split; [done|]. split; [done|]. split; [done|].
  by repeat split.
Qed.

(** A state whose bag holds two tiles and whose used bag holds three. *)
Definition low_bag_state : AzulState :=
  set_bag_used [RED; RED; WHITE] (set_bag [BLUE; YELLOW] initial_state).

Lemma InitialiseFactory_draws_from_the_bags_witness :
  ∃ fd' s', InitialiseFactory plain_source sample_display low_bag_state = Done fd' s'
    ∧ display_wf fd'
    ∧ total fd'
      = Z.min NUM_ON_FACTORY (Z.of_nat (length (bag low_bag_state))
                              + Z.of_nat (length (bag_used low_bag_state)))
    ∧ Z.of_nat (length (bag s')) + Z.of_nat (length (bag_used s')) + total fd'
      = Z.of_nat (length (bag low_bag_state)) + Z.of_nat (length (bag_used low_bag_state))
    ∧ agents s' = agents low_bag_state ∧ factories s' = factories low_bag_state
    ∧ centre_pool s' = centre_pool low_bag_state.
Proof.
  apply (InitialiseFactory_draws_from_the_bags plain_source sample_display low_bag_state).
  intros l. reflexivity.
Defined.

(** The loop of STARTROUND over the factory displays, from display
    [length pre] on. *)
Lemma STARTROUND_loop rs rest : ∀ pre s,
  (∀ l, length (shuffle rs l) = length l) →
  factories s = pre ++ rest →
  ∃ s' rest',
    for_each (seq (length pre) (length rest)) (λ i,
      s ← get;
      fd ← InitialiseFactory rs (factories s !!! i);
      modify (λ s, set_factories (<[i := fd]> (factories s)) s)) s = Done () s'
    ∧ factories s' = pre ++ rest'
    ∧ length rest' = length rest
    ∧ Forall display_wf rest'
    ∧ sumZ (display_count <$> rest')
      = Z.min (NUM_ON_FACTORY * Z.of_nat (length rest))
              (Z.of_nat (length (bag s)) + Z.of_nat (length (bag_used s)))
    ∧ Z.of_nat (length (bag s')) + Z.of_nat (length (bag_used s'))
      + sumZ (display_count <$> rest')
      = Z.of_nat (length (bag s)) + Z.of_nat (length (bag_used s))
    ∧ agents s' = agents s ∧ centre_pool s' = centre_pool s
    ∧ first_agent_taken s' = first_agent_taken s
    ∧ first_agent s' = first_agent s ∧ next_first_agent s' = next_first_agent s.
Proof.
  induction rest as [|d rest IH]; intros pre s Hshuffle Hfac.
  - cbn [length seq for_each]. mrun. exists s, []. split; [done|]. split; [done|].
    split; [done|]. split; [done|]. unfold NUM_ON_FACTORY. cbn.
    split; [lia|]. split; [lia|]. by repeat split.
  - cbn [length seq for_each]. unfold mbind at 1. unfold M_bind at 1.
    unfold mbind at 1. unfold M_bind at 1, get at 1.
    destruct (InitialiseFactory_spec rs (factories s !!! length pre) s Hshuffle)
      as (fd & s1 & Hrun & Hwf & Htotal & Hcount & Hagents1 & Hfac1 & Hc1 & Htaken1
          & Hfa1 & Hnfa1).
    unfold mbind at 1. unfold M_bind at 1. rewrite Hrun. unfold modify at 1.
    set (s2 := set_factories _ s1).
    destruct (IH (pre ++ [fd]) s2 Hshuffle)
      as (s' & rest' & Hloop & Hfac' & Hlen' & Hwf' & Hsum' & Hcount' & Hagents' & Hc'
          & Htaken' & Hfa' & Hnfa').
    { subst s2. cbn [factories set_factories]. rewrite Hfac1, Hfac.
      rewrite insert_app_r_alt, Nat.sub_diag by lia. cbn. by rewrite <- app_assoc. }
    rewrite length_app in Hloop. cbn [length] in Hloop. rewrite Nat.add_1_r in Hloop.
    exists s', (fd :: rest'). split; [exact Hloop|].
    split; [by rewrite Hfac', <- app_assoc|]. split; [cbn [length]; lia|].
    split; [by constructor|].
    subst s2. cbn [bag bag_used agents centre_pool first_agent_taken first_agent
                   next_first_agent set_factories] in *.
    rewrite !fmap_cons. unfold sumZ in *. cbn [foldr].
    destruct Hwf as [_ Hfd]. rewrite <- Hfd. unfold NUM_ON_FACTORY in *.
    split; [lia|]. split; [lia|]. repeat split; congruence.
Qed.

(** The action STARTROUND always returns.  Every factory display is set up
    anew from the bags, four tiles each while the bags last; the tiles that
    were on the factory displays and in the centre are dropped from the
    state, and the centre keeps its [total] while its counts are reset.  The
    boards and the first-player fields are not touched. *)
Theorem STARTROUND_deals_from_the_bags (rs : RandomSource) (agent_id : Z) (s : AzulState) :
  (∀ l, length (shuffle rs l) = length l) →
  ∃ s', generateSuccessor rs STARTROUND agent_id s = Done () s'
    ∧ agents s' = agents s
    ∧ length (factories s') = length (factories s)
    ∧ Forall display_wf (factories s')
    ∧ sumZ (display_count <$> factories s')
      = Z.min (NUM_ON_FACTORY * Z.of_nat (length (factories s)))
              (Z.of_nat (length (bag s)) + Z.of_nat (length (bag_used s)))
    ∧ (∀ t, tiles (centre_pool s') !!! t = 0)
    ∧ total (centre_pool s') = total (centre_pool s)
    ∧ total_tiles s'
      = total_tiles s - sumZ (display_count <$> factories s)
        - display_count (centre_pool s)
    ∧ first_agent_taken s' = first_agent_taken s
    ∧ first_agent s' = first_agent s ∧ next_first_agent s' = next_first_agent s.
Proof.
  intros Hshuffle.
  destruct (STARTROUND_loop rs (factories s) [] s Hshuffle)
    as (s1 & rest' & Hloop & Hfac1 & Hlen1 & Hwf1 & Hsum1 & Hcount1 & Hagents1 & Hc1
        & Htaken1 & Hfa1 & Hnfa1); [done|].
  cbn [length app] in *.
  unfold generateSuccessor.
  unfold mbind at 1. unfold M_bind at 1. unfold mbind at 1. unfold M_bind at 1, get at 1.
  rewrite Hloop. mrun. fold (display_reset (centre_pool s1)).
  eexists. split; [reflexivity|].
  cbn [agents bag bag_used factories centre_pool first_agent_taken first_agent
       next_first_agent set_centre_pool].
  split; [done|]. split; [by rewrite Hfac1|]. split; [by rewrite Hfac1|].
  split; [by rewrite Hfac1|].
  split; [intros t; apply (display_reset_zero (centre_pool s1))|].
  split; [cbn [total]; by rewrite Hc1|].
  split; [|by repeat split].
  unfold total_tiles.
  cbn [agents bag bag_used factories centre_pool set_centre_pool].
  rewrite (display_count_zero {| tiles := _; total := _ |})
    by (intros t; apply (display_reset_zero (centre_pool s1))).
  rewrite Hfac1, Hagents1. lia.
Qed.

Lemma STARTROUND_deals_from_the_bags_witness :
  ∃ s', generateSuccessor plain_source STARTROUND 2 initial_state = Done () s'
    ∧ agents s' = agents initial_state
    ∧ length (factories s') = length (factories initial_state)
    ∧ Forall display_wf (factories s')
    ∧ sumZ (display_count <$> factories s')
      = Z.min (NUM_ON_FACTORY * Z.of_nat (length (factories initial_state)))
              (Z.of_nat (length (bag initial_state))
               + Z.of_nat (length (bag_used initial_state)))
    ∧ (∀ t, tiles (centre_pool s') !!! t = 0)
    ∧ total (centre_pool s') = total (centre_pool initial_state)
    ∧ total_tiles s'
      = total_tiles initial_state - sumZ (display_count <$> factories initial_state)
        - display_count (centre_pool initial_state)
    ∧ first_agent_taken s' = first_agent_taken initial_state
    ∧ first_agent s' = first_agent initial_state
    ∧ next_first_agent s' = next_first_agent initial_state.
Proof.
  apply (STARTROUND_deals_from_the_bags plain_source 2 initial_state).
  intros l. reflexivity.
Defined.

(** ** The constructed state *)

Lemma InitialiseFactory_used_bag rs factory s fd s' :
  InitialiseFactory rs factory s = Done fd s' → bag_used s = [] → bag_used s' = [].
Proof.
  unfold InitialiseFactory. mrun. intros Hrun Hused.
  case_bool_decide; mrun; injection Hrun as _ <-; done.
Qed.

(** The constructor's loop over the factory displays. *)
Lemma init_factories_spec rs n : ∀ s,
  (∀ l, length (shuffle rs l) = length l) →
  ∃ s' new,
    init_factories rs n s = Done () s'
    ∧ factories s' = factories s ++ new
    ∧ length new = n
    ∧ Forall display_wf new
    ∧ (NUM_ON_FACTORY * Z.of_nat n
         ≤ Z.of_nat (length (bag s)) + Z.of_nat (length (bag_used s))
       → Forall (λ d, total d = NUM_ON_FACTORY) new)
    ∧ Z.of_nat (length (bag s')) + Z.of_nat (length (bag_used s'))
      + sumZ (display_count <$> new)
      = Z.of_nat (length (bag s)) + Z.of_nat (length (bag_used s))
    ∧ (bag_used s = [] → bag_used s' = [])
    ∧ agents s' = agents s ∧ centre_pool s' = centre_pool s.
Proof.
  induction n as [|n IH]; intros s Hshuffle.
  - cbn [init_factories]. mrun. exists s, []. split; [done|].
    split; [by rewrite app_nil_r|]. split; [done|]. split; [done|]. split; [done|].
    cbn. split; [lia|]. done.
  - cbn [init_factories]. unfold mbind at 1. unfold M_bind at 1.
    destruct (InitialiseFactory_spec rs TileDisplay_new s Hshuffle)
      as (fd & s1 & Hrun & Hwf & Htotal & Hcount & Hagents1 & Hfac1 & Hc1 & _).
    rewrite Hrun. unfold mbind at 1. unfold M_bind at 1, modify at 1.
    set (s2 := set_factories _ s1).
    destruct (IH s2 Hshuffle)
      as (s' & new & Hloop & Hfac' & Hlen' & Hwf' & Hfull' & Hcount' & Hused' & Hagents'
          & Hc').
    rewrite Hloop. exists s', (fd :: new). split; [done|].
    subst s2. cbn [bag bag_used agents factories centre_pool set_factories] in *.
    split; [by rewrite Hfac', Hfac1, <- app_assoc|]. split; [cbn [length]; lia|].
    split; [by constructor|].
    unfold NUM_ON_FACTORY in *.
    split.
    { intros Henough. constructor; [lia|]. apply Hfull'. lia. }
    rewrite fmap_cons. unfold sumZ in *. cbn [foldr].
    destruct Hwf as [_ Hfd]. rewrite <- Hfd.
    split; [lia|].
    split; [intros Hused; apply Hused'; by apply (InitialiseFactory_used_bag _ _ _ _ _ Hrun)|].
    split; congruence.
Qed.

Lemma AgentState_new_wf k : agent_wf (AgentState_new k).
Proof. apply (bool_decide_unpack _). vm_compute. exact I. Qed.

(** The constructor with a shuffle that keeps the length of the list: an
    agent count that is not positive makes it raise ValueError (an empty
    range for the draw of the first agent); otherwise it returns a
    well-formed state holding all 100 tiles, four on each of the five
    factory displays and 80 in the bag, with a fresh board per agent, an
    empty centre and the first-player token unclaimed. *)
Theorem constructor_sets_up_the_game (rs : RandomSource) (n : Z) :
  (∀ l, length (shuffle rs l) = length l) →
  if bool_decide (n ≤ 0) then AzulState_new rs n = Raise ValueError
  else ∃ s, AzulState_new rs n = Ok s
    ∧ agents s = (λ i, AgentState_new (Z.of_nat i)) <$> seq 0 (Z.to_nat n)
    ∧ state_wf s
    ∧ total_tiles s = TOTAL_TILES
    ∧ Forall (λ d, total d = NUM_ON_FACTORY) (factories s)
    ∧ length (factories s) = 5%nat
    ∧ length (bag s) = 80%nat ∧ bag_used s = []
    ∧ centre_pool s = TileDisplay_new
    ∧ first_agent_taken s = false
    ∧ first_agent s = randrange rs n
    ∧ next_first_agent s = -1.
Proof.
  intros Hshuffle. case_bool_decide as Hn.
  - by apply AzulState_new_no_agents.
  - unfold AzulState_new, AzulState_init. mrun.
    match goal with |- context [init_factories rs ?k ?s] =>
      destruct (init_factories_spec rs k s Hshuffle)
        as (s1 & new & Hrun & Hfac & Hlen & Hwf & Hfull & Hcount & Hused & Hagents & Hc)
    end.
    rewrite Hrun. rewrite bool_decide_eq_false_2 by done.
    cbn [bag bag_used agents factories centre_pool set_agents set_bag set_bag_used
         set_factories app] in *.
    rewrite Hshuffle in Hcount, Hfull.
    change (Z.to_nat (NUM_FACTORIES !!! 0%nat)) with 5%nat in *.
    change (length (mjoin (replicate (Z.to_nat NUM_TILE_TYPE)
                             [BLUE; YELLOW; RED; BLACK; WHITE]))) with 100%nat in *.
    unfold NUM_ON_FACTORY in *. cbn [length] in *.
    specialize (Hfull ltac:(lia)). specialize (Hused eq_refl).
    assert (sumZ (display_count <$> new) = 20) as Hsum.
    { do 6 (destruct new as [|? new]; try discriminate Hlen).
      repeat match goal with H : Forall _ (_ :: _) |- _ =>
               apply Forall_cons in H as [? ?] end.
      repeat match goal with H : display_wf _ |- _ => destruct H as [_ ?] end.
      unfold sumZ. cbn [fmap list_fmap foldr]. lia. }
    eexists. split; [reflexivity|].
    cbn [bag bag_used agents factories centre_pool first_agent_taken first_agent
         next_first_agent set_centre_pool set_first_agent_taken set_first_agent
         set_next_first_agent].
    rewrite Hagents, Hfac, Hused. unfold py_range.
    split; [done|].
    split.
    { split.
      - cbn [agents set_centre_pool set_first_agent_taken set_first_agent
             set_next_first_agent]. rewrite Hagents.
        apply Forall_fmap, Forall_forall. intros i _. apply AgentState_new_wf.
      - unfold displays.
        cbn [factories centre_pool set_centre_pool set_first_agent_taken set_first_agent
             set_next_first_agent]. rewrite Hfac.
        constructor; [|done]. apply (bool_decide_unpack _). vm_compute. exact I. }
    split.
    { unfold total_tiles.
      cbn [bag bag_used agents factories centre_pool set_centre_pool set_first_agent_taken
           set_first_agent set_next_first_agent].
      rewrite Hagents, Hfac, Hused, Hsum.
      rewrite <- list_fmap_compose, (sumZ_zero _ (seq 0 (Z.to_nat n))) by done.
      rewrite Hused in Hcount. cbn [length] in Hcount.
      change (display_count TileDisplay_new) with 0.
      change TOTAL_TILES with 100. cbn [length]. lia. }
    split; [done|]. split; [done|].
    split; [rewrite Hused in Hcount; cbn [length] in Hcount; lia|].
    by repeat split.
Qed.

Lemma constructor_sets_up_the_game_witness :
  if bool_decide (2 ≤ 0) then AzulState_new plain_source 2 = Raise ValueError
  else ∃ s, AzulState_new plain_source 2 = Ok s
    ∧ agents s = (λ i, AgentState_new (Z.of_nat i)) <$> seq 0 (Z.to_nat 2)
    ∧ state_wf s
    ∧ total_tiles s = TOTAL_TILES
    ∧ Forall (λ d, total d = NUM_ON_FACTORY) (factories s)
    ∧ length (factories s) = 5%nat
    ∧ length (bag s) = 80%nat ∧ bag_used s = []
    ∧ centre_pool s = TileDisplay_new
    ∧ first_agent_taken s = false
    ∧ first_agent s = randrange plain_source 2
    ∧ next_first_agent s = -1.
Proof.
  apply (constructor_sets_up_the_game plain_source 2). intros l. reflexivity.
Defined.

(** ** Cloning a state *)

(** The state the constructor returns for a positive agent count, whatever
    the random source: fresh boards and five factory displays. *)
Lemma AzulState_new_shape rs n :
  1 ≤ n →
  ∃ s, AzulState_new rs n = Ok s
    ∧ agents s = (λ i, AgentState_new (Z.of_nat i)) <$> py_range n
    ∧ length (factories s) = 5%nat.
Proof.
  intros Hn. unfold AzulState_new, AzulState_init. mrun.
  match goal with |- context [init_factories rs ?k ?s] =>
    destruct (init_factories_returns rs k s) as (s1 & Hrun & Ha & Hf) end.
  rewrite Hrun. rewrite bool_decide_eq_false_2 by lia.
  eexists. split; [reflexivity|]. by cbn [agents factories set_centre_pool
    set_first_agent_taken set_first_agent set_next_first_agent] in *.
Qed.

(** What [clone] copies of a board: everything but the identifier and the
    record of placed tiles, which stays that of a fresh board. *)
Definition board_copy (a a' : AgentState) : Prop :=
  score a' = score a ∧ lines_number a' = lines_number a ∧ lines_tile a' = lines_tile a
  ∧ grid_state a' = grid_state a ∧ floor a' = floor a ∧ floor_tiles a' = floor_tiles a
  ∧ number_of a' = zero_counts.

Lemma clone_agents_copy (xs : list AgentState) : ∀ k,
  Forall2 board_copy xs
    (zip_with clone_agent ((λ i, AgentState_new (Z.of_nat i)) <$> seq k (length xs)) xs).
Proof.
  induction xs as [|x xs IH]; intros k; cbn [length seq fmap list_fmap zip_with];
    constructor; [by repeat split|apply IH].
Qed.

Lemma clone_agents_ids (xs : list AgentState) : ∀ k i a',
  zip_with clone_agent ((λ i, AgentState_new (Z.of_nat i)) <$> seq k (length xs)) xs !! i
    = Some a' →
  agent_id a' = Z.of_nat (k + i).
Proof.
  induction xs as [|x xs IH]; intros k i a'; cbn [length seq fmap list_fmap zip_with];
    [done|].
  destruct i as [|i]; cbn.
  - intros [= <-]. cbn. f_equal. lia.
  - intros Hi. rewrite (IH (S k) i a' Hi). f_equal. lia.
Qed.

Lemma clone_factories_same (fs : list TileDisplay) : ∀ news,
  length news = length fs → zip_with clone_factory news fs = fs.
Proof.
  induction fs as [|f fs IH]; intros [|new news] Hlen; try done.
  cbn [zip_with]. rewrite IH by (cbn in Hlen; lia). by destruct f.
Qed.

(** [clone] of a state with at least one agent and five factory displays
    returns, whatever the random source: bags, displays and first-player
    fields are those of the source and every board is copied, except that
    the records of placed tiles start from zero again and the identifiers
    are the positions in the list of agents. *)
Theorem clone_copies_all_but_number_of (rs : RandomSource) (s : AzulState) :
  agents s ≠ [] → length (factories s) = 5%nat →
  ∃ s', clone rs s = Ok s'
    ∧ Forall2 board_copy (agents s) (agents s')
    ∧ (∀ i a', agents s' !! i = Some a' → agent_id a' = Z.of_nat i)
    ∧ bag s' = bag s ∧ bag_used s' = bag_used s
    ∧ factories s' = factories s ∧ centre_pool s' = centre_pool s
    ∧ first_agent_taken s' = first_agent_taken s
    ∧ first_agent s' = first_agent s ∧ next_first_agent s' = next_first_agent s.
Proof.
  intros Hagents Hfactories.
  destruct (AzulState_new_shape rs (Z.of_nat (length (agents s))))
    as (new & Hnew & Hnewa & Hnewf).
  { destruct (agents s); [done|]. cbn [length]. lia. }
  unfold clone. rewrite Hnew. unfold clone_each. rewrite Hnewa, Hnewf. unfold py_range.
  rewrite Nat2Z.id, length_fmap, length_seq, Hfactories.
  rewrite !bool_decide_eq_true_2 by done.
  eexists. split; [reflexivity|].
  cbn [agents bag bag_used factories centre_pool first_agent_taken first_agent
       next_first_agent].
  rewrite drop_ge by (rewrite length_fmap, length_seq; lia). rewrite app_nil_r.
  rewrite drop_ge by lia. rewrite app_nil_r.
  split; [apply clone_agents_copy|].
  split; [intros i a' Hi; by rewrite (clone_agents_ids _ 0 i a' Hi)|].
  split; [done|]. split; [done|].
  split; [apply clone_factories_same; lia|].
  split; [by destruct (centre_pool s)|]. done.
Qed.

Lemma clone_copies_all_but_number_of_witness :
  ∃ s', clone plain_source round_end_state = Ok s'
    ∧ Forall2 board_copy (agents round_end_state) (agents s')
    ∧ (∀ i a', agents s' !! i = Some a' → agent_id a' = Z.of_nat i)
    ∧ bag s' = bag round_end_state ∧ bag_used s' = bag_used round_end_state
    ∧ factories s' = factories round_end_state
    ∧ centre_pool s' = centre_pool round_end_state
    ∧ first_agent_taken s' = first_agent_taken round_end_state
    ∧ first_agent s' = first_agent round_end_state
    ∧ next_first_agent s' = next_first_agent round_end_state.
Proof.
  apply (clone_copies_all_but_number_of plain_source round_end_state).
  - discriminate.
  - reflexivity.
Defined.

(** [clone] of a state without agents raises ValueError, as the constructor
    does; [clone] of a state with agents and more than five factory
    displays raises IndexError at the sixth display. *)
Theorem clone_of_an_unusual_state (rs : RandomSource) (s : AzulState) :
  agents s = [] ∨ (5 < length (factories s))%nat →
  clone rs s = Raise (if bool_decide (agents s = []) then ValueError else IndexError).
Proof.
  intros Hodd. case_bool_decide as Hagents.
  - unfold clone. rewrite Hagents. by rewrite AzulState_new_no_agents.
  - destruct Hodd as [?|Hfactories]; [done|].
    destruct (AzulState_new_shape rs (Z.of_nat (length (agents s))))
      as (new & Hnew & Hnewa & Hnewf).
    { destruct (agents s); [done|]. cbn [length]. lia. }
    unfold clone. rewrite Hnew. unfold clone_each. rewrite Hnewa, Hnewf. unfold py_range.
    rewrite Nat2Z.id, length_fmap, length_seq.
    rewrite bool_decide_eq_true_2 by done.
    by rewrite bool_decide_eq_false_2 by lia.
Qed.

Lemma clone_of_an_unusual_state_witness :
  clone plain_source (set_agents [] initial_state)
  = Raise (if bool_decide (agents (set_agents [] initial_state) = [])
           then ValueError else IndexError).
Proof.
  apply (clone_of_an_unusual_state plain_source (set_agents [] initial_state)).
  left. reflexivity.
Defined.

(** ** A drafting turn always has a move *)

Lemma display_with_tiles d :
  display_wf d → total d > 0 → ∃ tile, 1 ≤ tiles d !!! tile.
Proof.
  intros [Hnn Htot] Hpos. rewrite Htot in Hpos.
  unfold display_count, all_tiles in *.
  rewrite !Forall_cons in Hnn. destruct Hnn as (? & ? & ? & ? & ? & _).
  unfold sumZ in Hpos. cbn [fmap list_fmap foldr] in Hpos.
  destruct (decide (1 ≤ tiles d !!! BLUE)); [by exists BLUE|].
  destruct (decide (1 ≤ tiles d !!! YELLOW)); [by exists YELLOW|].
  destruct (decide (1 ≤ tiles d !!! RED)); [by exists RED|].
  destruct (decide (1 ≤ tiles d !!! BLACK)); [by exists BLACK|].
  exists WHITE. lia.
Qed.

Lemma TilesRemaining_true s :
  TilesRemaining s = true → ∃ d, d ∈ displays s ∧ total d > 0.
Proof.
  unfold TilesRemaining, displays. case_bool_decide as Hc.
  - intros _. exists (centre_pool s). split; [by left|done].
  - intros (d & Hd & Hpos)%existsb_exists. exists d.
    split; [right; by apply list_elem_of_In|]. by apply bool_decide_eq_true_1 in Hpos.
Qed.

(** While tiles remain on a display, an agent of a state with well-formed
    displays has a legal action: [getLegalActions] returns a list that is
    not empty and holds takes only, among them the take of a whole colour to
    the floor line. *)
Theorem a_drafting_turn_has_a_move (num_of_agent : Z) (s : AzulState) (agent_id : Z)
    (plr : nat) :
  Forall display_wf (displays s) →
  TilesRemaining s = true →
  agent_id ≠ num_of_agent →
  py_index (agents s) agent_id = Some plr →
  ∃ acts, getLegalActions num_of_agent s agent_id = Ok acts
    ∧ (∃ kind fid tile count,
         1 ≤ count
         ∧ Take kind fid (mkTileGrab tile count TileGrab_new_pattern_line_dest 0 count)
           ∈ acts)
    ∧ ∀ act, act ∈ acts → ∃ kind fid tg, act = Take kind fid tg.
Proof.
  intros Hwf Hremain Hagent Hplr. unfold getLegalActions.
  rewrite Hremain. cbn [negb andb]. rewrite bool_decide_eq_false_2, Hplr by done.
  set (a := agents s !!! plr).
  eexists. split; [reflexivity|]. split.
  - destruct (TilesRemaining_true s Hremain) as (d & Hd & Hpos).
    destruct (display_with_tiles d (proj1 (Forall_forall _ _) Hwf d Hd) Hpos)
      as (tile & Htile).
    unfold displays in Hd. apply elem_of_cons in Hd as [->|Hd].
    + exists TAKE_FROM_CENTRE, (-1), tile, (tiles (centre_pool s) !!! tile).
      split; [done|]. apply elem_of_app. right.
      apply elem_of_display_actions. exists tile. split; [lia|].
      apply elem_of_colour_actions. by left.
    + apply list_elem_of_lookup in Hd as (i & Hi).
      exists TAKE_FROM_FACTORY, (Z.of_nat i), tile, (tiles d !!! tile).
      split; [done|]. apply elem_of_app. left.
      apply list_elem_of_bind. exists i.
      split; [|apply elem_of_seq; apply lookup_lt_Some in Hi; lia].
      rewrite (list_lookup_total_correct _ _ _ Hi).
      apply elem_of_display_actions. exists tile. split; [lia|].
      apply elem_of_colour_actions. by left.
  - intros act [Hact|Hact]%elem_of_app.
    + apply list_elem_of_bind in Hact as (i & Hact & _).
      apply display_actions_source in Hact as (tg & ->). by eexists _, _, _.
    + apply display_actions_source in Hact as (tg & ->). by eexists _, _, _.
Qed.

Lemma a_drafting_turn_has_a_move_witness :
  ∃ acts, getLegalActions 2 second_turn_state 1 = Ok acts
    ∧ (∃ kind fid tile count,
         1 ≤ count
         ∧ Take kind fid (mkTileGrab tile count TileGrab_new_pattern_line_dest 0 count)
           ∈ acts)
    ∧ ∀ act, act ∈ acts → ∃ kind fid tg, act = Take kind fid tg.
Proof.
  apply (a_drafting_turn_has_a_move 2 second_turn_state 1 1%nat).
  - apply (bool_decide_unpack _). vm_compute. exact I.
  - vm_compute. reflexivity.
  - lia.
  - vm_compute. reflexivity.
Defined.

(** ** The end of the game *)

Lemma existsb_ext_in {A} (f g : A → bool) (l : list A) :
  (∀ x, x ∈ l → f x = g x) → existsb f l = existsb g l.
Proof.
  induction l as [|x l IH]; intros Hl; [done|]. cbn [existsb].
  rewrite (Hl x) by by left. rewrite IH; [done|]. intros y Hy. apply Hl. by right.
Qed.

Lemma forallb_ext_in {A} (f g : A → bool) (l : list A) :
  (∀ x, x ∈ l → f x = g x) → forallb f l = forallb g l.
Proof.
  induction l as [|x l IH]; intros Hl; [done|]. cbn [forallb].
  rewrite (Hl x) by by left. rewrite IH; [done|]. intros y Hy. apply Hl. by right.
Qed.

Lemma existsb_filter {A} (f : A → bool) (l : list A) :
  existsb f l = bool_decide (Z.of_nat (length (filter (λ x, f x = true) l)) > 0).
Proof.
  induction l as [|x l IH]; [done|]. cbn [existsb].
  destruct (f x) eqn:Hx.
  - rewrite filter_cons_True by done. cbn [orb length].
    symmetry. apply bool_decide_eq_true_2. lia.
  - rewrite filter_cons_False by (rewrite Hx; done). by cbn [orb].
Qed.

(** On a well-formed wall a row has no empty cell exactly when all its
    cells hold a tile. *)
Lemma completed_row g i :
  grid_wf g → (i < 5)%nat →
  forallb (λ col, bool_decide (grid_get g i col = 1)) (seq 0 5)
  = forallb (λ j, negb (bool_decide (grid_get g i j = 0))) (py_range GRID_SIZE).
Proof.
  intros Hg Hi. change (py_range GRID_SIZE) with (seq 0 5).
  apply forallb_ext_in. intros j Hj%elem_of_seq.
  destruct (grid_wf_cell g i j Hg Hi) as [Hc|Hc]; [lia| |]; rewrite Hc; done.
Qed.

(** The two tests for the end of the game agree on a state whose walls are
    well-formed: [is_game_over] of the state (some row has a tile in every
    cell) and [gameEnds] of the rule (some agent has a completed row). *)
Theorem is_game_over_agrees_with_gameEnds (s : AzulState) :
  Forall (λ a, grid_wf (grid_state a)) (agents s) →
  is_game_over s = gameEnds s.
Proof.
  intros Hwf. unfold is_game_over, gameEnds.
  apply existsb_ext_in. intros a Ha.
  pose proof (proj1 (Forall_forall _ _) Hwf a Ha) as Hg. cbv beta in Hg.
  unfold GetCompletedRows. change (py_range GRID_SIZE) with (seq 0 5) at 2.
  rewrite <- existsb_filter.
  apply existsb_ext_in. intros i Hi%elem_of_seq.
  change (Z.to_nat GRID_SIZE) with 5%nat in Hi. apply completed_row; [done|lia].
Qed.

(** A state in which agent 1 has completed the first row of the wall. *)
Definition finished_state : AzulState :=
  set_agents
    [round_end_board;
     set_grid_state [[1; 1; 1; 1; 1]; [0; 1; 0; 0; 0]; [0; 0; 0; 0; 0];
                     [0; 0; 0; 0; 0]; [0; 0; 0; 0; 0]] (AgentState_new 1)]
    initial_state.

Lemma is_game_over_agrees_with_gameEnds_witness :
  is_game_over finished_state = gameEnds finished_state.
Proof.
  apply (is_game_over_agrees_with_gameEnds finished_state).
  apply (bool_decide_unpack _). vm_compute. exact I.
Defined.

(** [calScore(game_state, agent_id)] of the rule: the agent's end-of-game
    bonus is added to the score, and the score is returned. *)
Definition calScore (agent_id : Z) : M AzulState Z :=
  s ← get;
  match py_index (agents s) agent_id with
  | None => raise IndexError
  | Some plr =>
      on_agent plr EndOfGameScore;;
      s ← get;
      mret (score (agents s !!! plr))
  end.

(** The end-of-game bonus of a board. *)
Definition end_bonus (a : AgentState) : Z :=
  GetCompletedRows a * ROW_BONUS + GetCompletedColumns a * COL_BONUS
  + GetCompletedSets a * SET_BONUS.

Lemma end_bonus_bounds a : 0 ≤ end_bonus a ≤ 95.
Proof.
  unfold end_bonus, GetCompletedRows, GetCompletedColumns, GetCompletedSets,
    ROW_BONUS, COL_BONUS, SET_BONUS.
  pose proof (length_filter
    (λ i, forallb (λ j, negb (bool_decide (grid_get (grid_state a) i j = 0)))
                  (py_range GRID_SIZE) = true) (py_range GRID_SIZE)) as Hr.
  pose proof (length_filter
    (λ i, forallb (λ j, negb (bool_decide (grid_get (grid_state a) j i = 0)))
                  (py_range GRID_SIZE) = true) (py_range GRID_SIZE)) as Hc.
  pose proof (length_filter (λ tile, number_of a !!! tile = GRID_SIZE) all_tiles) as Hs.
  change (length (py_range GRID_SIZE)) with 5%nat in *.
  change (length all_tiles) with 5%nat in *. lia.
Qed.

Lemma end_bonus_set_score v a : end_bonus (set_score v a) = end_bonus a.
Proof. reflexivity. Qed.

Lemma py_index_same_length {A} (l l' : list A) i :
  length l' = length l → py_index l' i = py_index l i.
Proof. intros Hlen. unfold py_index. by rewrite Hlen. Qed.

(** [calScore] is not a query: for an agent of the state it returns the
    agent's score with the end-of-game bonus added (2 per completed row, 7
    per completed column, 10 per colour placed five times; between 0 and 95)
    and leaves that score on the board, so that a second call adds the bonus
    once more. *)
Theorem calScore_adds_the_bonus_each_time (s : AzulState) (agent_id : Z) (plr : nat)
    (a : AgentState) :
  py_index (agents s) agent_id = Some plr →
  agents s !! plr = Some a →
  ∃ s' s'',
    calScore agent_id s = Done (score a + end_bonus a) s'
    ∧ agents s' = <[plr := set_score (score a + end_bonus a) a]> (agents s)
    ∧ calScore agent_id s' = Done (score a + 2 * end_bonus a) s''
    ∧ 0 ≤ end_bonus a ≤ 95.
Proof.
  intros Hplr Ha. pose proof (lookup_lt_Some _ _ _ Ha) as Hlt.
  assert (∀ b, EndOfGameScore b = Done (end_bonus b) (set_score (score b + end_bonus b) b))
    as Hscore by done.
  set (a' := set_score (score a + end_bonus a) a).
  set (s' := set_agents (<[plr := a']> (agents s)) s).
  assert (calScore agent_id s = Done (score a + end_bonus a) s') as Hfirst.
  { unfold calScore. unfold mbind at 1. unfold M_bind at 1, get at 1. rewrite Hplr.
    unfold mbind at 1. unfold M_bind at 1.
    rewrite (on_agent_Done s plr a _ _ _ Ha (Hscore a)). mrun.
    cbn [agents set_agents]. by rewrite list_lookup_total_insert_eq. }
  exists s', (set_agents (<[plr := set_score (score a' + end_bonus a') a']> (agents s')) s').
  split; [done|]. split; [done|]. split; [|apply end_bonus_bounds].
  assert (agents s' !! plr = Some a') as Ha'
    by (subst s'; cbn [agents set_agents]; by apply list_lookup_insert_eq).
  unfold calScore. unfold mbind at 1. unfold M_bind at 1, get at 1.
  rewrite (py_index_same_length (agents s))
    by (subst s'; cbn [agents set_agents]; apply length_insert).
  rewrite Hplr. unfold mbind at 1. unfold M_bind at 1.
  rewrite (on_agent_Done s' plr a' _ _ _ Ha' (Hscore a')). mrun.
  cbn [agents set_agents].
  rewrite list_lookup_total_insert_eq by (subst s'; cbn; by rewrite length_insert).
  subst a'. rewrite end_bonus_set_score. cbn [score set_score]. f_equal. lia.
Qed.

Lemma calScore_adds_the_bonus_each_time_witness :
  ∃ s' s'',
    calScore 1 finished_state
    = Done (score (agents finished_state !!! 1%nat)
            + end_bonus (agents finished_state !!! 1%nat)) s'
    ∧ agents s'
      = <[1%nat := set_score (score (agents finished_state !!! 1%nat)
                              + end_bonus (agents finished_state !!! 1%nat))
                             (agents finished_state !!! 1%nat)]> (agents finished_state)
    ∧ calScore 1 s'
      = Done (score (agents finished_state !!! 1%nat)
              + 2 * end_bonus (agents finished_state !!! 1%nat)) s''
    ∧ 0 ≤ end_bonus (agents finished_state !!! 1%nat) ≤ 95.
Proof.
  apply (calScore_adds_the_bonus_each_time finished_state 1 1%nat).
  - vm_compute. reflexivity.
  - vm_compute. reflexivity.
Defined.

(** ** Undoing a move *)

(** The dictionary [get_move_info] builds: [move_info['agents'][i]] and
    [move_info['factories'][i]] for the positions [i = 0, 1, ...], as lists,
    and the other entries as fields. *)
Record AgentInfo := mkAgentInfo {
  info_score : Z;
  info_lines_number : list Z;
  info_lines_tile : list (option Tile);
  info_grid_state : list (list Z);
  info_floor : list Z;
  info_floor_tiles : list Tile
}.

Record MoveInfo := mkMoveInfo {
  info_agents : list AgentInfo;
  info_factories : list TileDisplay;
  info_bag : list Tile;
  info_bag_used : list Tile;
  info_centre_pool : TileDisplay;
  info_first_agent_taken : bool;
  info_first_agent : Z;
  info_next_first_agent : Z
}.

Definition agent_info (agent : AgentState) : AgentInfo :=
  {| info_score := score agent;
     info_lines_number := lines_number agent;
     info_lines_tile := lines_tile agent;
     info_grid_state := grid_state agent;
     info_floor := floor agent;
     info_floor_tiles := floor_tiles agent |}.

Definition get_move_info (self : AzulState) : MoveInfo :=
  {| info_agents := agent_info <$> agents self;
     info_factories := (λ factory, {| tiles := tiles factory; total := total factory |})
                         <$> factories self;
     info_bag := bag self;
     info_bag_used := bag_used self;
     info_centre_pool := {| tiles := tiles (centre_pool self);
                            total := total (centre_pool self) |};
     info_first_agent_taken := first_agent_taken self;
     info_first_agent := first_agent self;
     info_next_first_agent := next_first_agent self |}.

(** The assignments of [undo_move] to one agent. *)
Definition restore_agent (agent_changes : AgentInfo) : M AgentState unit :=
  modify (set_score (info_score agent_changes));;
  modify (set_lines_number (info_lines_number agent_changes));;
  modify (set_lines_tile (info_lines_tile agent_changes));;
  modify (set_grid_state (info_grid_state agent_changes));;
  modify (set_floor (info_floor agent_changes));;
  modify (set_floor_tiles (info_floor_tiles agent_changes)).

(** [undo_move(move_info)] for a dictionary built by [get_move_info], which
    has every key [undo_move] looks for. *)
Definition undo_move (move_info : MoveInfo) : M AzulState unit :=
  for_each (zip (seq 0 (length (info_agents move_info))) (info_agents move_info))
    (λ '(agent_id, agent_changes), on_agent agent_id (restore_agent agent_changes));;
  modify (set_bag (info_bag move_info));;
  modify (set_bag_used (info_bag_used move_info));;
  for_each (zip (seq 0 (length (info_factories move_info))) (info_factories move_info))
    (λ '(factory_id, factory_changes),
       on_factory factory_id
         (modify (λ _, {| tiles := tiles factory_changes;
                          total := total factory_changes |})));;
  modify (λ s, set_centre_pool {| tiles := tiles (info_centre_pool move_info);
                                  total := total (info_centre_pool move_info) |} s);;
  modify (set_first_agent_taken (info_first_agent_taken move_info));;
  modify (set_first_agent (info_first_agent move_info));;
  modify (set_next_first_agent (info_next_first_agent move_info)).

(** Board [a] as [undo_move] restores it over the board [a']: the fields
    [get_move_info] recorded, with the identifier and the record of placed
    tiles of [a']. *)
Definition restored_over (a a' : AgentState) : AgentState :=
  {| agent_id := agent_id a'; score := score a;
     lines_number := lines_number a; lines_tile := lines_tile a;
     grid_state := grid_state a; floor := floor a; floor_tiles := floor_tiles a;
     number_of := number_of a' |}.

Lemma bind_Done {S A B} (m : M S A) (k : A → M S B) (s s' : S) (x : A) :
  m s = Done x s' → (m ≫= k) s = k x s'.
Proof. intros Hm. unfold mbind, M_bind. by rewrite Hm. Qed.

Lemma bind_modify {S B} (f : S → S) (k : unit → M S B) (s : S) :
  (modify f ≫= k) s = k () (f s).
Proof. reflexivity. Qed.

Lemma undo_agents_loop (olds : list AgentState) : ∀ rest pre s,
  agents s = pre ++ rest → length rest = length olds →
  for_each (zip (seq (length pre) (length (agent_info <$> olds))) (agent_info <$> olds))
    (λ '(agent_id, agent_changes), on_agent agent_id (restore_agent agent_changes)) s
  = Done () (set_agents (pre ++ zip_with restored_over olds rest) s).
Proof.
  induction olds as [|a olds IH]; intros rest pre s Hagents Hlen.
  - destruct rest; [|done]. cbn. mrun. rewrite <- Hagents. by destruct s.
  - destruct rest as [|a' rest]; [done|].
    cbn [fmap list_fmap length seq zip zip_with for_each].
    assert (agents s !! length pre = Some a') as Ha'
      by (rewrite Hagents; by apply list_lookup_middle).
    unfold mbind at 1. unfold M_bind at 1.
    rewrite (on_agent_Done s (length pre) a' (restored_over a a') _ ()); [|done|done].
    set (s1 := set_agents _ s).
    specialize (IH rest (pre ++ [restored_over a a']) s1).
    rewrite length_app in IH. cbn [length] in IH. rewrite Nat.add_1_r in IH.
    change (list_fmap AgentState AgentInfo agent_info olds) with (agent_info <$> olds).
    rewrite IH.
    + subst s1. cbn [set_agents agents]. by rewrite <- app_assoc.
    + subst s1. cbn [set_agents agents]. rewrite Hagents.
      rewrite insert_app_r_alt, Nat.sub_diag by lia. cbn. by rewrite <- app_assoc.
    + cbn in Hlen. lia.
Qed.

Lemma undo_factories_loop (olds : list TileDisplay) : ∀ rest pre s,
  factories s = pre ++ rest → length rest = length olds →
  for_each (zip (seq (length pre)
                   (length ((λ f, {| tiles := tiles f; total := total f |}) <$> olds)))
                ((λ f, {| tiles := tiles f; total := total f |}) <$> olds))
    (λ '(factory_id, factory_changes),
       on_factory factory_id
         (modify (λ _, {| tiles := tiles factory_changes;
                          total := total factory_changes |}))) s
  = Done () (set_factories (pre ++ olds) s).
Proof.
  induction olds as [|f olds IH]; intros rest pre s Hfac Hlen.
  - destruct rest; [|done]. cbn. mrun. rewrite <- Hfac. by destruct s.
  - destruct rest as [|f' rest]; [done|].
    cbn [fmap list_fmap length seq zip for_each].
    assert (factories s !! length pre = Some f') as Hf'
      by (rewrite Hfac; by apply list_lookup_middle).
    unfold mbind at 1. unfold M_bind at 1. unfold on_factory at 1. rewrite Hf'.
    unfold modify at 1. cbn [tiles total].
    set (s1 := set_factories _ s).
    specialize (IH rest (pre ++ [f]) s1).
    rewrite length_app in IH. cbn [length] in IH. rewrite Nat.add_1_r in IH.
    change (list_fmap TileDisplay TileDisplay ?g olds) with (g <$> olds).
    rewrite IH.
    + subst s1. cbn [set_factories factories]. by rewrite <- app_assoc.
    + subst s1. cbn [set_factories factories]. rewrite Hfac.
      rewrite insert_app_r_alt, Nat.sub_diag by lia. cbn. rewrite <- app_assoc.
      by destruct f.
    + cbn in Hlen. lia.
Qed.

Lemma restored_over_same (l l' : list AgentState) :
  Forall2 (λ a a', agent_id a' = agent_id a ∧ number_of a' = number_of a) l l' →
  zip_with restored_over l l' = l.
Proof.
  induction 1 as [|a a' l l' [Hid Hno] _ IH]; [done|].
  cbn [zip_with]. rewrite IH. f_equal.
  destruct a. unfold restored_over. cbn in *. by rewrite Hid, Hno.
Qed.

Lemma undo_move_of_move_info (s s' : AzulState) :
  length (agents s') = length (agents s) →
  length (factories s') = length (factories s) →
  undo_move (get_move_info s) s'
  = Done () (set_agents (zip_with restored_over (agents s) (agents s')) s).
Proof.
  intros Hagents Hfactories. unfold undo_move, get_move_info.
  cbn [info_agents info_factories info_bag info_bag_used info_centre_pool
       info_first_agent_taken info_first_agent info_next_first_agent].
  pose proof (undo_agents_loop (agents s) (agents s') [] s' eq_refl Hagents) as Hloop.
  cbn [length app] in Hloop.
  rewrite (bind_Done _ _ _ _ _ Hloop), !bind_modify.
  match goal with |- mbind _ _ ?st = _ =>
    pose proof (undo_factories_loop (factories s) (factories s') [] st eq_refl Hfactories)
      as Hloop'
  end.
  cbn [length app] in Hloop'.
  rewrite (bind_Done _ _ _ _ _ Hloop'), !bind_modify.
  unfold modify. cbn [app]. destruct s as [? ? ? ? [? ?] ? ? ?]. reflexivity.
Qed.

Lemma undo_move_same_counters (s s' : AzulState) :
  length (factories s') = length (factories s) →
  Forall2 (λ a a', agent_id a' = agent_id a ∧ number_of a' = number_of a)
    (agents s) (agents s') →
  undo_move (get_move_info s) s' = Done () s.
Proof.
  intros Hfactories Hsame.
  rewrite undo_move_of_move_info; [|symmetry; by eapply Forall2_length|done].
  rewrite (restored_over_same _ _ Hsame). by destruct s.
Qed.

(** [undo_move] with the information [get_move_info] took from state [s],
    run on a state [s'] with as many agents and factory displays: it
    returns, and the state is [s] again except for what [get_move_info] does
    not record, the boards' records of placed tiles (and their
    identifiers), which remain those of [s'].  The state is exactly [s] when
    these did not change. *)
Theorem undo_move_restores_all_but_number_of (s s' : AzulState) :
  length (agents s') = length (agents s) →
  length (factories s') = length (factories s) →
  undo_move (get_move_info s) s'
  = Done () (set_agents (zip_with restored_over (agents s) (agents s')) s)
  ∧ (Forall2 (λ a a', agent_id a' = agent_id a ∧ number_of a' = number_of a)
       (agents s) (agents s') →
     undo_move (get_move_info s) s' = Done () s).
Proof.
  intros Hagents Hfactories. split.
  - by apply undo_move_of_move_info.
  - intros Hsame. by apply undo_move_same_counters.
Qed.

(** The state after the action ENDROUND on [round_end_state]. *)
Definition after_round_end : AzulState :=
  final_state (generateSuccessor plain_source ENDROUND 0 round_end_state).

Lemma undo_move_restores_all_but_number_of_witness :
  undo_move (get_move_info round_end_state) after_round_end
  = Done () (set_agents (zip_with restored_over (agents round_end_state)
                                  (agents after_round_end)) round_end_state)
  ∧ (Forall2 (λ a a', agent_id a' = agent_id a ∧ number_of a' = number_of a)
       (agents round_end_state) (agents after_round_end) →
     undo_move (get_move_info round_end_state) after_round_end = Done () round_end_state).
Proof.
  apply (undo_move_restores_all_but_number_of round_end_state after_round_end).
  - vm_compute. reflexivity.
  - vm_compute. reflexivity.
Defined.

Lemma board_after_pattern_part_counters a tg :
  agent_id (board_after_pattern_part a tg) = agent_id a
  ∧ number_of (board_after_pattern_part a tg) = number_of a.
Proof. unfold board_after_pattern_part. by case_bool_decide. Qed.

Lemma counters_after_step (l : list AgentState) plr a a' :
  l !! plr = Some a → agent_id a' = agent_id a → number_of a' = number_of a →
  Forall2 (λ a a', agent_id a' = agent_id a ∧ number_of a' = number_of a)
    l (<[plr := a']> l).
Proof.
  intros Ha Hid Hno. rewrite <- (list_insert_id l plr a Ha) at 1.
  apply Forall2_insert; [|done].
  apply Forall_Forall2_diag, Forall_forall. by intros.
Qed.

(** A take and its undoing: for every take that [generateSuccessor]
    applies, [undo_move] with the information [get_move_info] took before
    the take gives the state before the take back. *)
Theorem take_then_undo_is_identity (rs : RandomSource) (s : AzulState) (agent_id : Z)
    (kind : ActionKind) (fid : Z) (tg : TileGrab) :
  Forall display_wf (displays s) →
  take_passes s agent_id kind fid tg →
  ∃ s', generateSuccessor rs (Take kind fid tg) agent_id s = Done () s'
    ∧ undo_move (get_move_info s) s' = Done () s.
Proof.
  intros Hwf (plr & a & d & Hplr & Ha & Hfits & Hsource & Hnumber).
  destruct kind.
  - destruct Hsource as (fac & Hfac & Hd).
    destruct (take_from_factory_spec rs s agent_id fid tg plr a fac d)
      as (s' & a' & f' & Hrun & Hagents & (a1 & Hsame & ->) & _ & Hfacs & _); try done.
    exists s'. split; [done|].
    apply undo_move_same_counters.
    + by rewrite Hfacs, length_insert.
    + rewrite Hagents.
      destruct (board_after_pattern_part_counters a1 tg) as [Hid Hno].
      destruct Hsame as (Hid1 & _ & _ & _ & _ & Hno1).
      apply (counters_after_step _ _ a); [done|congruence|congruence].
  - subst d.
    destruct (take_from_centre_spec rs s agent_id fid tg plr a)
      as (s' & a' & Hrun & Hagents & (a0 & a1 & Hsame0 & Hsame1 & ->) & _ & Hfacs & _);
      try done.
    exists s'. split; [done|].
    apply undo_move_same_counters.
    + by rewrite Hfacs.
    + rewrite Hagents.
      destruct (board_after_pattern_part_counters a1 tg) as [Hid Hno].
      destruct Hsame0 as (Hid0 & _ & _ & _ & _ & Hno0).
      destruct Hsame1 as (Hid1 & _ & _ & _ & _ & Hno1).
      apply (counters_after_step _ _ a); [done|congruence|congruence].
Qed.

Lemma take_then_undo_is_identity_witness :
  ∃ s', generateSuccessor plain_source (Take TAKE_FROM_FACTORY 0 (mkTileGrab BLUE 1 0 1 0)) 0
          initial_state = Done () s'
    ∧ undo_move (get_move_info initial_state) s' = Done () initial_state.
Proof.
  apply (take_then_undo_is_identity plain_source initial_state 0 TAKE_FROM_FACTORY 0
           (mkTileGrab BLUE 1 0 1 0)).
  - apply (bool_decide_unpack _). vm_compute. exact I.
  - exists 0%nat, (agents initial_state !!! 0%nat), (factories initial_state !!! 0%nat).
    split; [vm_compute; reflexivity|]. split; [vm_compute; reflexivity|].
    split; [apply (bool_decide_unpack _); vm_compute; exact I|].
    split; [exists 0%nat; split; vm_compute; reflexivity|].
    vm_compute. split; [reflexivity|discriminate].
Defined.

(** ** The immutable copy of a state *)

(** The frozen dataclasses.  [grid_scheme] of [ImmutableAgentState] is
    copied from the agent, whose table is never all zeros, so that
    [__post_init__] leaves it alone: it is the constant [grid_scheme] here
    too. *)
Record ImmutableTileDisplay := mkImmutableTileDisplay {
  itiles : gmap Tile Z;
  itotal : Z
}.

Record ImmutableAgentState := mkImmutableAgentState {
  iid : Z;
  iscore : Z;
  ilines_number : list Z;
  ilines_tile : list (option Tile);
  igrid_state : list (list Z);
  ifloor : list Z;
  ifloor_tiles : list Tile;
  inumber_of : gmap Tile Z
}.

Record ImmutableAzulState := mkImmutableAzulState {
  iagents : list ImmutableAgentState;
  ibag : list Tile;
  ibag_used : list Tile;
  ifactories : list ImmutableTileDisplay;
  icentre_pool : ImmutableTileDisplay;
  ifirst_agent_taken : bool;
  ifirst_agent : Z;
  inext_first_agent : Z
}.

(** [ImmutableTileDisplay(tiles, total)] with its [__post_init__]: an empty
    dictionary is replaced by one with a zero count for every colour. *)
Definition ImmutableTileDisplay_new (tiles : gmap Tile Z) (total : Z) : ImmutableTileDisplay :=
  {| itiles := if bool_decide (tiles = ∅) then zero_counts else tiles; itotal := total |}.

Definition reaction_tiles (number : Z) (tile_type : Tile) (self : ImmutableTileDisplay)
    : result ImmutableTileDisplay :=
  match itiles self !! tile_type with
  | None => Raise KeyError
  | Some count =>
      Ok (ImmutableTileDisplay_new (<[tile_type := count - number]> (itiles self))
                                   (itotal self - number))
  end.

Definition add_tiles (number : Z) (tile_type : Tile) (self : ImmutableTileDisplay)
    : result ImmutableTileDisplay :=
  match itiles self !! tile_type with
  | None => Raise KeyError
  | Some count =>
      Ok (ImmutableTileDisplay_new (<[tile_type := count + number]> (itiles self))
                                   (itotal self + number))
  end.

(** [ImmutableAgentState(...)] with its [__post_init__] for [number_of]. *)
Definition ImmutableAgentState_new (id score : Z) (lines_number : list Z)
    (lines_tile : list (option Tile)) (grid_state : list (list Z)) (floor : list Z)
    (floor_tiles : list Tile) (number_of : gmap Tile Z) : ImmutableAgentState :=
  {| iid := id; iscore := score; ilines_number := lines_number;
     ilines_tile := lines_tile; igrid_state := grid_state; ifloor := floor;
     ifloor_tiles := floor_tiles;
     inumber_of := if bool_decide (number_of = ∅) then zero_counts else number_of |}.

(** [to_immutable()], that is [_create_immutable_copy()]. *)
Definition to_immutable (self : AzulState) : ImmutableAzulState :=
  {| iagents := (λ agent,
        ImmutableAgentState_new (agent_id agent) (score agent) (lines_number agent)
          (lines_tile agent) (grid_state agent) (floor agent) (floor_tiles agent)
          (number_of agent)) <$> agents self;
     ibag := bag self;
     ibag_used := bag_used self;
     ifactories := (λ factory, ImmutableTileDisplay_new (tiles factory) (total factory))
                     <$> factories self;
     icentre_pool := ImmutableTileDisplay_new (tiles (centre_pool self))
                                              (total (centre_pool self));
     ifirst_agent_taken := first_agent_taken self;
     ifirst_agent := first_agent self;
     inext_first_agent := next_first_agent self |}.

(** The assignments of [from_immutable] to one agent. *)
Definition update_agent (immutable_agent : ImmutableAgentState) : M AgentState unit :=
  modify (set_score (iscore immutable_agent));;
  modify (set_lines_number (ilines_number immutable_agent));;
  modify (set_lines_tile (ilines_tile immutable_agent));;
  modify (set_grid_state (igrid_state immutable_agent));;
  modify (set_floor (ifloor immutable_agent));;
  modify (set_floor_tiles (ifloor_tiles immutable_agent));;
  modify (set_number_of (inumber_of immutable_agent)).

Definition from_immutable (immutable_state : ImmutableAzulState) : M AzulState unit :=
  for_each (zip (seq 0 (length (iagents immutable_state))) (iagents immutable_state))
    (λ '(i, immutable_agent), on_agent i (update_agent immutable_agent));;
  modify (set_bag (ibag immutable_state));;
  modify (set_bag_used (ibag_used immutable_state));;
  for_each (zip (seq 0 (length (ifactories immutable_state))) (ifactories immutable_state))
    (λ '(i, immutable_factory),
       on_factory i (modify (λ _, {| tiles := itiles immutable_factory;
                                     total := itotal immutable_factory |})));;
  modify (λ s, set_centre_pool {| tiles := itiles (icentre_pool immutable_state);
                                  total := itotal (icentre_pool immutable_state) |} s);;
  modify (set_first_agent_taken (ifirst_agent_taken immutable_state));;
  modify (set_first_agent (ifirst_agent immutable_state));;
  modify (set_next_first_agent (inext_first_agent immutable_state)).

(** [ImmutableAzulState.to_mutable()]. *)
Definition to_mutable (rs : RandomSource) (self : ImmutableAzulState) : result AzulState :=
  match AzulState_new rs (Z.of_nat (length (iagents self))) with
  | Raise e => Raise e
  | Ok state =>
      match from_immutable self state with
      | Done _ state => Ok state
      | Raised e _ => Raise e
      end
  end.

(** Board [a'] with everything [from_immutable] assigns taken from the
    immutable board [ia]: only the identifier remains. *)
Definition updated_from (ia : ImmutableAgentState) (a' : AgentState) : AgentState :=
  {| agent_id := agent_id a'; score := iscore ia;
     lines_number := ilines_number ia; lines_tile := ilines_tile ia;
     grid_state := igrid_state ia; floor := ifloor ia; floor_tiles := ifloor_tiles ia;
     number_of := inumber_of ia |}.

Definition display_of (f : ImmutableTileDisplay) : TileDisplay :=
  {| tiles := itiles f; total := itotal f |}.

Lemma from_immutable_agents_loop (ias : list ImmutableAgentState) : ∀ rest pre s,
  agents s = pre ++ rest → (length ias ≤ length rest)%nat →
  for_each (zip (seq (length pre) (length ias)) ias)
    (λ '(i, immutable_agent), on_agent i (update_agent immutable_agent)) s
  = Done () (set_agents (pre ++ zip_with updated_from ias rest ++ drop (length ias) rest) s).
Proof.
  induction ias as [|ia ias IH]; intros rest pre s Hagents Hlen.
  - cbn. mrun. rewrite drop_0, <- Hagents. by destruct s.
  - destruct rest as [|a' rest]; [cbn in Hlen; lia|].
    cbn [length seq zip zip_with for_each drop].
    assert (agents s !! length pre = Some a') as Ha'
      by (rewrite Hagents; by apply list_lookup_middle).
    unfold mbind at 1. unfold M_bind at 1.
    rewrite (on_agent_Done s (length pre) a' (updated_from ia a') _ ()); [|done|done].
    set (s1 := set_agents _ s).
    specialize (IH rest (pre ++ [updated_from ia a']) s1).
    rewrite length_app in IH. cbn [length] in IH. rewrite Nat.add_1_r in IH.
    rewrite IH.
    + subst s1. cbn [set_agents agents]. by rewrite <- !app_assoc.
    + subst s1. cbn [set_agents agents]. rewrite Hagents.
      rewrite insert_app_r_alt, Nat.sub_diag by lia. cbn. by rewrite <- app_assoc.
    + cbn in Hlen. lia.
Qed.

Lemma from_immutable_factories_loop (ifs : list ImmutableTileDisplay) : ∀ rest pre s,
  factories s = pre ++ rest → (length ifs ≤ length rest)%nat →
  for_each (zip (seq (length pre) (length ifs)) ifs)
    (λ '(i, immutable_factory),
       on_factory i (modify (λ _, {| tiles := itiles immutable_factory;
                                     total := itotal immutable_factory |}))) s
  = Done () (set_factories (pre ++ (display_of <$> ifs) ++ drop (length ifs) rest) s).
Proof.
  induction ifs as [|f ifs IH]; intros rest pre s Hfac Hlen.
  - cbn. mrun. rewrite drop_0, <- Hfac. by destruct s.
  - destruct rest as [|f' rest]; [cbn in Hlen; lia|].
    cbn [fmap list_fmap length seq zip for_each drop].
    assert (factories s !! length pre = Some f') as Hf'
      by (rewrite Hfac; by apply list_lookup_middle).
    unfold mbind at 1. unfold M_bind at 1. unfold on_factory at 1. rewrite Hf'.
    unfold modify at 1.
    set (s1 := set_factories _ s).
    specialize (IH rest (pre ++ [display_of f]) s1).
    rewrite length_app in IH. cbn [length] in IH. rewrite Nat.add_1_r in IH.
    rewrite IH.
    + subst s1. cbn [set_factories factories]. by rewrite <- !app_assoc.
    + subst s1. cbn [set_factories factories]. rewrite Hfac.
      rewrite insert_app_r_alt, Nat.sub_diag by lia. cbn. by rewrite <- app_assoc.
    + cbn in Hlen. lia.
Qed.

Lemma display_of_immutable (d : TileDisplay) :
  tiles d ≠ ∅ → display_of (ImmutableTileDisplay_new (tiles d) (total d)) = d.
Proof.
  intros Hd. unfold display_of, ImmutableTileDisplay_new. cbn [itiles itotal].
  rewrite bool_decide_eq_false_2 by done. by destruct d.
Qed.

Lemma displays_of_immutable (fs : list TileDisplay) :
  Forall (λ d, tiles d ≠ ∅) fs →
  display_of <$> ((λ factory, ImmutableTileDisplay_new (tiles factory) (total factory)) <$> fs)
  = fs.
Proof.
  induction 1 as [|d fs Hd _ IH]; [done|].
  rewrite !fmap_cons, IH. by rewrite display_of_immutable.
Qed.

(** Board [a] with the identifier [i]. *)
Definition renumbered (i : nat) (a : AgentState) : AgentState :=
  {| agent_id := Z.of_nat i; score := score a;
     lines_number := lines_number a; lines_tile := lines_tile a;
     grid_state := grid_state a; floor := floor a; floor_tiles := floor_tiles a;
     number_of := number_of a |}.

Lemma boards_of_immutable (l : list AgentState) : ∀ k,
  Forall (λ a, number_of a ≠ ∅) l →
  zip_with updated_from
    ((λ agent,
        ImmutableAgentState_new (agent_id agent) (score agent) (lines_number agent)
          (lines_tile agent) (grid_state agent) (floor agent) (floor_tiles agent)
          (number_of agent)) <$> l)
    ((λ i, AgentState_new (Z.of_nat i)) <$> seq k (length l))
  = zip_with renumbered (seq k (length l)) l.
Proof.
  induction l as [|a l IH]; intros k Hl; [done|].
  apply Forall_cons in Hl as [Ha Hl].
  cbn [length seq fmap list_fmap zip_with]. f_equal; [|by apply IH].
  unfold updated_from, ImmutableAgentState_new, renumbered. cbn.
  by rewrite bool_decide_eq_false_2 by done.
Qed.

Lemma renumbered_same (l : list AgentState) : ∀ k,
  Forall2 (λ i a, agent_id a = Z.of_nat i) (seq k (length l)) l →
  zip_with renumbered (seq k (length l)) l = l.
Proof.
  induction l as [|a l IH]; intros k Hl; [done|].
  cbn [length seq] in *. apply Forall2_cons in Hl as [Ha Hl].
  cbn [zip_with]. rewrite IH by done. f_equal.
  destruct a. unfold renumbered. cbn in *. by rewrite Ha.
Qed.

(** Every dictionary of the state has a key. *)
Definition populated (s : AzulState) : Prop :=
  Forall (λ a, number_of a ≠ ∅) (agents s) ∧ Forall (λ d, tiles d ≠ ∅) (displays s).

#[global] Instance populated_dec s : Decision (populated s).
Proof. unfold populated. apply _. Defined.

(** The immutable copy of a state holds everything needed to build the
    state again: for a state with at least one agent, five factory displays
    and no empty dictionary, [to_mutable] of [to_immutable] returns, whatever
    the random draws of the constructor it calls, and gives the state back,
    the records of placed tiles included, with the boards' identifiers set
    to their positions in the list of agents. *)
Theorem to_mutable_gives_the_state_back (rs : RandomSource) (s : AzulState) :
  agents s ≠ [] → length (factories s) = 5%nat → populated s →
  to_mutable rs (to_immutable s)
  = Ok (set_agents (zip_with renumbered (seq 0 (length (agents s))) (agents s)) s)
  ∧ (Forall2 (λ i a, agent_id a = Z.of_nat i) (seq 0 (length (agents s))) (agents s) →
     to_mutable rs (to_immutable s) = Ok s).
Proof.
  intros Hagents Hfactories [Hcounters Hdisplays].
  assert (to_mutable rs (to_immutable s)
          = Ok (set_agents (zip_with renumbered (seq 0 (length (agents s))) (agents s)) s))
    as Hback.
  { destruct (AzulState_new_shape rs (Z.of_nat (length (agents s))))
      as (new & Hnew & Hnewa & Hnewf).
    { destruct (agents s); [done|]. cbn [length]. lia. }
    unfold py_range in Hnewa. rewrite Nat2Z.id in Hnewa.
    unfold to_mutable, to_immutable.
    cbn [iagents ifactories ibag ibag_used icentre_pool ifirst_agent_taken ifirst_agent
         inext_first_agent].
    rewrite length_fmap, Hnew. unfold from_immutable.
    cbn [iagents ifactories ibag ibag_used icentre_pool ifirst_agent_taken ifirst_agent
         inext_first_agent].
    match goal with |- context [mbind _ (for_each (zip _ ?ias) _) new] =>
      pose proof (from_immutable_agents_loop ias (agents new) [] new eq_refl) as Hloop
    end.
    rewrite length_fmap, Hnewa, length_fmap, length_seq in Hloop.
    specialize (Hloop ltac:(lia)). cbn [length app] in Hloop.
    rewrite ?length_fmap.
    rewrite (bind_Done _ _ _ _ _ Hloop), !bind_modify.
    match goal with |- context [mbind _ (for_each (zip _ ?ifs) _) ?st] =>
      pose proof (from_immutable_factories_loop ifs (factories new) [] st eq_refl) as Hloop'
    end.
    rewrite length_fmap, Hnewf, Hfactories in Hloop'.
    specialize (Hloop' ltac:(lia)). cbn [length app] in Hloop'.
    rewrite ?Hfactories.
    rewrite (bind_Done _ _ _ _ _ Hloop'), !bind_modify.
    unfold modify.
    rewrite boards_of_immutable by done.
    rewrite (drop_ge (_ <$> seq 0 (length (agents s))))
      by (rewrite length_fmap, length_seq; lia).
    rewrite (drop_ge (factories new)) by lia. rewrite !app_nil_r.
    unfold displays in Hdisplays. apply Forall_cons in Hdisplays as [Hcentre Hfacs].
    rewrite displays_of_immutable by done.
    fold (display_of (ImmutableTileDisplay_new (tiles (centre_pool s))
                                               (total (centre_pool s)))).
    rewrite display_of_immutable by done.
    by destruct s. }
  split; [exact Hback|].
  intros Hids. rewrite Hback, (renumbered_same _ 0 Hids). by destruct s.
Qed.

Lemma to_mutable_gives_the_state_back_witness :
  to_mutable plain_source (to_immutable round_end_state)
  = Ok (set_agents (zip_with renumbered (seq 0 (length (agents round_end_state)))
                             (agents round_end_state)) round_end_state)
  ∧ (Forall2 (λ i a, agent_id a = Z.of_nat i)
       (seq 0 (length (agents round_end_state))) (agents round_end_state) →
     to_mutable plain_source (to_immutable round_end_state) = Ok round_end_state).
Proof.
  apply (to_mutable_gives_the_state_back plain_source round_end_state).
  - discriminate.
  - reflexivity.
  - apply (bool_decide_unpack _). vm_compute. exact I.
Defined.

(** The immutable display never refuses: for a colour that is a key of the
    counts, [reaction_tiles] and [add_tiles] return for every number, also
    for one that is not positive or exceeds the count, with the count and
    the total changed by the number; no count is checked, so that counts and
    total can become negative. *)
Theorem immutable_display_never_refuses (d : ImmutableTileDisplay) (number : Z)
    (tile : Tile) (count : Z) :
  itiles d !! tile = Some count →
  reaction_tiles number tile d
  = Ok {| itiles := <[tile := count - number]> (itiles d); itotal := itotal d - number |}
  ∧ add_tiles number tile d
    = Ok {| itiles := <[tile := count + number]> (itiles d); itotal := itotal d + number |}.
Proof.
  intros Hcount. unfold reaction_tiles, add_tiles, ImmutableTileDisplay_new.
  rewrite Hcount.
  rewrite !bool_decide_eq_false_2; [done| |]; apply insert_non_empty.
Qed.

Lemma immutable_display_never_refuses_witness :
  reaction_tiles 5 BLUE (ImmutableTileDisplay_new (tiles sample_display) 4)
  = Ok {| itiles := <[BLUE := 3 - 5]>
                      (itiles (ImmutableTileDisplay_new (tiles sample_display) 4));
          itotal := itotal (ImmutableTileDisplay_new (tiles sample_display) 4) - 5 |}
  ∧ add_tiles 5 BLUE (ImmutableTileDisplay_new (tiles sample_display) 4)
    = Ok {| itiles := <[BLUE := 3 + 5]>
                        (itiles (ImmutableTileDisplay_new (tiles sample_display) 4));
            itotal := itotal (ImmutableTileDisplay_new (tiles sample_display) 4) + 5 |}.
Proof.
  apply (immutable_display_never_refuses
           (ImmutableTileDisplay_new (tiles sample_display) 4) 5 BLUE 3).
  vm_compute. reflexivity.
Defined.

(** ** The placement scheme of the wall *)

(** [_get_tile_at_position(agent, row, col)]: the first colour, in the
    order of [utils.Tile], whose column in [row] is [col]; [None] stands for
    the -1 the source returns when there is none. *)
Definition _get_tile_at_position (row col : nat) : option Tile :=
  head (filter (λ tile_type, grid_scheme row tile_type = col) all_tiles).

(** The placement scheme assigns the cells of every row of the wall to the
    five colours one to one, and [_get_tile_at_position] inverts it: on the
    wall it finds the one colour of a cell and never gives -1, and no colour
    has the same column in two rows. *)
Theorem wall_cells_and_colours (row col : nat) (tile : Tile) :
  (row < 5)%nat → (col < 5)%nat →
  (∃ t, _get_tile_at_position row col = Some t
        ∧ ∀ t', grid_scheme row t' = col ↔ t' = t)
  ∧ _get_tile_at_position row (grid_scheme row tile) = Some tile
  ∧ (∀ row', (row' < 5)%nat → grid_scheme row' tile = grid_scheme row tile → row' = row).
Proof.
  intros Hrow Hcol.
  assert (row = 0 ∨ row = 1 ∨ row = 2 ∨ row = 3 ∨ row = 4)%nat as Hr by lia.
  assert (col = 0 ∨ col = 1 ∨ col = 2 ∨ col = 3 ∨ col = 4)%nat as Hc by lia.
  clear Hrow Hcol. split; [|split].
  - destruct Hr as [->|[->|[->|[->| ->]]]]; destruct Hc as [->|[->|[->|[->| ->]]]];
      eexists; (split; [vm_compute; reflexivity|]);
      intros t'; (split; [destruct t'; vm_compute; congruence|intros ->; reflexivity]).
  - destruct Hr as [->|[->|[->|[->| ->]]]]; destruct tile; vm_compute; reflexivity.
  - intros row' Hrow'.
    assert (row' = 0 ∨ row' = 1 ∨ row' = 2 ∨ row' = 3 ∨ row' = 4)%nat as Hr' by lia.
    destruct Hr as [->|[->|[->|[->| ->]]]]; destruct Hr' as [->|[->|[->|[->| ->]]]];
      destruct tile; vm_compute; congruence.
Qed.

Lemma wall_cells_and_colours_witness :
  (∃ t, _get_tile_at_position 3 1 = Some t
        ∧ ∀ t', grid_scheme 3 t' = 1%nat ↔ t' = t)
  ∧ _get_tile_at_position 3 (grid_scheme 3 RED) = Some RED
  ∧ (∀ row', (row' < 5)%nat → grid_scheme row' RED = grid_scheme 3 RED → row' = 3%nat).
Proof. apply (wall_cells_and_colours 3 1 RED); lia. Defined.

(** ** The record of placed tiles *)

(** Number of wall cells of a colour that are occupied. *)
Definition wall_count (g : list (list Z)) (t : Tile) : Z :=
  sumZ ((λ row, grid_get g row (grid_scheme row t)) <$> seq 0 5).

(** [number_of] is in step with the wall: for every colour it holds the
    number of occupied cells of that colour. *)
Definition counters_in_step (a : AgentState) : Prop :=
  Forall (λ t, number_of a !!! t = wall_count (grid_state a) t) all_tiles.

#[global] Instance counters_in_step_dec a : Decision (counters_in_step a).
Proof. unfold counters_in_step. apply _. Defined.

Ltac eval_closed_tests :=
  repeat match goal with
         | |- context [bool_decide ?P] =>
             let b := eval vm_compute in (bool_decide P) in
             change (bool_decide P) with b
         end.

Lemma wall_count_set g i tc t :
  grid_wf g → (i < 5)%nat → grid_get g i (grid_scheme i tc) = 0 →
  wall_count (grid_set g i (grid_scheme i tc) 1) t
  = wall_count g t + (if bool_decide (t = tc) then 1 else 0).
Proof.
  intros Hg Hi Hcell. pose proof (grid_wf_row g i Hg Hi) as Hrow.
  pose proof (grid_scheme_lt i tc Hi) as Hcol. destruct Hg as [Hlen _].
  unfold wall_count, sumZ. cbn [seq fmap list_fmap foldr].
  rewrite !grid_get_set by lia.
  assert (i = 0 ∨ i = 1 ∨ i = 2 ∨ i = 3 ∨ i = 4)%nat as Hcases by lia.
  destruct Hcases as [->|[->|[->|[->| ->]]]]; destruct t, tc;
    cbn [grid_scheme] in *; eval_closed_tests; cbv iota; lia.
Qed.

Lemma ScoreRound_line_in_step i acc a acc' a' :
  agent_wf a → (i < 5)%nat → counters_in_step a →
  ScoreRound_line i acc a = Done acc' a' → counters_in_step a'.
Proof.
  intros Hwf Hi Hstep Hrun. destruct Hwf as (_ & _ & Hg & Hlines).
  destruct (proj1 (Forall_forall _ _) Hlines i) as [_ Hassigned]; [apply elem_of_seq; lia|].
  destruct (decide (lines_number a !!! i = Z.of_nat i + 1)) as [Hfull|Hne].
  - destruct (lines_tile a !!! i) as [tc|] eqn:Htc; [|lia].
    destruct acc as [used inc].
    rewrite (ScoreRound_line_full i used inc a tc Hfull Htc) in Hrun.
    injection Hrun as _ <-. unfold counters_in_step, line_placed.
    cbn [number_of grid_state set_grid_state set_lines_number set_lines_tile set_number_of].
    apply Forall_forall. intros t _.
    pose proof (proj1 (Forall_forall _ _) Hstep t (elem_of_all_tiles t)) as Ht.
    cbv beta in Ht. rewrite wall_count_set by done. case_bool_decide as Heq.
    + subst t. rewrite lookup_total_insert_eq. lia.
    + rewrite lookup_total_insert_ne by done. lia.
  - rewrite ScoreRound_line_skip in Hrun by done. by injection Hrun as _ <-.
Qed.

Lemma ScoreRound_lines_in_step rows : ∀ acc a acc' a',
  NoDup rows → Forall (λ i, (i < 5)%nat) rows →
  agent_wf a → counters_in_step a →
  ScoreRound_lines rows acc a = Done acc' a' → counters_in_step a'.
Proof.
  induction rows as [|i rows IH]; intros acc a acc' a' Hnd Hlt Hwf Hstep Hrun.
  - cbn [ScoreRound_lines] in Hrun. by injection Hrun as _ <-.
  - apply NoDup_cons in Hnd as [_ Hnd]. apply Forall_cons in Hlt as [Hi Hlt].
    destruct acc as [used inc].
    destruct (ScoreRound_line_wf i used inc a Hwf Hi)
      as (used1 & inc1 & a1 & Hrun1 & Hwf1 & _).
    cbn [ScoreRound_lines] in Hrun. rewrite (bind_Done _ _ _ _ _ Hrun1) in Hrun.
    apply (IH (used1, inc1) a1 acc' a' Hnd Hlt Hwf1); [|done].
    by apply (ScoreRound_line_in_step i (used, inc) a (used1, inc1) a1).
Qed.

(** [ScoreRound] keeps the record of placed tiles in step with the wall: on
    a well-formed board on which [number_of] holds, for every colour, the
    number of occupied wall cells of that colour, it still does so after the
    round's tiles were placed.  [GetCompletedSets], which reads only
    [number_of], then counts the colours whose five cells are occupied. *)
Theorem ScoreRound_keeps_number_of_in_step (a : AgentState) :
  agent_wf a → counters_in_step a →
  ∃ used a', ScoreRound a = Done (score a', used) a'
    ∧ counters_in_step a'
    ∧ GetCompletedSets a'
      = Z.of_nat (length (filter (λ t, wall_count (grid_state a') t = 5) all_tiles)).
Proof.
  intros Hwf Hstep.
  destruct (ScoreRound_lines_wf (seq 0 5) [] 0 a)
    as (used1 & inc1 & a1 & Hrun1 & _); [apply NoDup_seq| |done|].
  { apply Forall_forall. intros i Hi%elem_of_seq. lia. }
  assert (counters_in_step a1) as Hstep1.
  { apply (ScoreRound_lines_in_step (seq 0 5) ([], 0) a (used1, inc1) a1);
      [apply NoDup_seq| |done|done|done].
    apply Forall_forall. intros i Hi%elem_of_seq. lia. }
  unfold ScoreRound. change (py_range GRID_SIZE) with (seq 0 5).
  rewrite (bind_Done _ _ _ _ _ Hrun1). mrun.
  eexists _, _. split; [reflexivity|].
  assert (∀ a2, number_of a2 = number_of a1 → grid_state a2 = grid_state a1 →
                counters_in_step a2
                ∧ GetCompletedSets a2
                  = Z.of_nat (length (filter (λ t, wall_count (grid_state a2) t = 5)
                                             all_tiles))) as Hframe.
  { intros a2 Hno Hgrid. unfold counters_in_step, GetCompletedSets. rewrite Hno, Hgrid.
    split; [done|]. f_equal. f_equal. apply filter_iff_in. intros t Ht.
    pose proof (proj1 (Forall_forall _ _) Hstep1 t Ht) as Heq. cbv beta in Heq.
    rewrite Heq. done. }
  by apply Hframe.
Qed.

Lemma ScoreRound_keeps_number_of_in_step_witness :
  ∃ used a', ScoreRound (set_number_of (<[YELLOW := 1]> (<[BLUE := 1]> zero_counts))
                                      round_end_board)
             = Done (score a', used) a'
    ∧ counters_in_step a'
    ∧ GetCompletedSets a'
      = Z.of_nat (length (filter (λ t, wall_count (grid_state a') t = 5) all_tiles)).
Proof.
  apply (ScoreRound_keeps_number_of_in_step
           (set_number_of (<[YELLOW := 1]> (<[BLUE := 1]> zero_counts)) round_end_board)).
  - apply (bool_decide_unpack _). vm_compute. exact I.
  - apply (bool_decide_unpack _). vm_compute. exact I.
Defined.
